(** * Resource estimates for Shor's algorithm on elliptic curves

    A shallow embedding of [ResourceEstimator/shor_estimate.py]: the cost
    algebra ([SingleCost], [Cost]), the fitted lookup and point-addition
    formulas, the loader of fixed-modulus tables and the window search
    [get_optimal_shor], followed by the properties proved about them.

    Numbers.  The script computes with Python numbers: unbounded integers
    and binary64 doubles.  It is embedded twice.

    - With every quantity an exact rational [Q]: the decimal literals of
      the script are the rationals they denote, integers are injected
      with [inject_Z], Python's numeric [==] is [Qeq] and
      [math.floor(n/(i+1))] is the integer quotient.  Rounding, overflow
      and NaN are outside this reading; it carries the properties that do
      not turn on them: bounds, signs and monotonicity of the formulas,
      the comparisons of the search, the loader and the store of objects.

    - In the modules [Python] and [Script], with Python's numbers
      themselves: an integer is a [Z], a double is a primitive float with
      the operations of IEEE 754 binary64, an integer that meets a double
      is converted, and the conversions, the true division and [2**w]
      raise as the interpreter does.  This reading carries the properties
      that rounding and overflow decide: the round trip of [add] and
      [subtract], the window sizes returned, the remainder window. *)

From Stdlib Require Import ZArith QArith Qround Qabs Qminmax Qpower Lqa Lia List Bool.
From Stdlib Require Import String Ascii DecimalString.
From Stdlib Require Import Floats.
From stdpp Require Import base option list strings gmap.

Local Open Scope Q_scope.

(** The decimal literals of the script are not doubles; each stands for
    the double nearest to it. *)
#[local] Set Warnings "-inexact-float".

(** ** Python's numeric primitives *)

(** [a < b] on numbers, as a boolean. *)
Definition Qltb (a b : Q) : bool := negb (Qle_bool b a).

(** Built-in [max(a, b)]: the first argument is kept unless the second is
    strictly greater. *)
Definition pymax (a b : Q) : Q := if Qltb a b then b else a.

(** [range(k)] for an integer [k]: [0, 1, ..., k-1], empty when [k <= 0]. *)
Definition range (k : Z) : list Z := map Z.of_nat (seq 0 (Z.to_nat k)).

(** ** class SingleCost: all cost metrics of a single circuit *)

Module SingleCost.

Record t : Type := mk {
  width : Q;
  T_depth : Q;
  full_depth : Q;
  measure : Q;
  T_count : Q;
  single_qubit : Q;
  CNOT : Q
}.

(** Costs of two sequential circuits; uses the maximum width. *)
Definition add (self cost2 : t) : t :=
  {| width := pymax (width self) (width cost2);
     T_depth := T_depth self + T_depth cost2;
     T_count := T_count self + T_count cost2;
     full_depth := full_depth self + full_depth cost2;
     measure := measure self + measure cost2;
     single_qubit := single_qubit self + single_qubit cost2;
     CNOT := CNOT self + CNOT cost2 |}.

(** Subtracts; the width stays the same. *)
Definition subtract (self cost2 : t) : t :=
  {| width := width self;
     T_depth := T_depth self - T_depth cost2;
     T_count := T_count self - T_count cost2;
     full_depth := full_depth self - full_depth cost2;
     measure := measure self - measure cost2;
     single_qubit := single_qubit self - single_qubit cost2;
     CNOT := CNOT self - CNOT cost2 |}.

Definition multiply (self : t) (n : Q) : t :=
  {| width := width self;
     T_depth := T_depth self * n;
     T_count := T_count self * n;
     full_depth := full_depth self * n;
     measure := measure self * n;
     single_qubit := single_qubit self * n;
     CNOT := CNOT self * n |}.

(** Attribute assignments [self.width = v] and [self.full_depth = v]. *)
Definition set_width (self : t) (v : Q) : t :=
  {| width := v;
     T_depth := T_depth self;
     T_count := T_count self;
     full_depth := full_depth self;
     measure := measure self;
     single_qubit := single_qubit self;
     CNOT := CNOT self |}.

Definition set_full_depth (self : t) (v : Q) : t :=
  {| width := width self;
     T_depth := T_depth self;
     T_count := T_count self;
     full_depth := v;
     measure := measure self;
     single_qubit := single_qubit self;
     CNOT := CNOT self |}.


End SingleCost.

(** ** class Cost: the costs when optimizing for depth, T count or width *)

Module Cost.

Record t : Type := mk {
  low_depth : SingleCost.t;
  low_T : SingleCost.t;
  low_width : SingleCost.t
}.

Definition add (self cost2 : t) : t :=
  {| low_depth := SingleCost.add (low_depth self) (low_depth cost2);
     low_T := SingleCost.add (low_T self) (low_T cost2);
     low_width := SingleCost.add (low_width self) (low_width cost2) |}.

Definition subtract (self cost2 : t) : t :=
  {| low_depth := SingleCost.subtract (low_depth self) (low_depth cost2);
     low_T := SingleCost.subtract (low_T self) (low_T cost2);
     low_width := SingleCost.subtract (low_width self) (low_width cost2) |}.

Definition multiply (self : t) (n : Q) : t :=
  {| low_depth := SingleCost.multiply (low_depth self) n;
     low_T := SingleCost.multiply (low_T self) n;
     low_width := SingleCost.multiply (low_width self) n |}.

(** The three statements [c.low_depth.width += d], [c.low_T.width += t],
    [c.low_width.width += w], in this order. *)
Definition add_widths (c : t) (d tw w : Q) : t :=
  {| low_depth :=
       SingleCost.set_width (low_depth c) (SingleCost.width (low_depth c) + d);
     low_T :=
       SingleCost.set_width (low_T c) (SingleCost.width (low_T c) + tw);
     low_width :=
       SingleCost.set_width (low_width c) (SingleCost.width (low_width c) + w) |}.

(** The three statements [c.low_depth.width -= d], ... *)
Definition sub_widths (c : t) (d tw w : Q) : t :=
  {| low_depth :=
       SingleCost.set_width (low_depth c) (SingleCost.width (low_depth c) - d);
     low_T :=
       SingleCost.set_width (low_T c) (SingleCost.width (low_T c) - tw);
     low_width :=
       SingleCost.set_width (low_width c) (SingleCost.width (low_width c) - w) |}.

End Cost.

(** ** Lookup_Cost: one lookup of an n-bit point among 2^window_size points *)

Definition Lookup_Cost (n window_size : Z) : Cost.t :=
  let main_exponent := Qpower 2 window_size in
  let n := inject_Z n in
  let window_size := inject_Z window_size in
  {| Cost.low_T :=
       {| SingleCost.width := 2.678 * window_size + 19.81 + 2.01 * n;
          SingleCost.T_depth := 0.50733 * main_exponent + 23.0;
          SingleCost.full_depth := 17.04 * main_exponent + 101.04;
          SingleCost.measure := 1.503 * main_exponent + 4.071 + 2.0 * n;
          SingleCost.T_count := 4.0 * main_exponent + 24.0;
          SingleCost.single_qubit := 7.74 * main_exponent + 10.68 + 2.0 * n;
          SingleCost.CNOT := 115.13 * main_exponent + 117.76 |};
     Cost.low_width :=
       {| SingleCost.width := 2.657 * window_size + 21.623 + 2.0 * n;
          SingleCost.T_depth := 0.50733 * main_exponent + 23.0;
          SingleCost.full_depth := 16.96 * main_exponent + 97.98;
          SingleCost.measure := 1.516 * main_exponent + 2.288 + 2.0 * n;
          SingleCost.T_count := 4.0 * main_exponent + 24.0;
          SingleCost.single_qubit := 7.793 * main_exponent + 5.75 + 2.0 * n;
          SingleCost.CNOT := main_exponent * (110.73 + 0.016 * n) + 136.793 |};
     Cost.low_depth :=
       {| SingleCost.width := 2.657 * window_size + 21.623 + 2.0 * n;
          SingleCost.T_depth := 0.50733 * main_exponent + 23.0;
          SingleCost.full_depth := 16.96 * main_exponent + 97.63;
          SingleCost.measure := 1.516 * main_exponent + 2.185 + 2.0 * n;
          SingleCost.T_count := 4.0 * main_exponent + 24.0;
          SingleCost.single_qubit := 7.793 * main_exponent + 5.218 + 2.0 * n;
          SingleCost.CNOT := main_exponent * (110.74 + 0.016 * n) + 134.52 |} |}.

(** ** point_addition_cost: one point addition with window size 8 *)

Section PointAddition.

(** The value of [math.log(n)/math.log(2.0)]: the binary logarithm is
    not a rational function, so it is a parameter of the formulas. *)
Variable lg : Z -> Q.

Definition point_addition_cost (n : Z) : Cost.t :=
  let nsquared := inject_Z (n * n) in
  let lgn := lg n in
  let nlgn := inject_Z n * lgn in
  let n2lgn := nsquared * lgn in
  let n := inject_Z n in
  {| Cost.low_T :=
       {| SingleCost.width := 10.0 * n + 1.5 * inject_Z (Qfloor lgn) + 18.9;
          SingleCost.T_depth := 431.6 * nsquared + 17572;
          SingleCost.full_depth := 1562 * nsquared + 120830;
          SingleCost.measure := 85 * nsquared + 19465;
          SingleCost.T_count := 1182 * nsquared + 92166;
          SingleCost.single_qubit := 648 * nsquared + 101890;
          SingleCost.CNOT := 2391 * nsquared + 473340 |};
     Cost.low_width :=
       {| SingleCost.width := 7.99 * n + 3.81 * inject_Z (Qfloor lgn) + 17.1;
          SingleCost.T_depth := 144.5 * n2lgn + 626302;
          SingleCost.full_depth := 464.6 * n2lgn + 2074976;
          SingleCost.measure := 753.7 * n2lgn - 21095;
          SingleCost.T_count := 503.4 * n2lgn + 1318387;
          SingleCost.single_qubit := 167.7 * n2lgn + 544865;
          SingleCost.CNOT := 751.2 * n2lgn + 2296571 |};
     Cost.low_depth :=
       {| SingleCost.width := 11.0 * n + 28.6;
          SingleCost.T_depth := 226.1 * nlgn + 14469;
          SingleCost.full_depth := 1485 * nlgn + 52413;
          SingleCost.measure := 202.5 * nsquared - 14509;
          SingleCost.T_count := 2745 * nsquared - 85878;
          SingleCost.single_qubit := 1462 * nsquared - 35830;
          SingleCost.CNOT := 6481 * nsquared + 44882 |} |}.

End PointAddition.

(** ** get_optimal_shor: the search over window sizes *)

(** The six values the loop of [get_optimal_shor] carries, which are also
    the six entries of the dictionary it returns. *)
Record Best : Type := mkBest {
  best_T : Cost.t;
  best_depth : Cost.t;
  best_width : Cost.t;
  best_T_size : Z;
  best_depth_size : Z;
  best_width_size : Z
}.

Definition eight_lookup_cost (n : Z) : Cost.t :=
  Cost.multiply (Lookup_Cost n 8) 6.

(** The cost of an addition without any lookups, with the qubits of the
    lookup removed as well. *)
Definition blank_addition_cost (addition_cost : Cost.t) (n : Z) : Cost.t :=
  let e := eight_lookup_cost n in
  Cost.sub_widths (Cost.subtract addition_cost e)
    (SingleCost.width (Cost.low_depth e))
    (SingleCost.width (Cost.low_T e))
    (SingleCost.width (Cost.low_width e)).

(** [math.floor(n / (i+1))], with [i+1] positive: the quotient rounded
    down.  (The script divides as doubles; for bit-widths below 2^53 the
    floor of that quotient is the integer quotient, which
    [num_windows_below_2_53] proves of [Script.num_windows].) *)
Definition num_windows (n i : Z) : Z := (n / (i + 1))%Z.

Definition remainder_window (n i : Z) : Z :=
  Z.max (n - num_windows n i * (i + 1)) 0.

Definition main_lookup_costs (n i : Z) : Cost.t :=
  Cost.multiply (Lookup_Cost n i) 6.

Definition second_lookup_costs (n i : Z) : Cost.t :=
  Cost.multiply (Lookup_Cost n (remainder_window n i)) 6.

(** The value of [total_cost] when the comparisons of iteration [i] are
    reached. *)
Definition total_cost (blank : Cost.t) (n i : Z) : Cost.t :=
  let main := main_lookup_costs n i in
  let main_addition_cost := Cost.add blank main in
  let total :=
    Cost.multiply main_addition_cost (inject_Z (2 * num_windows n i)) in
  if (0 <? remainder_window n i)%Z then
    let second := second_lookup_costs n i in
    let second_addition_cost := Cost.add blank second in
    let total := Cost.add total (Cost.multiply second_addition_cost 2) in
    Cost.add_widths total
      (pymax (SingleCost.width (Cost.low_depth second))
             (SingleCost.width (Cost.low_depth main)))
      (pymax (SingleCost.width (Cost.low_T second))
             (SingleCost.width (Cost.low_T main)))
      (pymax (SingleCost.width (Cost.low_width second))
             (SingleCost.width (Cost.low_width main)))
  else
    Cost.add_widths total
      (SingleCost.width (Cost.low_depth main))
      (SingleCost.width (Cost.low_T main))
      (SingleCost.width (Cost.low_width main)).

(** The three comparisons that end an iteration. *)
Definition update_T (total : Cost.t) (i : Z) (b : Best) : Best :=
  if Qltb (SingleCost.T_count (Cost.low_T total))
          (SingleCost.T_count (Cost.low_T (best_T b)))
  then mkBest total (best_depth b) (best_width b)
              i (best_depth_size b) (best_width_size b)
  else b.

Definition update_width (total : Cost.t) (i : Z) (b : Best) : Best :=
  if Qltb (SingleCost.T_count (Cost.low_width total))
          (SingleCost.T_count (Cost.low_width (best_width b)))
  then mkBest (best_T b) (best_depth b) total
              (best_T_size b) (best_depth_size b) i
  else b.

Definition update_depth (total : Cost.t) (i : Z) (b : Best) : Best :=
  if Qltb (SingleCost.T_depth (Cost.low_depth total))
          (SingleCost.T_depth (Cost.low_depth (best_depth b)))
  then mkBest (best_T b) total (best_width b)
              (best_T_size b) i (best_width_size b)
  else b.

Definition compare (total : Cost.t) (i : Z) (b : Best) : Best :=
  update_depth total i (update_width total i (update_T total i b)).

(** One iteration of the loop. *)
Definition loop_body (blank : Cost.t) (n : Z) (b : Best) (i : Z) : Best :=
  compare (total_cost blank n i) i b.

(** The values before the loop: the unwindowed cost, at window size 8. *)
Definition initial_best (addition_cost : Cost.t) (n : Z) : Best :=
  let seed := Cost.multiply addition_cost (inject_Z (2 * n)) in
  mkBest seed seed seed 8 8 8.

(** The loop runs over [range(int(n/2))], and [int] truncates towards
    zero. *)
Definition get_optimal_shor (addition_cost : Cost.t) (n : Z) : Best :=
  fold_left (loop_body (blank_addition_cost addition_cost n) n)
            (range (Z.quot n 2))
            (initial_best addition_cost n).

(** ** load_from_csv and fixed_modulus_point_addition_cost *)

(** The exceptions the loader can raise. *)
Inductive exn : Type :=
  | FileNotFoundError (file_name : string)
  | KeyError (key : string)
  | TypeError
  | ValueError (text : string).

(** A computation that returns a value or raises. *)
Definition result (A : Type) : Type := exn + A.

Definition raise {A : Type} (e : exn) : result A := inl e.

Definition bind {A B : Type} (m : result A) (k : A -> result B) : result B :=
  match m with
  | inl e => inl e
  | inr a => k a
  end.

Notation "m >>= k" := (bind m k) (at level 60, right associativity).

(** [str(n)] of an integer. *)
Definition str (n : Z) : string := NilZero.string_of_int (Z.to_int n).

(** [int(s)] of a string, base 10: surrounding white space, an optional
    sign, then digits, where single underscores may separate digits. *)
Definition is_space (c : ascii) : bool :=
  let k := nat_of_ascii c in
  ((9 <=? k) && (k <=? 13) || (28 <=? k) && (k <=? 32))%nat.

Definition digit_of (c : ascii) : option Z :=
  let k := nat_of_ascii c in
  if ((48 <=? k) && (k <=? 57))%nat then Some (Z.of_nat k - 48)%Z else None.

Fixpoint int_digits (acc : Z) (after_digit : bool) (s : list ascii) : option Z :=
  match s with
  | [] => if after_digit then Some acc else None
  | c :: s' =>
      match digit_of c with
      | Some d => int_digits (10 * acc + d)%Z true s'
      | None =>
          if Ascii.eqb c "_" && after_digit then int_digits acc false s'
          else None
      end
  end.

Fixpoint lstrip (s : list ascii) : list ascii :=
  match s with
  | c :: s' => if is_space c then lstrip s' else s
  | [] => []
  end.

Definition strip (s : list ascii) : list ascii :=
  rev (lstrip (rev (lstrip s))).

Definition py_int (s : string) : option Z :=
  match strip (list_ascii_of_string s) with
  | "-"%char :: ds => Z.opp <$> int_digits 0 false ds
  | "+"%char :: ds => int_digits 0 false ds
  | ds => int_digits 0 false ds
  end.

(** A row of [csv.DictReader]: a dictionary from the names of the header
    to the text of the cell, [None] for a cell the row is too short for. *)
Definition csv_row : Type := gmap string (option string).

(** [row[key]] *)
Definition getitem (row : csv_row) (key : string) : result (option string) :=
  match row !! key with
  | Some v => inr v
  | None => raise (KeyError key)
  end.

(** [int(row[key])] *)
Definition int_of (row : csv_row) (key : string) : result Q :=
  getitem row key >>= fun v =>
  match v with
  | None => raise TypeError
  | Some s =>
      match py_int s with
      | Some z => inr (inject_Z z)
      | None => raise (ValueError s)
      end
  end.

Definition zero_cost : SingleCost.t := SingleCost.mk 0 0 0 0 0 0 0.

(** The six assignments of the branch [existing_costs is None]; the
    [print] that follows them writes to the standard output and changes
    nothing here. *)
Definition assign_counts (row : csv_row) (costs : SingleCost.t)
  : result SingleCost.t :=
  int_of row "CNOT count" >>= fun cnot =>
  int_of row "1-qubit Clifford count" >>= fun single =>
  int_of row "T count" >>= fun tcount =>
  int_of row "M count" >>= fun m =>
  int_of row "T depth" >>= fun tdepth =>
  int_of row "extra width" >>= fun w =>
  inr {| SingleCost.width := w;
         SingleCost.T_depth := tdepth;
         SingleCost.full_depth := SingleCost.full_depth costs;
         SingleCost.measure := m;
         SingleCost.T_count := tcount;
         SingleCost.single_qubit := single;
         SingleCost.CNOT := cnot |}.

(** The loop over the rows.  [costs] is the local variable of the same
    name; [existing_costs] is threaded through because the second branch
    assigns to the object it names. *)
Fixpoint load_rows (rows : list csv_row) (n : Z)
    (existing_costs : option SingleCost.t) (costs : SingleCost.t)
  : result SingleCost.t :=
  match rows with
  | [] => inr costs
  | row :: rows' =>
      getitem row "size" >>= fun size =>
      if decide (size = Some (str n)) then
        match existing_costs with
        | None =>
            assign_counts row costs >>= fun costs' =>
            load_rows rows' n None costs'
        | Some e =>
            int_of row "Full depth" >>= fun fd =>
            let e' := SingleCost.set_full_depth e fd in
            load_rows rows' n (Some e') e'
        end
      else load_rows rows' n existing_costs costs
  end.

(** The files that can be opened: a name gives the rows read from it. *)
Definition file_system : Type := string -> option (list csv_row).

Definition load_from_csv (fs : file_system) (csv_file_name : string) (n : Z)
    (existing_costs : option SingleCost.t) : result SingleCost.t :=
  match fs csv_file_name with
  | None => raise (FileNotFoundError csv_file_name)
  | Some rows => load_rows rows n existing_costs zero_cost
  end.

Definition fixed_modulus_point_addition_cost (fs : file_system) (n : Z)
  : result Cost.t :=
  load_from_csv fs "EllipticCurveEstimates/LowT/Fixed-modulus-signed.csv"
    n None
  >>= fun low_T_costs =>
  load_from_csv fs
    "EllipticCurveEstimates/LowT/Fixed-modulus-signed-all-gates.csv"
    n (Some low_T_costs)
  >>= fun low_T_costs =>
  load_from_csv fs "EllipticCurveEstimates/LowWidth/Fixed-modulus-signed.csv"
    n None
  >>= fun low_width_costs =>
  load_from_csv fs
    "EllipticCurveEstimates/LowWidth/Fixed-modulus-signed-all-gates.csv"
    n (Some low_width_costs)
  >>= fun low_width_costs =>
  load_from_csv fs "EllipticCurveEstimates/LowDepth/Fixed-modulus-signed.csv"
    n None
  >>= fun low_depth_costs =>
  load_from_csv fs
    "EllipticCurveEstimates/LowDepth/Fixed-modulus-signed-all-gates.csv"
    n (Some low_depth_costs)
  >>= fun low_depth_costs =>
  inr {| Cost.low_depth := low_depth_costs;
         Cost.low_T := low_T_costs;
         Cost.low_width := low_width_costs |}.

(** ** The same search on a store of objects

    In the script a [Cost] holds references to three [SingleCost] objects,
    the methods [add], [subtract] and [multiply] construct new objects, and
    [get_optimal_shor] assigns to the attribute [width] of objects in
    place.  This model keeps the store explicit: an object is named by its
    index in the store, constructing one appends it, and an assignment to an
    attribute replaces the object at its index. *)

Declare Scope heap_scope.
Delimit Scope heap_scope with heap.

Module Heap.

Definition loc : Type := nat.

Inductive obj : Type :=
  | OSingle (s : SingleCost.t)
  | OCost (low_depth low_T low_width : loc).

Abbreviation heap := (list obj).

(** A computation on the store; [None] is an attribute access on
    something that is not an object of the expected class. *)
Definition M (A : Type) : Type := heap -> option (A * heap).

Definition ret {A : Type} (a : A) : M A := fun h => Some (a, h).

Definition mbind {A B : Type} (m : M A) (k : A -> M B) : M B :=
  fun h => match m h with
           | Some (a, h') => k a h'
           | None => None
           end.

Notation "m >>= k" := (mbind m k) (at level 60, right associativity)
  : heap_scope.
Local Open Scope heap_scope.

Definition alloc (o : obj) : M loc :=
  fun h => Some (length h, h ++ [o]).

Definition get_single (l : loc) : M SingleCost.t :=
  fun h => match h !! l with
           | Some (OSingle s) => Some (s, h)
           | _ => None
           end.

Definition put_single (l : loc) (s : SingleCost.t) : M unit :=
  fun h => match h !! l with
           | Some (OSingle _) => Some (tt, <[l := OSingle s]> h)
           | _ => None
           end.

(** The attributes [low_depth], [low_T], [low_width] of a [Cost]. *)
Definition get_cost (c : loc) : M (loc * loc * loc) :=
  fun h => match h !! c with
           | Some (OCost d t w) => Some ((d, t, w), h)
           | _ => None
           end.

Definition low_depth (c : loc) : M loc :=
  get_cost c >>= fun '(d, _, _) => ret d.

Definition low_T (c : loc) : M loc :=
  get_cost c >>= fun '(_, t, _) => ret t.

Definition low_width (c : loc) : M loc :=
  get_cost c >>= fun '(_, _, w) => ret w.

(** Methods of [SingleCost]. *)
Definition SingleCost_add (self cost2 : loc) : M loc :=
  get_single self >>= fun a =>
  get_single cost2 >>= fun b =>
  alloc (OSingle (SingleCost.add a b)).

Definition SingleCost_subtract (self cost2 : loc) : M loc :=
  get_single self >>= fun a =>
  get_single cost2 >>= fun b =>
  alloc (OSingle (SingleCost.subtract a b)).

Definition SingleCost_multiply (self : loc) (n : Q) : M loc :=
  get_single self >>= fun a =>
  alloc (OSingle (SingleCost.multiply a n)).

(** Methods of [Cost]; the arguments of the constructor are evaluated in
    the order low_depth, low_T, low_width. *)
Definition Cost_add (self cost2 : loc) : M loc :=
  low_depth self >>= fun d1 => low_depth cost2 >>= fun d2 =>
  SingleCost_add d1 d2 >>= fun d =>
  low_T self >>= fun t1 => low_T cost2 >>= fun t2 =>
  SingleCost_add t1 t2 >>= fun t =>
  low_width self >>= fun w1 => low_width cost2 >>= fun w2 =>
  SingleCost_add w1 w2 >>= fun w =>
  alloc (OCost d t w).

Definition Cost_subtract (self cost2 : loc) : M loc :=
  low_depth self >>= fun d1 => low_depth cost2 >>= fun d2 =>
  SingleCost_subtract d1 d2 >>= fun d =>
  low_T self >>= fun t1 => low_T cost2 >>= fun t2 =>
  SingleCost_subtract t1 t2 >>= fun t =>
  low_width self >>= fun w1 => low_width cost2 >>= fun w2 =>
  SingleCost_subtract w1 w2 >>= fun w =>
  alloc (OCost d t w).

Definition Cost_multiply (self : loc) (n : Q) : M loc :=
  low_depth self >>= fun d1 => SingleCost_multiply d1 n >>= fun d =>
  low_T self >>= fun t1 => SingleCost_multiply t1 n >>= fun t =>
  low_width self >>= fun w1 => SingleCost_multiply w1 n >>= fun w =>
  alloc (OCost d t w).

(** [Lookup_Cost] constructs low_T, low_width, low_depth, then the
    [Cost]. *)
Definition Lookup_Cost (n window_size : Z) : M loc :=
  let c := Lookup_Cost n window_size in
  alloc (OSingle (Cost.low_T c)) >>= fun t =>
  alloc (OSingle (Cost.low_width c)) >>= fun w =>
  alloc (OSingle (Cost.low_depth c)) >>= fun d =>
  alloc (OCost d t w).

(** [copy.deepcopy] of a [Cost]: every object reachable from it is
    copied once, so attributes that name the same object name the same
    copy. *)
Definition copy_single (s : loc) : M loc :=
  get_single s >>= fun v => alloc (OSingle v).

Definition deepcopy (c : loc) : M loc :=
  get_cost c >>= fun '(d, t, w) =>
  copy_single d >>= fun d' =>
  (if decide (t = d) then ret d' else copy_single t) >>= fun t' =>
  (if decide (w = d) then ret d'
   else if decide (w = t) then ret t' else copy_single w) >>= fun w' =>
  alloc (OCost d' t' w').

(** [s.width] and the assignment [s.width = v]. *)
Definition get_width (s : loc) : M Q :=
  get_single s >>= fun v => ret (SingleCost.width v).

Definition set_width (s : loc) (v : Q) : M unit :=
  get_single s >>= fun x => put_single s (SingleCost.set_width x v).

Definition get_T_count (s : loc) : M Q :=
  get_single s >>= fun v => ret (SingleCost.T_count v).

Definition get_T_depth (s : loc) : M Q :=
  get_single s >>= fun v => ret (SingleCost.T_depth v).

(** [c.attr.width -= e.attr.width] for one of the three attributes. *)
Definition isub_width (attr : loc -> M loc) (c e : loc) : M unit :=
  attr c >>= fun target => get_width target >>= fun old =>
  attr e >>= fun s => get_width s >>= fun v =>
  set_width target (old - v).

(** [c.attr.width += e.attr.width] *)
Definition iadd_width (attr : loc -> M loc) (c e : loc) : M unit :=
  attr c >>= fun target => get_width target >>= fun old =>
  attr e >>= fun s => get_width s >>= fun v =>
  set_width target (old + v).

(** [c.attr.width += max(e1.attr.width, e2.attr.width)] *)
Definition iadd_max_width (attr : loc -> M loc) (c e1 e2 : loc) : M unit :=
  attr c >>= fun target => get_width target >>= fun old =>
  attr e1 >>= fun s1 => get_width s1 >>= fun v1 =>
  attr e2 >>= fun s2 => get_width s2 >>= fun v2 =>
  set_width target (old + pymax v1 v2).

(** The local variables that survive an iteration. *)
Record Best : Type := mkBest {
  best_T : loc;
  best_depth : loc;
  best_width : loc;
  best_T_size : Z;
  best_depth_size : Z;
  best_width_size : Z
}.

Definition update_T (total : loc) (i : Z) (b : Best) : M Best :=
  low_T total >>= fun s => get_T_count s >>= fun x =>
  low_T (best_T b) >>= fun s' => get_T_count s' >>= fun y =>
  if Qltb x y then
    deepcopy total >>= fun c =>
    ret (mkBest c (best_depth b) (best_width b)
                i (best_depth_size b) (best_width_size b))
  else ret b.

Definition update_width (total : loc) (i : Z) (b : Best) : M Best :=
  low_width total >>= fun s => get_T_count s >>= fun x =>
  low_width (best_width b) >>= fun s' => get_T_count s' >>= fun y =>
  if Qltb x y then
    deepcopy total >>= fun c =>
    ret (mkBest (best_T b) (best_depth b) c
                (best_T_size b) (best_depth_size b) i)
  else ret b.

Definition update_depth (total : loc) (i : Z) (b : Best) : M Best :=
  low_depth total >>= fun s => get_T_depth s >>= fun x =>
  low_depth (best_depth b) >>= fun s' => get_T_depth s' >>= fun y =>
  if Qltb x y then
    deepcopy total >>= fun c =>
    ret (mkBest (best_T b) c (best_width b)
                (best_T_size b) i (best_width_size b))
  else ret b.

(** The body of the loop, statement by statement. *)
Definition loop_body (blank : loc) (n : Z) (b : Best) (i : Z) : M Best :=
  let num_windows := num_windows n i in
  let remainder_window := remainder_window n i in
  Lookup_Cost n i >>= fun l => Cost_multiply l 6 >>= fun main =>
  Cost_add blank main >>= fun main_addition_cost =>
  Cost_multiply main_addition_cost (inject_Z (2 * num_windows))
    >>= fun total =>
  (if (0 <? remainder_window)%Z then
     Lookup_Cost n remainder_window >>= fun l' =>
     Cost_multiply l' 6 >>= fun second =>
     Cost_add blank second >>= fun second_addition_cost =>
     Cost_multiply second_addition_cost 2 >>= fun twice =>
     Cost_add total twice >>= fun total =>
     iadd_max_width low_depth total second main >>= fun _ =>
     iadd_max_width low_T total second main >>= fun _ =>
     iadd_max_width low_width total second main >>= fun _ =>
     ret total
   else
     iadd_width low_depth total main >>= fun _ =>
     iadd_width low_T total main >>= fun _ =>
     iadd_width low_width total main >>= fun _ =>
     ret total) >>= fun total =>
  update_T total i b >>= fun b =>
  update_width total i b >>= fun b =>
  update_depth total i b.

Fixpoint for_each (l : list Z) (body : Best -> Z -> M Best) (b : Best)
  : M Best :=
  match l with
  | [] => ret b
  | i :: l' => body b i >>= for_each l' body
  end.

Definition get_optimal_shor (addition_cost : loc) (n : Z) : M Best :=
  Lookup_Cost n 8 >>= fun l => Cost_multiply l 6 >>= fun eight =>
  Cost_subtract addition_cost eight >>= fun blank =>
  isub_width low_depth blank eight >>= fun _ =>
  isub_width low_T blank eight >>= fun _ =>
  isub_width low_width blank eight >>= fun _ =>
  Cost_multiply addition_cost (inject_Z (2 * n)) >>= fun best_T =>
  Cost_multiply addition_cost (inject_Z (2 * n)) >>= fun best_depth =>
  Cost_multiply addition_cost (inject_Z (2 * n)) >>= fun best_width =>
  for_each (range (Z.quot n 2)) (loop_body blank n)
    (mkBest best_T best_depth best_width 8 8 8).

(** What a reference to a [SingleCost] or to a [Cost] denotes. *)
Definition read_single (h : heap) (l : loc) : option SingleCost.t :=
  match h !! l with
  | Some (OSingle s) => Some s
  | _ => None
  end.

Definition read_cost (h : heap) (c : loc) : option Cost.t :=
  match h !! c with
  | Some (OCost d t w) =>
      match read_single h d, read_single h t, read_single h w with
      | Some sd, Some st, Some sw => Some (Cost.mk sd st sw)
      | _, _, _ => None
      end
  | _ => None
  end.

End Heap.

(** ** The script on Python's numbers

    The definitions above read the formulas of the script as the rational
    numbers they denote.  The interpreter computes with unbounded integers
    and binary64 doubles: the sum, difference and product of two doubles
    are rounded to the nearest double, an integer that meets a double is
    converted first, and a conversion, a quotient or a power that leaves
    the range of the doubles raises [OverflowError].  The modules [Python]
    and [Script] embed the cost algebra, [Lookup_Cost] and
    [get_optimal_shor] a second time with these numbers: a double is a
    primitive float, whose operations are those of IEEE 754 binary64. *)

Declare Scope py_scope.
Delimit Scope py_scope with py.

Module Python.

Local Open Scope Z_scope.

(** The exceptions of the numeric operations. *)
Inductive error : Type :=
  | OverflowError
  | ZeroDivisionError
  | ValueError.

(** A computation that returns a value or raises. *)
Definition res (A : Type) : Type := (error + A)%type.

Definition bind {A B : Type} (m : res A) (k : A -> res B) : res B :=
  match m with
  | inl e => inl e
  | inr a => k a
  end.

Notation "'let*' x ':=' m 'in' k" := (bind m (fun x => k))
  (at level 10, x name, m at level 100, k at level 200,
   format "'[v' 'let*'  x  ':='  m  'in' '/' k ']'") : py_scope.

Local Open Scope py_scope.

(** A number is an [int] or a [float]. *)
Inductive num : Type :=
  | Int (z : Z)
  | Float (f : float).

(** *** Conversion of an integer to a double *)

(** The doubles end at [2^1024 - 2^971]; an integer rounds to a finite
    double when its magnitude is below the midpoint [2^1024 - 2^970]. *)
Definition float_limit : Z := 2 ^ 1024 - 2 ^ 970.

(** [float(z)]: the nearest double, ties to even; [OverflowError] ("int
    too large to convert to float") when there is none. *)
Definition float_of_int (z : Z) : res float :=
  if Z.abs z <? float_limit
  then inr (SF2Prim (binary_normalize prec emax z 0 false))
  else inl OverflowError.

Definition to_float (x : num) : res float :=
  match x with
  | Int z => float_of_int z
  | Float f => inr f
  end.

(** *** Arithmetic *)

(** [x op y]: exact on two integers; otherwise both operands are taken
    as doubles and the result is the rounded one. *)
Definition arith (int_op : Z -> Z -> Z) (float_op : float -> float -> float)
    (x y : num) : res num :=
  match x, y with
  | Int a, Int b => inr (Int (int_op a b))
  | _, _ =>
      let* a := to_float x in
      let* b := to_float y in
      inr (Float (float_op a b))
  end.

Definition add : num -> num -> res num := arith Z.add PrimFloat.add.

Definition sub : num -> num -> res num := arith Z.sub PrimFloat.sub.

Definition mul : num -> num -> res num := arith Z.mul PrimFloat.mul.

(** [2**w] for an integer [w]: an integer when [w >= 0], the double
    [2.0**w] otherwise. *)
Definition pow2 (w : Z) : num :=
  if 0 <=? w then Int (2 ^ w) else Float (Z.ldexp 1 w).

(** *** Comparisons *)

(** The order of a double and an integer is that of their values, with
    no conversion; a NaN is unordered. *)
Definition compare_float_int (f : float) (z : Z) : option comparison :=
  match Prim2SF f with
  | S754_nan => None
  | S754_infinity s => Some (if s then Lt else Gt)
  | S754_zero _ => Some (0 ?= z)
  | S754_finite s m e =>
      let v := if s then Z.neg m else Z.pos m in
      Some (if 0 <=? e then v * 2 ^ e ?= z else v ?= z * 2 ^ (- e))
  end.

(** [x < y]. *)
Definition ltb (x y : num) : bool :=
  match x, y with
  | Int a, Int b => a <? b
  | Float a, Float b => PrimFloat.ltb a b
  | Float a, Int b =>
      match compare_float_int a b with Some Lt => true | _ => false end
  | Int a, Float b =>
      match compare_float_int b a with Some Gt => true | _ => false end
  end.

(** [x == y]. *)
Definition eqb (x y : num) : bool :=
  match x, y with
  | Int a, Int b => a =? b
  | Float a, Float b => PrimFloat.eqb a b
  | Float a, Int b | Int b, Float a =>
      match compare_float_int a b with Some Eq => true | _ => false end
  end.

(** Built-in [max(a, b)]: the first argument is kept unless the second is
    strictly greater. *)
Definition max (a b : num) : num := if ltb a b then b else a.

(** *** True division of integers *)

(** The integer nearest to [a/b], ties to even, for [0 <= a] and [0 < b]. *)
Definition round_half_even (a b : Z) : Z :=
  let q := a / b in
  match 2 * (a mod b) ?= b with
  | Lt => q
  | Gt => q + 1
  | Eq => if Z.even q then q else q + 1
  end.

(** The integer part of the binary logarithm of [a/b], for [0 < a] and
    [0 < b]. *)
Definition floor_log2 (a b : Z) : Z :=
  let l := Z.log2 a - Z.log2 b in
  if (if 0 <=? l then b * 2 ^ l <=? a else b <=? a * 2 ^ (- l))
  then l else l - 1.

(** The double nearest to [a/b], for [0 < a] and [0 < b]: a mantissa of
    53 bits (fewer below [2^-1022]) at the exponent of the quotient. *)
Definition nearest_double (a b : Z) : spec_float :=
  let e := Z.max (floor_log2 a b - 52) (- 1074) in
  let m :=
    if 0 <=? e then round_half_even a (b * 2 ^ e)
    else round_half_even (a * 2 ^ (- e)) b in
  let '(m, e) := if m =? 2 ^ 53 then (2 ^ 52, e + 1) else (m, e) in
  match m with
  | Z.pos p => if e <=? 971 then S754_finite false p e else S754_infinity false
  | _ => S754_zero false
  end.

(** [n / d] on integers: the double nearest to the quotient, given by
    its sign, mantissa and exponent ([SF2Prim] is the primitive float). *)
Definition truediv (n d : Z) : res spec_float :=
  if d =? 0 then inl ZeroDivisionError
  else
    let s := xorb (n <? 0) (d <? 0) in
    if n =? 0 then inr (S754_zero (d <? 0))
    else
      match nearest_double (Z.abs n) (Z.abs d) with
      | S754_finite _ m e => inr (S754_finite s m e)
      | S754_zero _ => inr (S754_zero s)
      | S754_infinity _ => inl OverflowError
      | S754_nan => inr S754_nan
      end.

(** The signed mantissa of a finite double. *)
Definition mantissa (s : bool) (m : BinNums.positive) : Z :=
  if s then Z.neg m else Z.pos m.

(** [math.floor(x)] of a double. *)
Definition math_floor (x : spec_float) : res Z :=
  match x with
  | S754_nan => inl ValueError
  | S754_infinity _ => inl OverflowError
  | S754_zero _ => inr 0
  | S754_finite s m e =>
      inr (if 0 <=? e then mantissa s m * 2 ^ e
           else mantissa s m / 2 ^ (- e))
  end.

(** [int(x)] of a double truncates towards zero. *)
Definition to_int (x : spec_float) : res Z :=
  match x with
  | S754_nan => inl ValueError
  | S754_infinity _ => inl OverflowError
  | S754_zero _ => inr 0
  | S754_finite s m e =>
      inr (if 0 <=? e then mantissa s m * 2 ^ e
           else Z.quot (mantissa s m) (2 ^ (- e)))
  end.

End Python.

Module Script.

Import Python.
Local Open Scope py_scope.
Local Open Scope Z_scope.

(** *** class SingleCost *)

Module SingleCost.

Record t : Type := mk {
  width : num;
  T_depth : num;
  full_depth : num;
  measure : num;
  T_count : num;
  single_qubit : num;
  CNOT : num
}.

(** Costs of two sequential circuits; uses the maximum width. *)
Definition add (self cost2 : t) : res t :=
  let width' := max (width self) (width cost2) in
  let* T_depth' := Python.add (T_depth self) (T_depth cost2) in
  let* T_count' := Python.add (T_count self) (T_count cost2) in
  let* full_depth' := Python.add (full_depth self) (full_depth cost2) in
  let* measure' := Python.add (measure self) (measure cost2) in
  let* single_qubit' := Python.add (single_qubit self) (single_qubit cost2) in
  let* CNOT' := Python.add (CNOT self) (CNOT cost2) in
  inr {| width := width';
         T_depth := T_depth';
         T_count := T_count';
         full_depth := full_depth';
         measure := measure';
         single_qubit := single_qubit';
         CNOT := CNOT' |}.

(** Subtracts; the width stays the same. *)
Definition subtract (self cost2 : t) : res t :=
  let* T_depth' := sub (T_depth self) (T_depth cost2) in
  let* T_count' := sub (T_count self) (T_count cost2) in
  let* full_depth' := sub (full_depth self) (full_depth cost2) in
  let* measure' := sub (measure self) (measure cost2) in
  let* single_qubit' := sub (single_qubit self) (single_qubit cost2) in
  let* CNOT' := sub (CNOT self) (CNOT cost2) in
  inr {| width := width self;
         T_depth := T_depth';
         T_count := T_count';
         full_depth := full_depth';
         measure := measure';
         single_qubit := single_qubit';
         CNOT := CNOT' |}.

Definition multiply (self : t) (n : num) : res t :=
  let* T_depth' := mul (T_depth self) n in
  let* T_count' := mul (T_count self) n in
  let* full_depth' := mul (full_depth self) n in
  let* measure' := mul (measure self) n in
  let* single_qubit' := mul (single_qubit self) n in
  let* CNOT' := mul (CNOT self) n in
  inr {| width := width self;
         T_depth := T_depth';
         T_count := T_count';
         full_depth := full_depth';
         measure := measure';
         single_qubit := single_qubit';
         CNOT := CNOT' |}.

(** The assignment [self.width = w]. *)
Definition set_width (self : t) (w : num) : t :=
  {| width := w;
     T_depth := T_depth self;
     T_count := T_count self;
     full_depth := full_depth self;
     measure := measure self;
     single_qubit := single_qubit self;
     CNOT := CNOT self |}.

End SingleCost.

(** *** class Cost *)

Module Cost.

Record t : Type := mk {
  low_depth : SingleCost.t;
  low_T : SingleCost.t;
  low_width : SingleCost.t
}.

Definition add (self cost2 : t) : res t :=
  let* low_depth' := SingleCost.add (low_depth self) (low_depth cost2) in
  let* low_T' := SingleCost.add (low_T self) (low_T cost2) in
  let* low_width' := SingleCost.add (low_width self) (low_width cost2) in
  inr {| low_depth := low_depth'; low_T := low_T'; low_width := low_width' |}.

Definition subtract (self cost2 : t) : res t :=
  let* low_depth' := SingleCost.subtract (low_depth self) (low_depth cost2) in
  let* low_T' := SingleCost.subtract (low_T self) (low_T cost2) in
  let* low_width' := SingleCost.subtract (low_width self) (low_width cost2) in
  inr {| low_depth := low_depth'; low_T := low_T'; low_width := low_width' |}.

Definition multiply (self : t) (n : num) : res t :=
  let* low_depth' := SingleCost.multiply (low_depth self) n in
  let* low_T' := SingleCost.multiply (low_T self) n in
  let* low_width' := SingleCost.multiply (low_width self) n in
  inr {| low_depth := low_depth'; low_T := low_T'; low_width := low_width' |}.

(** The three statements [c.low_depth.width += d], [c.low_T.width += t],
    [c.low_width.width += w], in this order. *)
Definition add_widths (c : t) (d tw w : num) : res t :=
  let* d' := Python.add (SingleCost.width (low_depth c)) d in
  let* tw' := Python.add (SingleCost.width (low_T c)) tw in
  let* w' := Python.add (SingleCost.width (low_width c)) w in
  inr {| low_depth := SingleCost.set_width (low_depth c) d';
         low_T := SingleCost.set_width (low_T c) tw';
         low_width := SingleCost.set_width (low_width c) w' |}.

(** The three statements [c.low_depth.width -= d], ... *)
Definition sub_widths (c : t) (d tw w : num) : res t :=
  let* d' := sub (SingleCost.width (low_depth c)) d in
  let* tw' := sub (SingleCost.width (low_T c)) tw in
  let* w' := sub (SingleCost.width (low_width c)) w in
  inr {| low_depth := SingleCost.set_width (low_depth c) d';
         low_T := SingleCost.set_width (low_T c) tw';
         low_width := SingleCost.set_width (low_width c) w' |}.

End Cost.

(** *** Lookup_Cost *)

(** Each formula multiplies or adds a double literal, so the integers
    [window_size], [n] and [2**window_size] are converted wherever they
    occur; the three conversions are made once here. *)
Definition Lookup_Cost (n window_size : Z) : res Cost.t :=
  let* main_exponent := to_float (pow2 window_size) in
  let* window_size := float_of_int window_size in
  let* n := float_of_int n in
  inr
  {| Cost.low_T :=
       {| SingleCost.width :=
            Float (2.678 * window_size + 19.81 + 2.01 * n);
          SingleCost.T_depth := Float (0.50733 * main_exponent + 23.0);
          SingleCost.full_depth := Float (17.04 * main_exponent + 101.04);
          SingleCost.measure :=
            Float (1.503 * main_exponent + 4.071 + 2.0 * n);
          SingleCost.T_count := Float (4.0 * main_exponent + 24.0);
          SingleCost.single_qubit :=
            Float (7.74 * main_exponent + 10.68 + 2.0 * n);
          SingleCost.CNOT := Float (115.13 * main_exponent + 117.76) |};
     Cost.low_width :=
       {| SingleCost.width :=
            Float (2.657 * window_size + 21.623 + 2.0 * n);
          SingleCost.T_depth := Float (0.50733 * main_exponent + 23.0);
          SingleCost.full_depth := Float (16.96 * main_exponent + 97.98);
          SingleCost.measure :=
            Float (1.516 * main_exponent + 2.288 + 2.0 * n);
          SingleCost.T_count := Float (4.0 * main_exponent + 24.0);
          SingleCost.single_qubit :=
            Float (7.793 * main_exponent + 5.75 + 2.0 * n);
          SingleCost.CNOT :=
            Float (main_exponent * (110.73 + 0.016 * n) + 136.793) |};
     Cost.low_depth :=
       {| SingleCost.width :=
            Float (2.657 * window_size + 21.623 + 2.0 * n);
          SingleCost.T_depth := Float (0.50733 * main_exponent + 23.0);
          SingleCost.full_depth := Float (16.96 * main_exponent + 97.63);
          SingleCost.measure :=
            Float (1.516 * main_exponent + 2.185 + 2.0 * n);
          SingleCost.T_count := Float (4.0 * main_exponent + 24.0);
          SingleCost.single_qubit :=
            Float (7.793 * main_exponent + 5.218 + 2.0 * n);
          SingleCost.CNOT :=
            Float (main_exponent * (110.74 + 0.016 * n) + 134.52) |} |}%float.

(** *** get_optimal_shor *)

Record Best : Type := mkBest {
  best_T : Cost.t;
  best_depth : Cost.t;
  best_width : Cost.t;
  best_T_size : Z;
  best_depth_size : Z;
  best_width_size : Z
}.

Definition eight_lookup_cost (n : Z) : res Cost.t :=
  let* lookup := Lookup_Cost n 8 in
  Cost.multiply lookup (Int 6).

(** The cost of an addition without any lookups, with the qubits of the
    lookup removed as well. *)
Definition blank_addition_cost (addition_cost : Cost.t) (n : Z)
    : res Cost.t :=
  let* e := eight_lookup_cost n in
  let* blank := Cost.subtract addition_cost e in
  Cost.sub_widths blank
    (SingleCost.width (Cost.low_depth e))
    (SingleCost.width (Cost.low_T e))
    (SingleCost.width (Cost.low_width e)).

(** [math.floor(n / (i+1))]. *)
Definition num_windows (n i : Z) : res Z :=
  let* q := truediv n (i + 1) in
  math_floor q.

(** [max(n - num_windows * (i+1), 0)]. *)
Definition remainder_window (n i num_windows : Z) : Z :=
  Z.max (n - num_windows * (i + 1)) 0.

Definition main_lookup_costs (n i : Z) : res Cost.t :=
  let* lookup := Lookup_Cost n i in
  Cost.multiply lookup (Int 6).

Definition second_lookup_costs (n remainder_window : Z) : res Cost.t :=
  let* lookup := Lookup_Cost n remainder_window in
  Cost.multiply lookup (Int 6).

(** The iteration from the lookups to the comparisons, for the values
    of [num_windows] and [remainder_window] computed before. *)
Definition windowed_cost (blank : Cost.t)
    (n i num_windows remainder_window : Z) : res Cost.t :=
  let* main := main_lookup_costs n i in
  let* main_addition_cost := Cost.add blank main in
  let* total := Cost.multiply main_addition_cost (Int (2 * num_windows)) in
  if 0 <? remainder_window then
    let* second := second_lookup_costs n remainder_window in
    let* second_addition_cost := Cost.add blank second in
    let* twice := Cost.multiply second_addition_cost (Int 2) in
    let* total := Cost.add total twice in
    Cost.add_widths total
      (max (SingleCost.width (Cost.low_depth second))
           (SingleCost.width (Cost.low_depth main)))
      (max (SingleCost.width (Cost.low_T second))
           (SingleCost.width (Cost.low_T main)))
      (max (SingleCost.width (Cost.low_width second))
           (SingleCost.width (Cost.low_width main)))
  else
    Cost.add_widths total
      (SingleCost.width (Cost.low_depth main))
      (SingleCost.width (Cost.low_T main))
      (SingleCost.width (Cost.low_width main)).

(** The value of [total_cost] when the comparisons of iteration [i] are
    reached. *)
Definition total_cost (blank : Cost.t) (n i : Z) : res Cost.t :=
  let* num_windows := num_windows n i in
  windowed_cost blank n i num_windows (remainder_window n i num_windows).

(** The three comparisons that end an iteration. *)
Definition update_T (total : Cost.t) (i : Z) (b : Best) : Best :=
  if ltb (SingleCost.T_count (Cost.low_T total))
        (SingleCost.T_count (Cost.low_T (best_T b)))
  then mkBest total (best_depth b) (best_width b)
              i (best_depth_size b) (best_width_size b)
  else b.

Definition update_width (total : Cost.t) (i : Z) (b : Best) : Best :=
  if ltb (SingleCost.T_count (Cost.low_width total))
        (SingleCost.T_count (Cost.low_width (best_width b)))
  then mkBest (best_T b) (best_depth b) total
              (best_T_size b) (best_depth_size b) i
  else b.

Definition update_depth (total : Cost.t) (i : Z) (b : Best) : Best :=
  if ltb (SingleCost.T_depth (Cost.low_depth total))
        (SingleCost.T_depth (Cost.low_depth (best_depth b)))
  then mkBest (best_T b) total (best_width b)
              (best_T_size b) i (best_width_size b)
  else b.

Definition compare (total : Cost.t) (i : Z) (b : Best) : Best :=
  update_depth total i (update_width total i (update_T total i b)).

(** One iteration of the loop. *)
Definition loop_body (blank : Cost.t) (n : Z) (b : Best) (i : Z) : res Best :=
  let* total := total_cost blank n i in
  inr (compare total i b).

(** A [for] loop whose body can raise. *)
Fixpoint for_each {S : Type} (body : S -> Z -> res S) (l : list Z) (s : S)
    : res S :=
  match l with
  | [] => inr s
  | i :: l => let* s := body s i in for_each body l s
  end.

(** The values before the loop: the unwindowed cost, at window size 8. *)
Definition initial_best (addition_cost : Cost.t) (n : Z) : res Best :=
  let* best_T := Cost.multiply addition_cost (Int (2 * n)) in
  let* best_depth := Cost.multiply addition_cost (Int (2 * n)) in
  let* best_width := Cost.multiply addition_cost (Int (2 * n)) in
  inr (mkBest best_T best_depth best_width 8 8 8).

(** [int(n/2)], the bound of the loop. *)
Definition half (n : Z) : res Z :=
  let* q := truediv n 2 in
  to_int q.

Definition get_optimal_shor (addition_cost : Cost.t) (n : Z) : res Best :=
  let* blank := blank_addition_cost addition_cost n in
  let* best := initial_best addition_cost n in
  let* k := half n in
  for_each (loop_body blank n) (range k) best.

End Script.

(** ** Quantities used to state and to check the properties *)

(** The number of point additions of candidate [i]: two per window, and
    two more when there is a remainder window. *)
Definition additions (n i : Z) : Q :=
  inject_Z (2 * num_windows n i)
  + (if (0 <? remainder_window n i)%Z then 2 else 0).

(** The depth metrics of candidate [i] for a given addition cost, and the
    full depth of the seed. *)
Definition candidate_full_depth (addition_cost : Cost.t) (n i : Z) : Q :=
  SingleCost.full_depth
    (Cost.low_depth (total_cost (blank_addition_cost addition_cost n) n i)).

Definition candidate_T_depth (addition_cost : Cost.t) (n i : Z) : Q :=
  SingleCost.T_depth
    (Cost.low_depth (total_cost (blank_addition_cost addition_cost n) n i)).

Definition seed_full_depth (addition_cost : Cost.t) (n : Z) : Q :=
  SingleCost.full_depth
    (Cost.low_depth (Cost.multiply addition_cost (inject_Z (2 * n)))).

(** Candidate [i] does no harm when it is selected: its full depth is at
    most that of the seed. *)
Definition harmless (addition_cost : Cost.t) (n i : Z) : bool :=
  Qle_bool (candidate_full_depth addition_cost n i)
           (seed_full_depth addition_cost n).

(** Candidate [i] cannot be selected: the earlier candidate [j] has a
    T depth that is not larger. *)
Definition beaten (addition_cost : Cost.t) (n j i : Z) : bool :=
  (j <? i)%Z &&
  Qle_bool (candidate_T_depth addition_cost n j)
           (candidate_T_depth addition_cost n i).

(** A certificate that the depth objective ends at most at the full
    depth of the seed, for every addition cost whose low_depth T_depth and
    full_depth lie between those of [lo] and [hi]: every candidate is
    harmless at both ends, or beaten by the candidate [j] at both ends. *)
Definition depth_check (lo hi : Cost.t) (n j : Z) : bool :=
  (0 <=? j)%Z && (j <? Z.quot n 2)%Z &&
  forallb (fun i =>
             harmless lo n i && harmless hi n i
             || beaten lo n j i && beaten hi n j i)
          (range (Z.quot n 2)).

(** The integer bounds of the binary logarithm. *)
Definition lg_floor (n : Z) : Q := inject_Z (Z.log2 n).
Definition lg_ceil (n : Z) : Q := inject_Z (Z.log2 n) + 1.

(** The candidate used as [j] in the certificates: window size 15, or the
    last candidate when there are fewer. *)
Definition pivot (n : Z) : Z := Z.min 15 (Z.quot n 2 - 1).

(** A table for the fixed-modulus loader with the single size 256. *)
Definition row_256 : csv_row :=
  {[ "size" := Some "256";
     "CNOT count" := Some "178374765";
     "1-qubit Clifford count" := Some "178374765";
     "T count" := Some "77857742";
     "M count" := Some "5656061";
     "T depth" := Some "28341737";
     "extra width" := Some "2589";
     "Full depth" := Some "102860240" ]}%string.

Definition only_256 : file_system := fun _ => Some [row_256].

(** ** Assertions on the store *)

(** A computation succeeds from [h] with a result and a store that
    satisfy [Q]. *)
Definition ok {A : Type} (m : Heap.M A) (h : Heap.heap)
    (Q : A -> Heap.heap -> Prop) : Prop :=
  match m h with
  | Some (x, h') => Q x h'
  | None => False
  end.

(** In [h] the reference [c] is a [Cost] whose three attributes are the
    references [d], [t], [w] to single costs with the values of [C]. *)
Definition cost_at (h : Heap.heap) (c d t w : Heap.loc) (C : Cost.t) : Prop :=
  h !! c = Some (Heap.OCost d t w) /\
  h !! d = Some (Heap.OSingle (Cost.low_depth C)) /\
  h !! t = Some (Heap.OSingle (Cost.low_T C)) /\
  h !! w = Some (Heap.OSingle (Cost.low_width C)).

(** [c] denotes the value [C] in [h]. *)
Definition live (h : Heap.heap) (c : Heap.loc) (C : Cost.t) : Prop :=
  exists d t w, cost_at h c d t w C.

(** [c] denotes [C] in [h], and its three single costs are distinct
    objects constructed after the store [base]. *)
Definition owned (base h : Heap.heap) (c : Heap.loc) (C : Cost.t) : Prop :=
  exists d t w,
    cost_at h c d t w C /\
    (length base <= d)%nat /\ (length base <= t)%nat /\
    (length base <= w)%nat /\ d <> t /\ d <> w /\ t <> w.

(** The references of the loop denote the values of the pure loop. *)
Definition best_live (h : Heap.heap) (b : Heap.Best) (B : Best) : Prop :=
  live h (Heap.best_T b) (best_T B) /\
  live h (Heap.best_depth b) (best_depth B) /\
  live h (Heap.best_width b) (best_width B) /\
  Heap.best_T_size b = best_T_size B /\
  Heap.best_depth_size b = best_depth_size B /\
  Heap.best_width_size b = best_width_size B.

(** A store with one bundle, at reference 3. *)
Definition sample_store : Heap.heap :=
  [Heap.OSingle (Cost.low_depth (Lookup_Cost 10 8));
   Heap.OSingle (Cost.low_T (Lookup_Cost 10 8));
   Heap.OSingle (Cost.low_width (Lookup_Cost 10 8));
   Heap.OCost 0%nat 1%nat 2%nat].

(** ** Predicates on costs *)


Definition positive (a : SingleCost.t) : Prop :=
  0 < SingleCost.width a /\ 0 < SingleCost.T_depth a /\
  0 < SingleCost.full_depth a /\ 0 < SingleCost.measure a /\
  0 < SingleCost.T_count a /\ 0 < SingleCost.single_qubit a /\
  0 < SingleCost.CNOT a.

(** Attribute by attribute, [a] is at most [b]. *)
Definition at_most (a b : SingleCost.t) : Prop :=
  SingleCost.width a <= SingleCost.width b /\
  SingleCost.T_depth a <= SingleCost.T_depth b /\
  SingleCost.full_depth a <= SingleCost.full_depth b /\
  SingleCost.measure a <= SingleCost.measure b /\
  SingleCost.T_count a <= SingleCost.T_count b /\
  SingleCost.single_qubit a <= SingleCost.single_qubit b /\
  SingleCost.CNOT a <= SingleCost.CNOT b.

(** ** Predicates on tables *)

(** A row of another size than [n], and a row of the size [n]. *)
Definition other_size (n : Z) (row : csv_row) : Prop :=
  exists v, row !! "size"%string = Some v /\ v <> Some (str n).

Definition this_size (n : Z) (row : csv_row) : Prop :=
  row !! "size"%string = Some (Some (str n)).

(** [row] is the only row of the size [n] in [rows]. *)
Definition only_row (rows : list csv_row) (n : Z) (row : csv_row) : Prop :=
  exists pre post,
    rows = pre ++ row :: post /\
    Forall (other_size n) pre /\ Forall (other_size n) post /\
    this_size n row.

(** The two files of an objective hold one row of the size [n] each; the
    first gives the six counts [c], the second the full depth [fd]. *)
Definition objective_tables (fs : file_system) (counts all_gates : string)
    (n : Z) (c : SingleCost.t) (fd : Q) : Prop :=
  exists rows1 row1 rows2 row2,
    fs counts = Some rows1 /\ only_row rows1 n row1 /\
    assign_counts row1 zero_cost = inr c /\
    fs all_gates = Some rows2 /\ only_row rows2 n row2 /\
    int_of row2 "Full depth" = inr fd.

(** The first file of an objective holds one row of the size [n], with
    the counts [c], and the second holds none. *)
Definition objective_half_tables (fs : file_system)
    (counts all_gates : string) (n : Z) (c : SingleCost.t) : Prop :=
  exists rows1 row1 rows2,
    fs counts = Some rows1 /\ only_row rows1 n row1 /\
    assign_counts row1 zero_cost = inr c /\
    fs all_gates = Some rows2 /\ Forall (other_size n) rows2.

(** Rows for examples: one whose first cell is not an integer, and one
    without the column of sizes. *)
Definition row_bad_cell : csv_row :=
  {[ "size" := Some "256"; "CNOT count" := Some "12a" ]}%string.

Definition row_no_size : csv_row :=
  {[ "CNOT count" := Some "12" ]}%string.

(** Files in which only the second file of the T objective lacks the
    size 256. *)
Definition tables_without_T_depth : file_system :=
  fun name =>
    if String.eqb name
         "EllipticCurveEstimates/LowT/Fixed-modulus-signed-all-gates.csv"
    then Some [] else Some [row_256].

(** ** More assertions on the store *)

(** The four objects a method of [Cost] constructs at the end of a store
    of length [k]: the three single costs, then the bundle that refers to
    them. *)
Definition cost_block (k : Heap.loc) (C : Cost.t) : list Heap.obj :=
  [Heap.OSingle (Cost.low_depth C); Heap.OSingle (Cost.low_T C);
   Heap.OSingle (Cost.low_width C);
   Heap.OCost k (k + 1)%nat (k + 2)%nat].

(** The objects of the bundle [c] in [h]: the bundle and its three single
    costs. *)
Definition footprint (h : Heap.heap) (c : Heap.loc) (f : list Heap.loc)
  : Prop :=
  exists d t w, h !! c = Some (Heap.OCost d t w) /\ f = [c; d; t; w].

(** The bundle [c] and its three single costs are the four consecutive
    objects from [k] on, as the methods of [Cost] construct them. *)
Definition placed (h : Heap.heap) (c k : Heap.loc) : Prop :=
  h !! c = Some (Heap.OCost k (k + 1)%nat (k + 2)%nat) /\ c = (k + 3)%nat.

(** The three bests occupy three blocks of four objects that do not
    overlap and lie after the store [base]. *)
Definition separate (base h : Heap.heap) (b : Heap.Best) : Prop :=
  exists kT kD kW : nat,
    placed h (Heap.best_T b) kT /\ placed h (Heap.best_depth b) kD /\
    placed h (Heap.best_width b) kW /\
    (length base <= kT /\ kT + 4 <= length h)%nat /\
    (length base <= kD /\ kD + 4 <= length h)%nat /\
    (length base <= kW /\ kW + 4 <= length h)%nat /\
    (kT + 4 <= kD \/ kD + 4 <= kT)%nat /\
    (kT + 4 <= kW \/ kW + 4 <= kT)%nat /\
    (kD + 4 <= kW \/ kW + 4 <= kD)%nat.

(** Every attribute of every vector of a bundle is positive. *)
Definition positive_cost (C : Cost.t) : Prop :=
  positive (Cost.low_depth C) /\ positive (Cost.low_T C) /\
  positive (Cost.low_width C).

(** ** Predicates on Python's numbers *)


Definition is_float (x : Python.num) : Prop :=
  match x with
  | Python.Int _ => False
  | Python.Float _ => True
  end.

Definition is_int (x : Python.num) : Prop :=
  match x with
  | Python.Int _ => True
  | Python.Float _ => False
  end.

(** A property of the seven attributes of a [SingleCost]. *)
Definition attributes (P : Python.num -> Prop) (c : Script.SingleCost.t)
    : Prop :=
  P (Script.SingleCost.width c) /\
  P (Script.SingleCost.T_depth c) /\
  P (Script.SingleCost.T_count c) /\
  P (Script.SingleCost.full_depth c) /\
  P (Script.SingleCost.measure c) /\
  P (Script.SingleCost.single_qubit c) /\
  P (Script.SingleCost.CNOT c).

(** The same of the three vectors of a [Cost]. *)
Definition vectors (P : Python.num -> Prop) (c : Script.Cost.t) : Prop :=
  attributes P (Script.Cost.low_depth c) /\
  attributes P (Script.Cost.low_T c) /\
  attributes P (Script.Cost.low_width c).

(** [n / d] of [Python.truediv] is the quotient of the two integers as
    primitive floats, which is how the interpreter divides integers that
    are doubles themselves; a zero denominator raises. *)
Definition same_quotient (n d : Z) : bool :=
  match Python.truediv n d, Python.float_of_int n, Python.float_of_int d with
  | inr q, inr a, inr b =>
      PrimFloat.Leibniz.eqb (SF2Prim q) (PrimFloat.div a b)
  | inl Python.ZeroDivisionError, _, _ => (d =? 0)%Z
  | _, _, _ => false
  end.


(** Every attribute is the double 1e20. *)
Definition all_1e20 : Script.Cost.t :=
  let x := Python.Float 1e20 in
  let s := Script.SingleCost.mk x x x x x x x in
  Script.Cost.mk s s s.



(** * Properties *)

(** ** Numbers *)

Lemma Qltb_lt (a b : Q) : Qltb a b = true <-> a < b.
Proof.
  unfold Qltb. rewrite negb_true_iff, <- not_true_iff_false, Qle_bool_iff.
  split; [apply Qnot_le_lt | apply Qlt_not_le].
Qed.

Lemma Qltb_ge (a b : Q) : Qltb a b = false <-> b <= a.
Proof.
  unfold Qltb. rewrite negb_false_iff. apply Qle_bool_iff.
Qed.

Lemma pymax_Qmax (a b : Q) : pymax a b == Qmax a b.
Proof.
  unfold pymax. destruct (Qltb a b) eqn:E.
  - apply Qltb_lt in E. symmetry. apply Q.max_r. now apply Qlt_le_weak.
  - apply Qltb_ge in E. symmetry. now apply Q.max_l.
Qed.


Lemma two_pow_pos (w : Z) : 0 < Qpower 2 w.
Proof. apply Qpower_0_lt. reflexivity. Qed.

(** ** The cost algebra *)


(** ** The lookup formulas *)

Lemma inject_Z_mono (a b : Z) : (a <= b)%Z -> inject_Z a <= inject_Z b.
Proof. intros H. now rewrite <- Zle_Qle. Qed.

(** C8. With the window size fixed, raising the bit-width never lowers an
    attribute of [Lookup_Cost] whose formula has a positive coefficient on
    n: width, measure and single_qubit of the three vectors, and CNOT of
    low_width and low_depth.  (Neither the sign of the window size nor
    that of the bit-widths matters.) *)
Theorem Lookup_Cost_monotone (w n1 n2 : Z) :
  (n1 <= n2)%Z ->
  let c1 := Lookup_Cost n1 w in
  let c2 := Lookup_Cost n2 w in
  (SingleCost.width (Cost.low_T c1) <= SingleCost.width (Cost.low_T c2) /\
   SingleCost.measure (Cost.low_T c1) <= SingleCost.measure (Cost.low_T c2) /\
   SingleCost.single_qubit (Cost.low_T c1)
     <= SingleCost.single_qubit (Cost.low_T c2)) /\
  (SingleCost.width (Cost.low_width c1)
     <= SingleCost.width (Cost.low_width c2) /\
   SingleCost.measure (Cost.low_width c1)
     <= SingleCost.measure (Cost.low_width c2) /\
   SingleCost.single_qubit (Cost.low_width c1)
     <= SingleCost.single_qubit (Cost.low_width c2) /\
   SingleCost.CNOT (Cost.low_width c1)
     <= SingleCost.CNOT (Cost.low_width c2)) /\
  (SingleCost.width (Cost.low_depth c1)
     <= SingleCost.width (Cost.low_depth c2) /\
   SingleCost.measure (Cost.low_depth c1)
     <= SingleCost.measure (Cost.low_depth c2) /\
   SingleCost.single_qubit (Cost.low_depth c1)
     <= SingleCost.single_qubit (Cost.low_depth c2) /\
   SingleCost.CNOT (Cost.low_depth c1)
     <= SingleCost.CNOT (Cost.low_depth c2)).
Proof.
  intros Hn c1 c2. subst c1 c2. unfold Lookup_Cost. cbn -[Qpower].
  apply inject_Z_mono in Hn.
  pose proof (two_pow_pos w) as Hp.
  set (e := Qpower 2 w) in *.
  set (x := inject_Z n1) in *. set (y := inject_Z n2) in *.
  repeat split; try lra; nra.
Qed.

Lemma Lookup_Cost_monotone_witness :
  SingleCost.CNOT (Cost.low_width (Lookup_Cost 10 3))
    <= SingleCost.CNOT (Cost.low_width (Lookup_Cost 64 3)).
Proof.
  apply (Lookup_Cost_monotone 3 10 64). lia.
Defined.

(** ** The window search *)

(** C5. The blank addition is the addition minus six lookups of window
    size 8: in each of the three vectors every attribute but the width is
    that of the addition minus six times that of one [Lookup_Cost n 8], and
    the width is that of the addition minus the width of one
    [Lookup_Cost n 8] of the same vector. *)
Theorem blank_addition_cost_fields (addition_cost : Cost.t) (n : Z) :
  let blank := blank_addition_cost addition_cost n in
  let look := Lookup_Cost n 8 in
  forall (obj : Cost.t -> SingleCost.t),
    obj = Cost.low_depth \/ obj = Cost.low_T \/ obj = Cost.low_width ->
    SingleCost.T_depth (obj blank)
      = SingleCost.T_depth (obj addition_cost)
        - SingleCost.T_depth (obj look) * 6 /\
    SingleCost.T_count (obj blank)
      = SingleCost.T_count (obj addition_cost)
        - SingleCost.T_count (obj look) * 6 /\
    SingleCost.full_depth (obj blank)
      = SingleCost.full_depth (obj addition_cost)
        - SingleCost.full_depth (obj look) * 6 /\
    SingleCost.measure (obj blank)
      = SingleCost.measure (obj addition_cost)
        - SingleCost.measure (obj look) * 6 /\
    SingleCost.single_qubit (obj blank)
      = SingleCost.single_qubit (obj addition_cost)
        - SingleCost.single_qubit (obj look) * 6 /\
    SingleCost.CNOT (obj blank)
      = SingleCost.CNOT (obj addition_cost)
        - SingleCost.CNOT (obj look) * 6 /\
    SingleCost.width (obj blank)
      = SingleCost.width (obj addition_cost) - SingleCost.width (obj look).
Proof.
  intros blank look obj [-> | [-> | ->]]; repeat split.
Qed.

Lemma blank_addition_cost_fields_witness :
  SingleCost.width (Cost.low_T (blank_addition_cost (Lookup_Cost 10 8) 10))
    = SingleCost.width (Cost.low_T (Lookup_Cost 10 8))
      - SingleCost.width (Cost.low_T (Lookup_Cost 10 8)).
Proof.
  apply (blank_addition_cost_fields (Lookup_Cost 10 8) 10 Cost.low_T).
  right; left; reflexivity.
Defined.

(** The candidates of the loop are the integers from 0 below the bound. *)
Lemma in_range (k i : Z) : In i (range k) <-> (0 <= i < k)%Z.
Proof.
  unfold range. rewrite in_map_iff. split.
  - intros (j & <- & Hj). apply in_seq in Hj. lia.
  - intros Hi. exists (Z.to_nat i). split; [lia|]. apply in_seq. lia.
Qed.

(** What the three comparisons leave in each of the six variables. *)
Lemma compare_spec (total : Cost.t) (i : Z) (b : Best) :
  let b' := compare total i b in
  (best_T b', best_T_size b')
    = (if Qltb (SingleCost.T_count (Cost.low_T total))
               (SingleCost.T_count (Cost.low_T (best_T b)))
       then (total, i) else (best_T b, best_T_size b)) /\
  (best_width b', best_width_size b')
    = (if Qltb (SingleCost.T_count (Cost.low_width total))
               (SingleCost.T_count (Cost.low_width (best_width b)))
       then (total, i) else (best_width b, best_width_size b)) /\
  (best_depth b', best_depth_size b')
    = (if Qltb (SingleCost.T_depth (Cost.low_depth total))
               (SingleCost.T_depth (Cost.low_depth (best_depth b)))
       then (total, i) else (best_depth b, best_depth_size b)).
Proof.
  unfold compare, update_depth, update_width, update_T.
  destruct (Qltb (SingleCost.T_count (Cost.low_T total)) _); cbn;
    destruct (Qltb (SingleCost.T_count (Cost.low_width total)) _); cbn;
    destruct (Qltb (SingleCost.T_depth (Cost.low_depth total)) _); cbn;
    repeat split.
Qed.

(** The amended C1. In every iteration the three running bests are
    updated independently, each by a strict comparison: the T objective on
    the T_count of the low_T vector, the width objective on the T_count of
    the low_width vector, and the depth objective on the T_depth of the
    low_depth vector.  A best is replaced by the total of the iteration,
    and its window size by i, exactly when the total is strictly smaller;
    otherwise both are kept, so the first of equal candidates stays. *)
Theorem selection_by_strict_comparison (blank : Cost.t) (n i : Z) (b : Best) :
  let total := total_cost blank n i in
  let b' := loop_body blank n b i in
  ((SingleCost.T_count (Cost.low_T total)
      < SingleCost.T_count (Cost.low_T (best_T b)) ->
    best_T b' = total /\ best_T_size b' = i) /\
   (~ SingleCost.T_count (Cost.low_T total)
      < SingleCost.T_count (Cost.low_T (best_T b)) ->
    best_T b' = best_T b /\ best_T_size b' = best_T_size b)) /\
  ((SingleCost.T_depth (Cost.low_depth total)
      < SingleCost.T_depth (Cost.low_depth (best_depth b)) ->
    best_depth b' = total /\ best_depth_size b' = i) /\
   (~ SingleCost.T_depth (Cost.low_depth total)
      < SingleCost.T_depth (Cost.low_depth (best_depth b)) ->
    best_depth b' = best_depth b /\ best_depth_size b' = best_depth_size b)) /\
  ((SingleCost.T_count (Cost.low_width total)
      < SingleCost.T_count (Cost.low_width (best_width b)) ->
    best_width b' = total /\ best_width_size b' = i) /\
   (~ SingleCost.T_count (Cost.low_width total)
      < SingleCost.T_count (Cost.low_width (best_width b)) ->
    best_width b' = best_width b /\ best_width_size b' = best_width_size b)).
Proof.
  intros total b'. subst b'. unfold loop_body. fold total.
  destruct (compare_spec total i b) as (HT & HW & HD).
  split; [split | split; split]; intros H.
  all: try (apply Qltb_lt in H; rewrite H in *).
  all: try (apply Qnot_lt_le, Qltb_ge in H; rewrite H in *).
  all: split; congruence.
Qed.

(** C1 as stated fails: with the generic addition cost at n = 64, the
    iteration i = 12 meets a depth best found at i = 10 whose full_depth
    is less than that of the candidate, and replaces it all the same,
    because the T_depth of the candidate is less. *)
Lemma depth_selection_ignores_full_depth :
  let addition_cost := point_addition_cost (fun _ => 6) 64 in
  let blank := blank_addition_cost addition_cost 64 in
  let b := fold_left (loop_body blank 64) (range 12)
                     (initial_best addition_cost 64) in
  let total := total_cost blank 64 12 in
  let b' := loop_body blank 64 b 12 in
  best_depth_size b = 10%Z /\
  SingleCost.full_depth (Cost.low_depth (best_depth b))
    < SingleCost.full_depth (Cost.low_depth total) /\
  best_depth b' = total /\ best_depth_size b' = 12%Z /\
  best_depth_size (get_optimal_shor addition_cost 64) = 12%Z.
Proof.
  cbv zeta. split; [vm_compute; reflexivity|].
  split; [apply Qltb_lt; vm_compute; reflexivity|].
  split; [vm_compute; reflexivity|].
  split; vm_compute; reflexivity.
Qed.

(** ** The loader of fixed-modulus tables *)

(** A table without a row of the requested size is read to the end without
    an exception, and the result is the cost the loop started with. *)
Lemma load_rows_miss (rows : list csv_row) (n : Z)
    (existing_costs : option SingleCost.t) (costs : SingleCost.t) :
  Forall (fun row : csv_row =>
            exists v, row !! "size"%string = Some v /\ v <> Some (str n)) rows ->
  load_rows rows n existing_costs costs = inr costs.
Proof.
  induction 1 as [|row rows (v & Hv & Hne) _ IH]; [reflexivity|].
  cbn. unfold getitem. rewrite Hv. cbn.
  destruct (decide (v = Some (str n))); [contradiction | exact IH].
Qed.

Lemma load_from_csv_miss (fs : file_system) (name : string)
    (rows : list csv_row) (n : Z) (existing_costs : option SingleCost.t) :
  fs name = Some rows ->
  Forall (fun row : csv_row =>
            exists v, row !! "size"%string = Some v /\ v <> Some (str n)) rows ->
  load_from_csv fs name n existing_costs = inr zero_cost.
Proof.
  intros Hfs Hrows. unfold load_from_csv. rewrite Hfs.
  now apply load_rows_miss.
Qed.

(** C2 fails on the code. Asked for the size 100 of tables that only have
    the size 256, the loader raises nothing and returns the bundle of
    three all-zero costs. *)
Theorem missing_size_gives_zero_cost :
  fixed_modulus_point_addition_cost only_256 100
  = inr (Cost.mk zero_cost zero_cost zero_cost).
Proof.
  assert (H : forall name e,
             load_from_csv only_256 name 100 e = inr zero_cost).
  { intros name e. apply (load_from_csv_miss _ _ [row_256]); [reflexivity|].
    constructor; [|constructor].
    exists (Some "256"%string). split; [reflexivity | discriminate]. }
  unfold fixed_modulus_point_addition_cost. rewrite !H. reflexivity.
Qed.

(** ** The chosen costs against the seed *)

(** The depth metrics of a candidate are those of another addition cost
    shifted by the difference of the addition costs, once per addition. *)
Lemma candidate_full_depth_shift (A B : Cost.t) (n i : Z) :
  candidate_full_depth A n i
  == candidate_full_depth B n i
     + (SingleCost.full_depth (Cost.low_depth A)
        - SingleCost.full_depth (Cost.low_depth B)) * additions n i.
Proof.
  unfold candidate_full_depth, total_cost, additions.
  destruct (0 <? remainder_window n i)%Z; cbn -[Qpower inject_Z]; ring.
Qed.

Lemma candidate_T_depth_shift (A B : Cost.t) (n i : Z) :
  candidate_T_depth A n i
  == candidate_T_depth B n i
     + (SingleCost.T_depth (Cost.low_depth A)
        - SingleCost.T_depth (Cost.low_depth B)) * additions n i.
Proof.
  unfold candidate_T_depth, total_cost, additions.
  destruct (0 <? remainder_window n i)%Z; cbn -[Qpower inject_Z]; ring.
Qed.

(** An affine function that is non-positive at both ends of an interval
    is non-positive inside. *)
Lemma affine_between (a b lo hi x : Q) :
  lo <= x <= hi -> a * lo + b <= 0 -> a * hi + b <= 0 -> a * x + b <= 0.
Proof.
  intros [Hl Hh] Hlo Hhi.
  destruct (Qlt_le_dec a 0) as [Ha | Ha]; nra.
Qed.

Lemma seed_full_depth_eq (A : Cost.t) (n : Z) :
  seed_full_depth A n
  = SingleCost.full_depth (Cost.low_depth A) * inject_Z (2 * n).
Proof. reflexivity. Qed.

Lemma harmless_between (lo hi A : Cost.t) (n i : Z) :
  SingleCost.full_depth (Cost.low_depth lo)
    <= SingleCost.full_depth (Cost.low_depth A)
    <= SingleCost.full_depth (Cost.low_depth hi) ->
  harmless lo n i = true -> harmless hi n i = true ->
  candidate_full_depth A n i <= seed_full_depth A n.
Proof.
  unfold harmless. rewrite !Qle_bool_iff, !seed_full_depth_eq.
  rewrite (candidate_full_depth_shift hi lo), (candidate_full_depth_shift A lo).
  set (c := candidate_full_depth lo n i). set (m := additions n i).
  set (N := inject_Z (2 * n)).
  set (x := SingleCost.full_depth (Cost.low_depth A)).
  set (xl := SingleCost.full_depth (Cost.low_depth lo)).
  set (xh := SingleCost.full_depth (Cost.low_depth hi)).
  intros Hx Hlo Hhi.
  pose proof (affine_between (m - N) (c - xl * m) xl xh x Hx) as H.
  lapply H; [clear H; intros H; lapply H; [clear H; intros H|]|]; lra.
Qed.

Lemma beaten_between (lo hi A : Cost.t) (n j i : Z) :
  SingleCost.T_depth (Cost.low_depth lo)
    <= SingleCost.T_depth (Cost.low_depth A)
    <= SingleCost.T_depth (Cost.low_depth hi) ->
  beaten lo n j i = true -> beaten hi n j i = true ->
  (j < i)%Z /\ candidate_T_depth A n j <= candidate_T_depth A n i.
Proof.
  unfold beaten. rewrite !andb_true_iff, !Qle_bool_iff, Z.ltb_lt.
  rewrite (candidate_T_depth_shift hi lo n j), (candidate_T_depth_shift hi lo n i),
    (candidate_T_depth_shift A lo n j), (candidate_T_depth_shift A lo n i).
  set (cj := candidate_T_depth lo n j). set (ci := candidate_T_depth lo n i).
  set (mj := additions n j). set (mi := additions n i).
  set (y := SingleCost.T_depth (Cost.low_depth A)).
  set (yl := SingleCost.T_depth (Cost.low_depth lo)).
  set (yh := SingleCost.T_depth (Cost.low_depth hi)).
  intros Hy [Hji Hlo] [_ Hhi]. split; [exact Hji|].
  pose proof (affine_between (mj - mi) (cj - ci - yl * (mj - mi)) yl yh y Hy)
    as H.
  lapply H; [clear H; intros H; lapply H; [clear H; intros H|]|]; lra.
Qed.

(** What an iteration leaves in [best_depth]. *)
Lemma loop_body_best_depth (A : Cost.t) (n i : Z) (b : Best) :
  best_depth (loop_body (blank_addition_cost A n) n b i)
  = if Qltb (candidate_T_depth A n i)
            (SingleCost.T_depth (Cost.low_depth (best_depth b)))
    then total_cost (blank_addition_cost A n) n i
    else best_depth b.
Proof.
  unfold loop_body, candidate_T_depth.
  generalize (total_cost (blank_addition_cost A n) n i). intros t.
  destruct (compare_spec t i b) as (_ & _ & ED).
  set (b' := compare t i b) in *. clearbody b'.
  destruct (Qltb _ _) in ED |- *; congruence.
Qed.

(** The invariant of the search for the depth objective, over the
    candidates [s, s+1, ..., s+len-1]: the full depth of the best is at
    most that of the seed, and once candidate [j] is behind, the T depth of
    the best is at most that of [j]. *)
Lemma depth_invariant (A : Cost.t) (n j : Z) (len : nat) :
  forall (s : nat) (b : Best),
    (forall k : nat, (s <= k < s + len)%nat ->
       candidate_full_depth A n (Z.of_nat k) <= seed_full_depth A n \/
       ((j < Z.of_nat k)%Z /\
        candidate_T_depth A n j <= candidate_T_depth A n (Z.of_nat k))) ->
    SingleCost.full_depth (Cost.low_depth (best_depth b))
      <= seed_full_depth A n ->
    ((j < Z.of_nat s)%Z ->
       SingleCost.T_depth (Cost.low_depth (best_depth b))
         <= candidate_T_depth A n j) ->
    SingleCost.full_depth
      (Cost.low_depth
         (best_depth
            (fold_left (loop_body (blank_addition_cost A n) n)
                       (map Z.of_nat (seq s len)) b)))
      <= seed_full_depth A n.
Proof.
  induction len as [|len IH]; intros s b Hc Hfd HTd; [exact Hfd|].
  cbn [seq map fold_left].
  specialize (Hc s ltac:(lia)) as Hs.
  pose proof (loop_body_best_depth A n (Z.of_nat s) b) as E.
  set (b' := loop_body (blank_addition_cost A n) n b (Z.of_nat s)) in *.
  apply IH.
  - intros k Hk. apply Hc. lia.
  - rewrite E. destruct (Qltb _ _) eqn:Hlt; [|exact Hfd].
    apply Qltb_lt in Hlt.
    destruct Hs as [Hs | [Hjs Hs]]; [exact Hs|].
    specialize (HTd Hjs). lra.
  - intros Hj. rewrite E. destruct (Qltb _ _) eqn:Hlt.
    + fold (candidate_T_depth A n (Z.of_nat s)).
      destruct (Z.eq_dec j (Z.of_nat s)) as [-> | Hne]; [apply Qle_refl|].
      apply Qltb_lt in Hlt. specialize (HTd ltac:(lia)). lra.
    + apply Qltb_ge in Hlt.
      destruct (Z.eq_dec j (Z.of_nat s)) as [-> | Hne]; [exact Hlt|].
      apply HTd. lia.
Qed.

(** A certificate that evaluates to [true] bounds the depth objective for
    every addition cost between its ends. *)
Lemma depth_check_sound (lo hi A : Cost.t) (n j : Z) :
  depth_check lo hi n j = true ->
  SingleCost.full_depth (Cost.low_depth lo)
    <= SingleCost.full_depth (Cost.low_depth A)
    <= SingleCost.full_depth (Cost.low_depth hi) ->
  SingleCost.T_depth (Cost.low_depth lo)
    <= SingleCost.T_depth (Cost.low_depth A)
    <= SingleCost.T_depth (Cost.low_depth hi) ->
  SingleCost.full_depth (Cost.low_depth (best_depth (get_optimal_shor A n)))
    <= seed_full_depth A n.
Proof.
  unfold depth_check. rewrite !andb_true_iff, forallb_forall.
  intros [[Hj0 _] Hall] Hfd HTd. apply Z.leb_le in Hj0.
  unfold get_optimal_shor, range. apply depth_invariant with (j := j).
  - intros k Hk.
    specialize (Hall (Z.of_nat k)). lapply Hall.
    + rewrite orb_true_iff, !andb_true_iff.
      intros [[H1 H2] | [H1 H2]].
      * left. now apply (harmless_between lo hi).
      * right. now apply (beaten_between lo hi).
    + apply in_map, in_seq. lia.
  - apply Qle_refl.
  - intros Hj. cbn in Hj. lia.
Qed.

(** The bests of the T and width objectives never rise above a bound
    they are under, whatever the candidates. *)
Lemma T_counts_stay_below (blank : Cost.t) (n : Z) (cT cW : Q) (l : list Z) :
  forall b : Best,
    SingleCost.T_count (Cost.low_T (best_T b)) <= cT ->
    SingleCost.T_count (Cost.low_width (best_width b)) <= cW ->
    let r := fold_left (loop_body blank n) l b in
    SingleCost.T_count (Cost.low_T (best_T r)) <= cT /\
    SingleCost.T_count (Cost.low_width (best_width r)) <= cW.
Proof.
  induction l as [|i l IH]; intros b HT HW; [now split|].
  cbn [fold_left].
  change (loop_body blank n b i) with (compare (total_cost blank n i) i b).
  generalize (total_cost blank n i). intros t.
  destruct (compare_spec t i b) as (ET & EW & _).
  set (b' := compare t i b) in *. clearbody b'.
  apply IH.
  - destruct (Qltb _ _) eqn:Hlt in ET; injection ET as -> _; [|exact HT].
    apply Qltb_lt in Hlt. lra.
  - destruct (Qltb _ _) eqn:Hlt in EW; injection EW as -> _; [|exact HW].
    apply Qltb_lt in Hlt. lra.
Qed.

(** The depth formulas of the generic addition grow with the logarithm. *)
Lemma point_addition_depth_bounds (lg : Z -> Q) (n : Z) :
  (0 <= n)%Z -> lg_floor n <= lg n <= lg_ceil n ->
  let lo := point_addition_cost lg_floor n in
  let hi := point_addition_cost lg_ceil n in
  let A := point_addition_cost lg n in
  (SingleCost.full_depth (Cost.low_depth lo)
     <= SingleCost.full_depth (Cost.low_depth A)
     <= SingleCost.full_depth (Cost.low_depth hi)) /\
  (SingleCost.T_depth (Cost.low_depth lo)
     <= SingleCost.T_depth (Cost.low_depth A)
     <= SingleCost.T_depth (Cost.low_depth hi)).
Proof.
  intros Hn Hlg. cbn -[inject_Z].
  apply inject_Z_mono in Hn. change (inject_Z 0) with 0 in Hn.
  set (x := inject_Z n) in *. set (a := lg_floor n) in *.
  set (c := lg_ceil n) in *. set (y := lg n) in *.
  repeat split; nra.
Qed.

(** The certificates of the five bit-widths, by evaluation. *)
Lemma depth_check_10 :
  depth_check (point_addition_cost lg_floor 10)
              (point_addition_cost lg_ceil 10) 10 (pivot 10) = true.
Proof. vm_compute. reflexivity. Qed.

Lemma depth_check_64 :
  depth_check (point_addition_cost lg_floor 64)
              (point_addition_cost lg_ceil 64) 64 (pivot 64) = true.
Proof. vm_compute. reflexivity. Qed.

Lemma depth_check_256 :
  depth_check (point_addition_cost lg_floor 256)
              (point_addition_cost lg_ceil 256) 256 (pivot 256) = true.
Proof. vm_compute. reflexivity. Qed.

Lemma depth_check_384 :
  depth_check (point_addition_cost lg_floor 384)
              (point_addition_cost lg_ceil 384) 384 (pivot 384) = true.
Proof. vm_compute. reflexivity. Qed.

Lemma depth_check_521 :
  depth_check (point_addition_cost lg_floor 521)
              (point_addition_cost lg_ceil 521) 521 (pivot 521) = true.
Proof. vm_compute. reflexivity. Qed.

(** C4. For n in {10, 64, 256, 384, 521} and the generic addition cost,
    computed with any value of the binary logarithm between its integer
    bounds, the cost chosen for each objective is at most the seed
    [addition_cost * 2n] in the metric of the objective: T_count of low_T
    for T, full_depth of low_depth for depth, T_count of low_width for
    width. *)
Theorem chosen_cost_at_most_seed (lg : Z -> Q) (n : Z) :
  In n [10; 64; 256; 384; 521]%Z ->
  lg_floor n <= lg n <= lg_ceil n ->
  let addition_cost := point_addition_cost lg n in
  let r := get_optimal_shor addition_cost n in
  let seed := Cost.multiply addition_cost (inject_Z (2 * n)) in
  SingleCost.T_count (Cost.low_T (best_T r))
    <= SingleCost.T_count (Cost.low_T seed) /\
  SingleCost.full_depth (Cost.low_depth (best_depth r))
    <= SingleCost.full_depth (Cost.low_depth seed) /\
  SingleCost.T_count (Cost.low_width (best_width r))
    <= SingleCost.T_count (Cost.low_width seed).
Proof.
  intros Hn Hlg A r seed.
  assert (HTW : SingleCost.T_count (Cost.low_T (best_T r))
                  <= SingleCost.T_count (Cost.low_T seed) /\
                SingleCost.T_count (Cost.low_width (best_width r))
                  <= SingleCost.T_count (Cost.low_width seed)).
  { subst r. unfold get_optimal_shor.
    apply T_counts_stay_below; apply Qle_refl. }
  destruct HTW as [HT HW]. split; [exact HT|]. split; [|exact HW].
  assert (Hpos : (0 <= n)%Z).
  { cbn in Hn. lia. }
  destruct (point_addition_depth_bounds lg n Hpos Hlg) as [Hfd HTd].
  assert (Hc : depth_check (point_addition_cost lg_floor n)
                           (point_addition_cost lg_ceil n) n (pivot n) = true).
  { cbn in Hn.
    destruct Hn as [<- | [<- | [<- | [<- | [<- | []]]]]].
    - exact depth_check_10.
    - exact depth_check_64.
    - exact depth_check_256.
    - exact depth_check_384.
    - exact depth_check_521. }
  exact (depth_check_sound _ _ A n (pivot n) Hc Hfd HTd).
Qed.

Lemma chosen_cost_at_most_seed_witness :
  let addition_cost := point_addition_cost (fun _ => 6) 64 in
  let r := get_optimal_shor addition_cost 64 in
  let seed := Cost.multiply addition_cost (inject_Z (2 * 64)) in
  SingleCost.T_count (Cost.low_T (best_T r))
    <= SingleCost.T_count (Cost.low_T seed) /\
  SingleCost.full_depth (Cost.low_depth (best_depth r))
    <= SingleCost.full_depth (Cost.low_depth seed) /\
  SingleCost.T_count (Cost.low_width (best_width r))
    <= SingleCost.T_count (Cost.low_width seed).
Proof.
  apply (chosen_cost_at_most_seed (fun _ => 6) 64).
  - simpl. tauto.
  - vm_compute. split; discriminate.
Defined.

(** ** The search on the store *)

Lemma ok_ret {A : Type} (x : A) (h : Heap.heap) (Q : A -> Heap.heap -> Prop) :
  Q x h -> ok (Heap.ret x) h Q.
Proof. exact id. Qed.

Lemma ok_bind {A B : Type} (m : Heap.M A) (k : A -> Heap.M B)
    (h : Heap.heap) (Q : B -> Heap.heap -> Prop) :
  ok m h (fun x h' => ok (k x) h' Q) -> ok (Heap.mbind m k) h Q.
Proof.
  unfold ok, Heap.mbind. destruct (m h) as [[x h']|]; [exact id | exact id].
Qed.

Lemma ok_mono {A : Type} (m : Heap.M A) (h : Heap.heap)
    (P Q : A -> Heap.heap -> Prop) :
  ok m h P -> (forall x h', P x h' -> Q x h') -> ok m h Q.
Proof.
  unfold ok. destruct (m h) as [[x h']|]; [|exact (fun H _ => H)].
  intros HP HPQ. now apply HPQ.
Qed.

Lemma ok_alloc (o : Heap.obj) (h : Heap.heap)
    (Q : Heap.loc -> Heap.heap -> Prop) :
  Q (length h) (h ++ [o]) -> ok (Heap.alloc o) h Q.
Proof. exact id. Qed.

Lemma ok_get_single (l : Heap.loc) (s : SingleCost.t) (h : Heap.heap)
    (Q : SingleCost.t -> Heap.heap -> Prop) :
  h !! l = Some (Heap.OSingle s) -> Q s h -> ok (Heap.get_single l) h Q.
Proof. intros E HQ. unfold ok, Heap.get_single. now rewrite E. Qed.

Lemma ok_put_single (l : Heap.loc) (s0 s : SingleCost.t) (h : Heap.heap)
    (Q : unit -> Heap.heap -> Prop) :
  h !! l = Some (Heap.OSingle s0) ->
  Q tt (<[l := Heap.OSingle s]> h) -> ok (Heap.put_single l s) h Q.
Proof. intros E HQ. unfold ok, Heap.put_single. now rewrite E. Qed.

Lemma ok_low_depth (c d t w : Heap.loc) (h : Heap.heap)
    (Q : Heap.loc -> Heap.heap -> Prop) :
  h !! c = Some (Heap.OCost d t w) -> Q d h -> ok (Heap.low_depth c) h Q.
Proof.
  intros E HQ. unfold ok, Heap.low_depth, Heap.mbind, Heap.get_cost.
  now rewrite E.
Qed.

Lemma ok_low_T (c d t w : Heap.loc) (h : Heap.heap)
    (Q : Heap.loc -> Heap.heap -> Prop) :
  h !! c = Some (Heap.OCost d t w) -> Q t h -> ok (Heap.low_T c) h Q.
Proof.
  intros E HQ. unfold ok, Heap.low_T, Heap.mbind, Heap.get_cost.
  now rewrite E.
Qed.

Lemma ok_low_width (c d t w : Heap.loc) (h : Heap.heap)
    (Q : Heap.loc -> Heap.heap -> Prop) :
  h !! c = Some (Heap.OCost d t w) -> Q w h -> ok (Heap.low_width c) h Q.
Proof.
  intros E HQ. unfold ok, Heap.low_width, Heap.mbind, Heap.get_cost.
  now rewrite E.
Qed.

Lemma cost_at_prefix (h h' : Heap.heap) (c d t w : Heap.loc) (C : Cost.t) :
  h `prefix_of` h' -> cost_at h c d t w C -> cost_at h' c d t w C.
Proof.
  intros Hp (Hc & Hd & Ht & Hw).
  repeat split; eapply prefix_lookup_Some; eassumption.
Qed.

Lemma live_prefix (h h' : Heap.heap) (c : Heap.loc) (C : Cost.t) :
  h `prefix_of` h' -> live h c C -> live h' c C.
Proof.
  intros Hp (d & t & w & H). exists d, t, w. now apply (cost_at_prefix h).
Qed.

Lemma owned_live (base h : Heap.heap) (c : Heap.loc) (C : Cost.t) :
  owned base h c C -> live h c C.
Proof. intros (d & t & w & H & _). now exists d, t, w. Qed.

Lemma live_read_cost (h : Heap.heap) (c : Heap.loc) (C : Cost.t) :
  live h c C <-> Heap.read_cost h c = Some C.
Proof.
  unfold live, cost_at, Heap.read_cost, Heap.read_single. split.
  - intros (d & t & w & -> & -> & -> & ->). now destruct C.
  - destruct (h !! c) as [[s|d t w]|]; try discriminate.
    destruct (h !! d) as [[sd|? ? ?]|] eqn:Ed; try discriminate.
    destruct (h !! t) as [[st|? ? ?]|] eqn:Et; try discriminate.
    destruct (h !! w) as [[sw|? ? ?]|] eqn:Ew; try discriminate.
    intros [= <-]. exists d, t, w. cbn. now rewrite Ed, Et, Ew.
Qed.

Lemma lookup_snoc_new (h : Heap.heap) (o : Heap.obj) :
  (h ++ [o]) !! length h = Some o.
Proof. now apply list_lookup_middle. Qed.

Ltac heap_lookup :=
  repeat first
    [ eassumption | apply lookup_snoc_new | apply lookup_app_l_Some ].

Lemma ok_bind_spec {A B : Type} (m : Heap.M A) (k : A -> Heap.M B)
    (h : Heap.heap) (P : A -> Heap.heap -> Prop)
    (Q : B -> Heap.heap -> Prop) :
  ok m h P -> (forall x h', P x h' -> ok (k x) h' Q) ->
  ok (Heap.mbind m k) h Q.
Proof. intros Hm Hk. apply ok_bind. exact (ok_mono m h _ _ Hm Hk). Qed.

Lemma ok_SingleCost_add (d1 d2 : Heap.loc) (a b : SingleCost.t)
    (h : Heap.heap) (Q : Heap.loc -> Heap.heap -> Prop) :
  h !! d1 = Some (Heap.OSingle a) -> h !! d2 = Some (Heap.OSingle b) ->
  Q (length h) (h ++ [Heap.OSingle (SingleCost.add a b)]) ->
  ok (Heap.SingleCost_add d1 d2) h Q.
Proof.
  intros E1 E2 HQ. unfold Heap.SingleCost_add.
  apply ok_bind. eapply ok_get_single; [exact E1|].
  apply ok_bind. eapply ok_get_single; [exact E2|].
  now apply ok_alloc.
Qed.

Lemma ok_SingleCost_subtract (d1 d2 : Heap.loc) (a b : SingleCost.t)
    (h : Heap.heap) (Q : Heap.loc -> Heap.heap -> Prop) :
  h !! d1 = Some (Heap.OSingle a) -> h !! d2 = Some (Heap.OSingle b) ->
  Q (length h) (h ++ [Heap.OSingle (SingleCost.subtract a b)]) ->
  ok (Heap.SingleCost_subtract d1 d2) h Q.
Proof.
  intros E1 E2 HQ. unfold Heap.SingleCost_subtract.
  apply ok_bind. eapply ok_get_single; [exact E1|].
  apply ok_bind. eapply ok_get_single; [exact E2|].
  now apply ok_alloc.
Qed.

Lemma ok_SingleCost_multiply (d1 : Heap.loc) (a : SingleCost.t) (k : Q)
    (h : Heap.heap) (Q : Heap.loc -> Heap.heap -> Prop) :
  h !! d1 = Some (Heap.OSingle a) ->
  Q (length h) (h ++ [Heap.OSingle (SingleCost.multiply a k)]) ->
  ok (Heap.SingleCost_multiply d1 k) h Q.
Proof.
  intros E1 HQ. unfold Heap.SingleCost_multiply.
  apply ok_bind. eapply ok_get_single; [exact E1|].
  now apply ok_alloc.
Qed.

Lemma ok_copy_single (d1 : Heap.loc) (a : SingleCost.t)
    (h : Heap.heap) (Q : Heap.loc -> Heap.heap -> Prop) :
  h !! d1 = Some (Heap.OSingle a) ->
  Q (length h) (h ++ [Heap.OSingle a]) ->
  ok (Heap.copy_single d1) h Q.
Proof.
  intros E1 HQ. unfold Heap.copy_single.
  apply ok_bind. eapply ok_get_single; [exact E1|].
  now apply ok_alloc.
Qed.

Ltac heap_step :=
  lazymatch goal with
  | |- ok (Heap.mbind _ _) _ _ => apply ok_bind
  | |- ok (Heap.ret _) _ _ => apply ok_ret
  | |- ok (Heap.alloc _) _ _ => apply ok_alloc
  | |- ok (Heap.low_depth _) _ _ => eapply ok_low_depth; [heap_lookup|]
  | |- ok (Heap.low_T _) _ _ => eapply ok_low_T; [heap_lookup|]
  | |- ok (Heap.low_width _) _ _ => eapply ok_low_width; [heap_lookup|]
  | |- ok (Heap.get_single _) _ _ => eapply ok_get_single; [heap_lookup|]
  | |- ok (Heap.copy_single _) _ _ => eapply ok_copy_single; [heap_lookup|]
  | |- ok (Heap.SingleCost_add _ _) _ _ =>
      eapply ok_SingleCost_add; [heap_lookup | heap_lookup |]
  | |- ok (Heap.SingleCost_subtract _ _) _ _ =>
      eapply ok_SingleCost_subtract; [heap_lookup | heap_lookup |]
  | |- ok (Heap.SingleCost_multiply _ _) _ _ =>
      eapply ok_SingleCost_multiply; [heap_lookup |]
  end.

(** A store extended by constructions has the old store as a prefix. *)
Ltac heap_prefix :=
  repeat first [ reflexivity | apply prefix_app_r ].

Ltac heap_owned :=
  eexists _, _, _; split;
  [ repeat split; heap_lookup
  | rewrite ?length_app; cbn [length]; lia ].

Lemma Cost_add_spec (h : Heap.heap) (c1 c2 : Heap.loc) (C1 C2 : Cost.t) :
  live h c1 C1 -> live h c2 C2 ->
  ok (Heap.Cost_add c1 c2) h
     (fun r h' => h `prefix_of` h' /\ owned h h' r (Cost.add C1 C2)).
Proof.
  intros (d1 & t1 & w1 & Hc1 & Hd1 & Ht1 & Hw1)
         (d2 & t2 & w2 & Hc2 & Hd2 & Ht2 & Hw2).
  unfold Heap.Cost_add. repeat heap_step.
  split; [heap_prefix | heap_owned].
Qed.

Lemma Cost_subtract_spec (h : Heap.heap) (c1 c2 : Heap.loc) (C1 C2 : Cost.t) :
  live h c1 C1 -> live h c2 C2 ->
  ok (Heap.Cost_subtract c1 c2) h
     (fun r h' => h `prefix_of` h' /\ owned h h' r (Cost.subtract C1 C2)).
Proof.
  intros (d1 & t1 & w1 & Hc1 & Hd1 & Ht1 & Hw1)
         (d2 & t2 & w2 & Hc2 & Hd2 & Ht2 & Hw2).
  unfold Heap.Cost_subtract. repeat heap_step.
  split; [heap_prefix | heap_owned].
Qed.

Lemma Cost_multiply_spec (h : Heap.heap) (c1 : Heap.loc) (C1 : Cost.t) (k : Q) :
  live h c1 C1 ->
  ok (Heap.Cost_multiply c1 k) h
     (fun r h' => h `prefix_of` h' /\ owned h h' r (Cost.multiply C1 k)).
Proof.
  intros (d1 & t1 & w1 & Hc1 & Hd1 & Ht1 & Hw1).
  unfold Heap.Cost_multiply. repeat heap_step.
  split; [heap_prefix | heap_owned].
Qed.

Lemma Lookup_Cost_spec (h : Heap.heap) (n w : Z) :
  ok (Heap.Lookup_Cost n w) h
     (fun r h' => h `prefix_of` h' /\ owned h h' r (Lookup_Cost n w)).
Proof.
  unfold Heap.Lookup_Cost. repeat heap_step.
  split; [heap_prefix | heap_owned].
Qed.

Lemma deepcopy_spec (base h : Heap.heap) (c : Heap.loc) (C : Cost.t) :
  owned base h c C ->
  ok (Heap.deepcopy c) h
     (fun r h' => h `prefix_of` h' /\ owned h h' r C).
Proof.
  intros (d & t & w & (Hc & Hd & Ht & Hw) & _ & _ & _ & Hdt & Hdw & Htw).
  unfold Heap.deepcopy, Heap.get_cost.
  apply ok_bind. unfold ok at 1. rewrite Hc.
  destruct (decide (t = d)) as [E|_]; [congruence|].
  destruct (decide (w = d)) as [E|_]; [congruence|].
  destruct (decide (w = t)) as [E|_]; [congruence|].
  repeat heap_step.
  split; [heap_prefix | heap_owned].
Qed.

Lemma prefix_insert_ge (base h : Heap.heap) (l : Heap.loc) (o : Heap.obj) :
  base `prefix_of` h -> (length base <= l)%nat ->
  base `prefix_of` <[l := o]> h.
Proof.
  intros [k ->] Hl. rewrite insert_app_r_alt by exact Hl.
  now apply prefix_app_r.
Qed.

Lemma ok_get_width (s : Heap.loc) (x : SingleCost.t) (h : Heap.heap)
    (Q : Q -> Heap.heap -> Prop) :
  h !! s = Some (Heap.OSingle x) -> Q (SingleCost.width x) h ->
  ok (Heap.get_width s) h Q.
Proof.
  intros E HQ. unfold Heap.get_width.
  apply ok_bind. eapply ok_get_single; [exact E|]. exact HQ.
Qed.

Lemma ok_get_T_count (s : Heap.loc) (x : SingleCost.t) (h : Heap.heap)
    (Q : Q -> Heap.heap -> Prop) :
  h !! s = Some (Heap.OSingle x) -> Q (SingleCost.T_count x) h ->
  ok (Heap.get_T_count s) h Q.
Proof.
  intros E HQ. unfold Heap.get_T_count.
  apply ok_bind. eapply ok_get_single; [exact E|]. exact HQ.
Qed.

Lemma ok_get_T_depth (s : Heap.loc) (x : SingleCost.t) (h : Heap.heap)
    (Q : Q -> Heap.heap -> Prop) :
  h !! s = Some (Heap.OSingle x) -> Q (SingleCost.T_depth x) h ->
  ok (Heap.get_T_depth s) h Q.
Proof.
  intros E HQ. unfold Heap.get_T_depth.
  apply ok_bind. eapply ok_get_single; [exact E|]. exact HQ.
Qed.

Lemma ok_set_width (s : Heap.loc) (x : SingleCost.t) (v : Q) (h : Heap.heap)
    (Q : unit -> Heap.heap -> Prop) :
  h !! s = Some (Heap.OSingle x) ->
  Q tt (<[s := Heap.OSingle (SingleCost.set_width x v)]> h) ->
  ok (Heap.set_width s v) h Q.
Proof.
  intros E HQ. unfold Heap.set_width.
  apply ok_bind. eapply ok_get_single; [exact E|].
  eapply ok_put_single; [exact E | exact HQ].
Qed.

(** Lookups in a store written as appends and assignments over a store
    with known contents. *)
Ltac store_lookup :=
  repeat first
    [ eassumption
    | apply lookup_snoc_new
    | apply lookup_app_l_Some
    | apply list_lookup_insert_eq; rewrite ?length_insert; lia
    | rewrite list_lookup_insert_ne by lia ].

Ltac store_step :=
  lazymatch goal with
  | |- ok (Heap.mbind _ _) _ _ => apply ok_bind
  | |- ok (Heap.ret _) _ _ => apply ok_ret
  | |- ok (Heap.low_depth _) _ _ => eapply ok_low_depth; [store_lookup|]
  | |- ok (Heap.low_T _) _ _ => eapply ok_low_T; [store_lookup|]
  | |- ok (Heap.low_width _) _ _ => eapply ok_low_width; [store_lookup|]
  | |- ok (Heap.get_width _) _ _ => eapply ok_get_width; [store_lookup|]
  | |- ok (Heap.set_width _ _) _ _ => eapply ok_set_width; [store_lookup|]
  | |- ok (Heap.isub_width _ _ _) _ _ => unfold Heap.isub_width
  | |- ok (Heap.iadd_width _ _ _) _ _ => unfold Heap.iadd_width
  | |- ok (Heap.iadd_max_width _ _ _ _) _ _ => unfold Heap.iadd_max_width
  end.

(** The bounds and the contents that the hypotheses of the three lemmas
    below give: the objects of [e] lie in [base], those of [c] after it. *)
Ltac store_facts base h Hp :=
  repeat match goal with
  | H : base !! ?l = Some ?o |- _ =>
      pose proof (lookup_lt_Some _ _ _ H);
      apply (fun E => prefix_lookup_Some base h l o E Hp) in H
  end;
  repeat match goal with
  | H : h !! ?l = Some _ |- _ =>
      lazymatch goal with
      | _ : (l < length h)%nat |- _ => fail
      | _ => pose proof (lookup_lt_Some _ _ _ H)
      end
  end.

Lemma sub_widths_spec {A : Type} (base h : Heap.heap) (c e : Heap.loc)
    (C E : Cost.t) (k : unit -> Heap.M A) (Q : A -> Heap.heap -> Prop) :
  base `prefix_of` h -> owned base h c C -> live base e E ->
  (forall h',
     base `prefix_of` h' ->
     owned base h' c
       (Cost.sub_widths C (SingleCost.width (Cost.low_depth E))
          (SingleCost.width (Cost.low_T E))
          (SingleCost.width (Cost.low_width E))) ->
     ok (k tt) h' Q) ->
  ok (Heap.mbind (Heap.isub_width Heap.low_depth c e) (fun _ =>
      Heap.mbind (Heap.isub_width Heap.low_T c e) (fun _ =>
      Heap.mbind (Heap.isub_width Heap.low_width c e) k))) h Q.
Proof.
  intros Hp (d & t & w & (Hc & Hd & Ht & Hw) & Bd & Bt & Bw & Hdt & Hdw & Htw)
         (de & te & we & Hce & Hde & Hte & Hwe) Hk.
  store_facts base h Hp.
  assert (c <> d /\ c <> t /\ c <> w) as (Hcd & Hct & Hcw)
    by (repeat split; congruence).
  repeat store_step. apply Hk.
  - repeat apply prefix_insert_ge; assumption.
  - exists d, t, w. split; [repeat split; store_lookup | lia].
Qed.

Lemma add_widths_spec {A : Type} (base h : Heap.heap) (c e : Heap.loc)
    (C E : Cost.t) (k : unit -> Heap.M A) (Q : A -> Heap.heap -> Prop) :
  base `prefix_of` h -> owned base h c C -> live base e E ->
  (forall h',
     base `prefix_of` h' ->
     owned base h' c
       (Cost.add_widths C (SingleCost.width (Cost.low_depth E))
          (SingleCost.width (Cost.low_T E))
          (SingleCost.width (Cost.low_width E))) ->
     ok (k tt) h' Q) ->
  ok (Heap.mbind (Heap.iadd_width Heap.low_depth c e) (fun _ =>
      Heap.mbind (Heap.iadd_width Heap.low_T c e) (fun _ =>
      Heap.mbind (Heap.iadd_width Heap.low_width c e) k))) h Q.
Proof.
  intros Hp (d & t & w & (Hc & Hd & Ht & Hw) & Bd & Bt & Bw & Hdt & Hdw & Htw)
         (de & te & we & Hce & Hde & Hte & Hwe) Hk.
  store_facts base h Hp.
  assert (c <> d /\ c <> t /\ c <> w) as (Hcd & Hct & Hcw)
    by (repeat split; congruence).
  repeat store_step. apply Hk.
  - repeat apply prefix_insert_ge; assumption.
  - exists d, t, w. split; [repeat split; store_lookup | lia].
Qed.

Lemma add_max_widths_spec {A : Type} (base h : Heap.heap) (c e1 e2 : Heap.loc)
    (C E1 E2 : Cost.t) (k : unit -> Heap.M A) (Q : A -> Heap.heap -> Prop) :
  base `prefix_of` h -> owned base h c C ->
  live base e1 E1 -> live base e2 E2 ->
  (forall h',
     base `prefix_of` h' ->
     owned base h' c
       (Cost.add_widths C
          (pymax (SingleCost.width (Cost.low_depth E1))
                 (SingleCost.width (Cost.low_depth E2)))
          (pymax (SingleCost.width (Cost.low_T E1))
                 (SingleCost.width (Cost.low_T E2)))
          (pymax (SingleCost.width (Cost.low_width E1))
                 (SingleCost.width (Cost.low_width E2)))) ->
     ok (k tt) h' Q) ->
  ok (Heap.mbind (Heap.iadd_max_width Heap.low_depth c e1 e2) (fun _ =>
      Heap.mbind (Heap.iadd_max_width Heap.low_T c e1 e2) (fun _ =>
      Heap.mbind (Heap.iadd_max_width Heap.low_width c e1 e2) k))) h Q.
Proof.
  intros Hp (d & t & w & (Hc & Hd & Ht & Hw) & Bd & Bt & Bw & Hdt & Hdw & Htw)
         (d1 & t1 & w1 & Hc1 & Hd1 & Ht1 & Hw1)
         (d2 & t2 & w2 & Hc2 & Hd2 & Ht2 & Hw2) Hk.
  store_facts base h Hp.
  assert (c <> d /\ c <> t /\ c <> w) as (Hcd & Hct & Hcw)
    by (repeat split; congruence).
  repeat store_step. apply Hk.
  - repeat apply prefix_insert_ge; assumption.
  - exists d, t, w. split; [repeat split; store_lookup | lia].
Qed.

Lemma owned_prefix (base h h' : Heap.heap) (c : Heap.loc) (C : Cost.t) :
  h `prefix_of` h' -> owned base h c C -> owned base h' c C.
Proof.
  intros Hp (d & t & w & H & B). exists d, t, w.
  split; [now apply (cost_at_prefix h) | exact B].
Qed.

Lemma best_live_prefix (h h' : Heap.heap) (b : Heap.Best) (B : Best) :
  h `prefix_of` h' -> best_live h b B -> best_live h' b B.
Proof.
  intros Hp (HT & HD & HW & Hs). repeat split; try apply Hs.
  all: eapply live_prefix; eassumption.
Qed.

Lemma update_T_spec (base h : Heap.heap) (total : Heap.loc) (Tot : Cost.t)
    (i : Z) (b : Heap.Best) (B : Best) :
  owned base h total Tot -> best_live h b B ->
  ok (Heap.update_T total i b) h
     (fun b' h' => h `prefix_of` h' /\ best_live h' b' (update_T Tot i B)).
Proof.
  intros Ho HB. pose proof Ho as (d & t & w & (Hc & Hd & Ht & Hw) & _).
  pose proof HB as ((d' & t' & w' & Hc' & Hd' & Ht' & Hw') & HD & HW & Hs).
  unfold Heap.update_T, update_T.
  apply ok_bind. eapply ok_low_T; [exact Hc|].
  apply ok_bind. eapply ok_get_T_count; [exact Ht|].
  apply ok_bind. eapply ok_low_T; [exact Hc'|].
  apply ok_bind. eapply ok_get_T_count; [exact Ht'|].
  destruct (Qltb _ _).
  - eapply ok_bind_spec; [eapply deepcopy_spec; exact Ho|].
    intros r h' (Hp & Hr). apply ok_ret. split; [exact Hp|].
    repeat split; cbn; try apply Hs.
    + eapply owned_live; exact Hr.
    + eapply live_prefix; eassumption.
    + eapply live_prefix; eassumption.
  - apply ok_ret. split; [reflexivity | exact HB].
Qed.

Lemma update_width_spec (base h : Heap.heap) (total : Heap.loc) (Tot : Cost.t)
    (i : Z) (b : Heap.Best) (B : Best) :
  owned base h total Tot -> best_live h b B ->
  ok (Heap.update_width total i b) h
     (fun b' h' => h `prefix_of` h' /\ best_live h' b' (update_width Tot i B)).
Proof.
  intros Ho HB. pose proof Ho as (d & t & w & (Hc & Hd & Ht & Hw) & _).
  pose proof HB as (HT & HD & (d' & t' & w' & Hc' & Hd' & Ht' & Hw') & Hs).
  unfold Heap.update_width, update_width.
  apply ok_bind. eapply ok_low_width; [exact Hc|].
  apply ok_bind. eapply ok_get_T_count; [exact Hw|].
  apply ok_bind. eapply ok_low_width; [exact Hc'|].
  apply ok_bind. eapply ok_get_T_count; [exact Hw'|].
  destruct (Qltb _ _).
  - eapply ok_bind_spec; [eapply deepcopy_spec; exact Ho|].
    intros r h' (Hp & Hr). apply ok_ret. split; [exact Hp|].
    repeat split; cbn; try apply Hs.
    + eapply live_prefix; eassumption.
    + eapply live_prefix; eassumption.
    + eapply owned_live; exact Hr.
  - apply ok_ret. split; [reflexivity | exact HB].
Qed.

Lemma update_depth_spec (base h : Heap.heap) (total : Heap.loc) (Tot : Cost.t)
    (i : Z) (b : Heap.Best) (B : Best) :
  owned base h total Tot -> best_live h b B ->
  ok (Heap.update_depth total i b) h
     (fun b' h' => h `prefix_of` h' /\ best_live h' b' (update_depth Tot i B)).
Proof.
  intros Ho HB. pose proof Ho as (d & t & w & (Hc & Hd & Ht & Hw) & _).
  pose proof HB as (HT & (d' & t' & w' & Hc' & Hd' & Ht' & Hw') & HW & Hs).
  unfold Heap.update_depth, update_depth.
  apply ok_bind. eapply ok_low_depth; [exact Hc|].
  apply ok_bind. eapply ok_get_T_depth; [exact Hd|].
  apply ok_bind. eapply ok_low_depth; [exact Hc'|].
  apply ok_bind. eapply ok_get_T_depth; [exact Hd'|].
  destruct (Qltb _ _).
  - eapply ok_bind_spec; [eapply deepcopy_spec; exact Ho|].
    intros r h' (Hp & Hr). apply ok_ret. split; [exact Hp|].
    repeat split; cbn; try apply Hs.
    + eapply live_prefix; eassumption.
    + eapply owned_live; exact Hr.
    + eapply live_prefix; eassumption.
  - apply ok_ret. split; [reflexivity | exact HB].
Qed.

(** Facts about a store hold in a store it is a prefix of. *)
Ltac advance Hp :=
  lazymatch type of Hp with
  | ?h `prefix_of` ?h' =>
      repeat match goal with
      | H : live h ?c ?C |- _ => apply (live_prefix h h' c C Hp) in H
      | H : owned ?b h ?c ?C |- _ => apply (owned_prefix b h h' c C Hp) in H
      | H : best_live h ?b ?B |- _ => apply (best_live_prefix h h' b B Hp) in H
      | H : ?a `prefix_of` h |- _ =>
          apply (fun X => transitivity (R := prefix) X Hp) in H
      end
  end.

Lemma loop_body_spec (h : Heap.heap) (blank : Heap.loc) (BL : Cost.t)
    (n i : Z) (b : Heap.Best) (B : Best) :
  live h blank BL -> best_live h b B ->
  ok (Heap.loop_body blank n b i) h
     (fun b' h' => h `prefix_of` h' /\ live h' blank BL /\
                   best_live h' b' (loop_body BL n B i)).
Proof.
  intros Hbl HB. assert (H0 : h `prefix_of` h) by reflexivity.
  revert H0. generalize h at 1 4. intros h0 H0.
  unfold Heap.loop_body. cbv zeta.
  eapply ok_bind_spec; [apply Lookup_Cost_spec|].
  intros l h1 (Hp1 & Hl). advance Hp1. apply owned_live in Hl.
  eapply ok_bind_spec; [eapply Cost_multiply_spec; exact Hl|].
  intros main h2 (Hp2 & Hmain). advance Hp2. apply owned_live in Hmain.
  eapply ok_bind_spec; [eapply Cost_add_spec; [exact Hbl | exact Hmain]|].
  intros ma h3 (Hp3 & Hma). advance Hp3. apply owned_live in Hma.
  eapply ok_bind_spec; [eapply Cost_multiply_spec; exact Hma|].
  intros total h4 (Hp4 & Htot).
  eapply ok_bind_spec
    with (P := fun total' h' =>
                 h3 `prefix_of` h' /\
                 exists base, owned base h' total' (total_cost BL n i)).
  - unfold total_cost. fold (main_lookup_costs n i).
    destruct (0 <? remainder_window n i)%Z.
    + advance Hp4. apply owned_live in Htot.
      eapply ok_bind_spec; [apply Lookup_Cost_spec|].
      intros l' h5 (Hp5 & Hl'). advance Hp5. apply owned_live in Hl'.
      eapply ok_bind_spec; [eapply Cost_multiply_spec; exact Hl'|].
      intros second h6 (Hp6 & Hsec). advance Hp6. apply owned_live in Hsec.
      eapply ok_bind_spec; [eapply Cost_add_spec; [exact Hbl | exact Hsec]|].
      intros sa h7 (Hp7 & Hsa). advance Hp7. apply owned_live in Hsa.
      eapply ok_bind_spec; [eapply Cost_multiply_spec; exact Hsa|].
      intros twice h8 (Hp8 & Htw). advance Hp8. apply owned_live in Htw.
      eapply ok_bind_spec; [eapply Cost_add_spec; [exact Htot | exact Htw]|].
      intros total' h9 (Hp9 & Htot').
      eapply add_max_widths_spec; [exact Hp9 | exact Htot' | exact Hsec | exact Hmain |].
      intros h' Hp' Ho'. apply ok_ret. split.
      * etransitivity; [exact Hp4 | exact Hp'].
      * exists h8. exact Ho'.
    + eapply add_widths_spec; [exact Hp4 | exact Htot | exact Hmain |].
      intros h' Hp' Ho'. apply ok_ret. split; [exact Hp'|].
      exists h3. exact Ho'.
  - intros total' h' (Hp' & base & Htot'). advance Hp'.
    eapply ok_bind_spec; [eapply update_T_spec; [exact Htot' | exact HB]|].
    clear HB. intros b1 h5 (Hp5 & HB). advance Hp5.
    eapply ok_bind_spec; [eapply update_width_spec; [exact Htot' | exact HB]|].
    clear HB. intros b2 h6 (Hp6 & HB). advance Hp6.
    eapply ok_mono; [eapply update_depth_spec; [exact Htot' | exact HB]|].
    clear HB. intros b3 h7 (Hp7 & HB). advance Hp7.
    split; [exact H0|]. split; [exact Hbl|]. exact HB.
Qed.

Lemma for_each_spec (blank : Heap.loc) (BL : Cost.t) (n : Z) (l : list Z) :
  forall (h : Heap.heap) (b : Heap.Best) (B : Best),
    live h blank BL -> best_live h b B ->
    ok (Heap.for_each l (Heap.loop_body blank n) b) h
       (fun r h' => h `prefix_of` h' /\
                    best_live h' r (fold_left (loop_body BL n) l B)).
Proof.
  induction l as [|i l IH]; intros h b B Hbl HB.
  - apply ok_ret. split; [reflexivity | exact HB].
  - cbn [Heap.for_each fold_left].
    eapply ok_bind_spec; [apply loop_body_spec; eassumption|].
    intros b' h' (Hp & Hbl' & HB').
    eapply ok_mono; [apply IH; eassumption|].
    intros r h'' (Hp' & Hr). split; [|exact Hr].
    etransitivity; eassumption.
Qed.

Lemma get_optimal_shor_spec (h : Heap.heap) (addition_cost : Heap.loc)
    (A : Cost.t) (n : Z) :
  live h addition_cost A ->
  ok (Heap.get_optimal_shor addition_cost n) h
     (fun r h' => h `prefix_of` h' /\
                  best_live h' r (get_optimal_shor A n)).
Proof.
  intros HA. assert (H0 : h `prefix_of` h) by reflexivity.
  revert H0. generalize h at 1 4. intros h0 H0.
  unfold Heap.get_optimal_shor.
  eapply ok_bind_spec; [apply Lookup_Cost_spec|].
  intros l h1 (Hp1 & Hl). advance Hp1. apply owned_live in Hl.
  eapply ok_bind_spec; [eapply Cost_multiply_spec; exact Hl|].
  intros eight h2 (Hp2 & He). advance Hp2. apply owned_live in He.
  eapply ok_bind_spec; [eapply Cost_subtract_spec; [exact HA | exact He]|].
  intros blank h3 (Hp3 & Hbl).
  eapply sub_widths_spec; [exact Hp3 | exact Hbl | exact He |].
  intros h4 Hp4 Hbl4. advance Hp4. apply owned_live in Hbl4.
  fold (eight_lookup_cost n) in Hbl4.
  change (live h4 blank (blank_addition_cost A n)) in Hbl4.
  eapply ok_bind_spec; [eapply Cost_multiply_spec; exact HA|].
  intros bT h5 (Hp5 & HbT). advance Hp5. apply owned_live in HbT.
  eapply ok_bind_spec; [eapply Cost_multiply_spec; exact HA|].
  intros bD h6 (Hp6 & HbD). advance Hp6. apply owned_live in HbD.
  eapply ok_bind_spec; [eapply Cost_multiply_spec; exact HA|].
  intros bW h7 (Hp7 & HbW). advance Hp7. apply owned_live in HbW.
  eapply ok_mono.
  - apply (for_each_spec blank (blank_addition_cost A n) n _ h7 _
             (initial_best A n)); [exact Hbl4|].
    repeat split; assumption.
  - intros r h' (Hp' & Hr). split; [|exact Hr].
    etransitivity; eassumption.
Qed.

(** C9. [get_optimal_shor] does not assign to its argument: run from any
    store in which [addition_cost] denotes a bundle, it returns, every
    object of that store is unchanged, so [addition_cost] denotes the same
    bundle, and the six results denote those of the search on values. *)
Theorem get_optimal_shor_keeps_argument (h : Heap.heap)
    (addition_cost : Heap.loc) (A : Cost.t) (n : Z) :
  Heap.read_cost h addition_cost = Some A ->
  exists (r : Heap.Best) (h' : Heap.heap),
    Heap.get_optimal_shor addition_cost n h = Some (r, h') /\
    (forall (l : Heap.loc) (o : Heap.obj), h !! l = Some o -> h' !! l = Some o) /\
    Heap.read_cost h' addition_cost = Some A /\
    Heap.read_cost h' (Heap.best_T r) = Some (best_T (get_optimal_shor A n)) /\
    Heap.read_cost h' (Heap.best_depth r)
      = Some (best_depth (get_optimal_shor A n)) /\
    Heap.read_cost h' (Heap.best_width r)
      = Some (best_width (get_optimal_shor A n)) /\
    Heap.best_T_size r = best_T_size (get_optimal_shor A n) /\
    Heap.best_depth_size r = best_depth_size (get_optimal_shor A n) /\
    Heap.best_width_size r = best_width_size (get_optimal_shor A n).
Proof.
  intros HA. apply live_read_cost in HA.
  pose proof (get_optimal_shor_spec h addition_cost A n HA) as H.
  unfold ok in H.
  destruct (Heap.get_optimal_shor addition_cost n h) as [[r h']|];
    [|contradiction].
  destruct H as (Hp & HT & HD & HW & ST & SD & SW).
  exists r, h'. split; [reflexivity|].
  split; [intros l o Hl; exact (prefix_lookup_Some _ _ _ _ Hl Hp)|].
  rewrite <- !live_read_cost.
  split; [exact (live_prefix _ _ _ _ Hp HA)|].
  repeat split; assumption.
Qed.

Lemma get_optimal_shor_keeps_argument_witness :
  exists (r : Heap.Best) (h' : Heap.heap),
    Heap.get_optimal_shor 3%nat 10 sample_store = Some (r, h') /\
    (forall (l : Heap.loc) (o : Heap.obj),
       sample_store !! l = Some o -> h' !! l = Some o) /\
    Heap.read_cost h' 3%nat = Some (Lookup_Cost 10 8) /\
    Heap.read_cost h' (Heap.best_T r)
      = Some (best_T (get_optimal_shor (Lookup_Cost 10 8) 10)) /\
    Heap.read_cost h' (Heap.best_depth r)
      = Some (best_depth (get_optimal_shor (Lookup_Cost 10 8) 10)) /\
    Heap.read_cost h' (Heap.best_width r)
      = Some (best_width (get_optimal_shor (Lookup_Cost 10 8) 10)) /\
    Heap.best_T_size r = best_T_size (get_optimal_shor (Lookup_Cost 10 8) 10) /\
    Heap.best_depth_size r
      = best_depth_size (get_optimal_shor (Lookup_Cost 10 8) 10) /\
    Heap.best_width_size r
      = best_width_size (get_optimal_shor (Lookup_Cost 10 8) 10).
Proof.
  apply (get_optimal_shor_keeps_argument sample_store 3%nat (Lookup_Cost 10 8) 10).
  reflexivity.
Defined.

(** ** The script on Python's numbers *)

Section ScriptLemmas.

Local Open Scope Z_scope.

(** *** The double quotient of two integers *)

Lemma floor_log2_lower (a b : Z) :
  0 < a -> 0 < b ->
  let l := Python.floor_log2 a b in
  Z.log2 a - Z.log2 b - 1 <= l /\
  b * 2 ^ Z.max l 0 <= a * 2 ^ Z.max (- l) 0.
Proof.
  intros Ha Hb. unfold Python.floor_log2. cbv zeta.
  set (l := Z.log2 a - Z.log2 b).
  pose proof (Z.log2_spec a Ha) as [La Ua].
  pose proof (Z.log2_spec b Hb) as [Lb Ub].
  pose proof (Z.log2_nonneg a) as Na. pose proof (Z.log2_nonneg b) as Nb.
  destruct (0 <=? l) eqn:El.
  - apply Z.leb_le in El. destruct (b * 2 ^ l <=? a) eqn:T.
    + apply Z.leb_le in T. split; [lia|].
      rewrite (Z.max_l l 0), (Z.max_r (- l) 0) by lia. lia.
    + apply Z.leb_gt in T. split; [lia|].
      destruct (Z.eq_dec l 0) as [E0|N0].
      * rewrite E0. change (b * 2 ^ 0 <= a * 2 ^ 1).
        replace (Z.log2 a) with (Z.log2 b) in La by lia.
        rewrite Z.pow_succ_r in Ub by lia. lia.
      * rewrite (Z.max_l (l - 1) 0), (Z.max_r (- (l - 1)) 0) by lia.
        rewrite Z.pow_0_r, Z.mul_1_r.
        assert (E : 2 ^ Z.succ (Z.log2 b) * 2 ^ (l - 1) = 2 ^ Z.log2 a).
        { rewrite <- Z.pow_add_r by lia. f_equal. lia. }
        assert (0 < 2 ^ (l - 1)) by (apply Z.pow_pos_nonneg; lia).
        nia.
  - apply Z.leb_gt in El. destruct (b <=? a * 2 ^ (- l)) eqn:T.
    + apply Z.leb_le in T. split; [lia|].
      rewrite (Z.max_r l 0), (Z.max_l (- l) 0) by lia. lia.
    + apply Z.leb_gt in T. split; [lia|].
      rewrite (Z.max_r (l - 1) 0), (Z.max_l (- (l - 1)) 0) by lia.
      rewrite Z.pow_0_r, Z.mul_1_r.
      assert (E : 2 ^ Z.log2 a * 2 ^ (- (l - 1)) = 2 ^ Z.succ (Z.log2 b)).
      { rewrite <- Z.pow_add_r by lia. f_equal. lia. }
      assert (0 < 2 ^ (- (l - 1))) by (apply Z.pow_pos_nonneg; lia).
      nia.
Qed.

Lemma round_half_even_bounds (a b : Z) :
  0 <= a -> 0 < b ->
  let m := Python.round_half_even a b in
  a / b <= m <= a / b + 1 /\ (m = a / b + 1 -> b <= 2 * (a mod b)).
Proof.
  intros Ha Hb. unfold Python.round_half_even. cbv zeta.
  destruct (2 * (a mod b) ?= b) eqn:C.
  - apply Z.compare_eq in C. destruct (Z.even (a / b)); lia.
  - lia.
  - apply Z.compare_gt_iff in C. lia.
Qed.

Lemma floor_log2_nonneg (a b : Z) : 0 < b <= a -> 0 <= Python.floor_log2 a b.
Proof.
  intros H. unfold Python.floor_log2. cbv zeta.
  assert (L : Z.log2 b <= Z.log2 a) by (apply Z.log2_le_mono; lia).
  destruct (Z.leb_spec 0 (Z.log2 a - Z.log2 b)) as [_|]; [|lia].
  destruct (Z.eq_dec (Z.log2 a - Z.log2 b) 0) as [E|N].
  - rewrite E, Z.pow_0_r, Z.mul_1_r.
    destruct (Z.leb_spec b a); lia.
  - destruct (_ <=? a); lia.
Qed.

(** For a numerator and a denominator below 2^53, the floor of the double
    quotient is the integer quotient. *)
Lemma truediv_floor (n d : Z) :
  1 <= n < 2 ^ 53 -> 1 <= d < 2 ^ 53 ->
  exists q, Python.truediv n d = inr q /\
            Python.math_floor q = inr (n / d) /\ Python.to_int q = inr (n / d).
Proof.
  intros Hn Hd. unfold Python.truediv.
  destruct (Z.eqb_spec d 0) as [|_]; [lia|].
  destruct (Z.eqb_spec n 0) as [|_]; [lia|].
  destruct (Z.ltb_spec n 0) as [|_]; [lia|].
  destruct (Z.ltb_spec d 0) as [|_]; [lia|].
  rewrite (Z.abs_eq n), (Z.abs_eq d) by lia. cbn [xorb].
  unfold Python.nearest_double.
  destruct (floor_log2_lower n d ltac:(lia) ltac:(lia)) as [Hl Hfl].
  set (fl := Python.floor_log2 n d) in *. clearbody fl.
  assert (Ld : Z.log2 d < 53) by (apply Z.log2_lt_pow2; lia).
  pose proof (Z.log2_nonneg n) as Ln.
  assert (Hk0 : 0 <= n / d) by (apply Z.div_pos; lia).
  assert (Hkd : d * (n / d) <= n < d * (n / d) + d).
  { pose proof (Z.mod_pos_bound n d ltac:(lia)).
    rewrite (Z.mod_eq n d) in * by lia. lia. }
  assert (Hu : fl <= 52).
  { destruct (Z.le_gt_cases fl 52) as [|G]; [assumption|exfalso].
    rewrite (Z.max_l fl 0), (Z.max_r (- fl) 0) in Hfl by lia.
    rewrite Z.pow_0_r, Z.mul_1_r in Hfl.
    assert (2 ^ 53 <= 2 ^ fl) by (apply Z.pow_le_mono_r; lia).
    nia. }
  rewrite (Z.max_l (fl - 52) (- 1074)) by lia.
  destruct (Z.eq_dec fl 52) as [E|N].
  - (* the quotient has 53 bits: the denominator is 1 *)
    subst fl. change (52 - 52) with 0. cbn [Z.leb Z.compare].
    change (Z.max 52 0) with 52 in Hfl. change (Z.max (- 52) 0) with 0 in Hfl.
    rewrite Z.pow_0_r, Z.mul_1_r in Hfl.
    assert (d = 1) by (change (2 ^ 53) with (2 * 2 ^ 52) in Hn; lia).
    subst d. change (1 * 2 ^ 0) with 1.
    unfold Python.round_half_even. rewrite Z.div_1_r, Z.mod_1_r.
    change (2 * 0 ?= 1) with Lt. cbv iota.
    destruct (Z.eqb_spec n (2 ^ 53)) as [|_]; [lia|].
    destruct n as [|p|p]; [lia| |lia].
    eexists. split; [reflexivity|].
    cbn [Python.math_floor Python.to_int Z.leb Z.compare Python.mantissa]. rewrite Z.pow_0_r, Z.mul_1_r.
    split; reflexivity.
  - (* the quotient is scaled by a positive power of two *)
    assert (Hs : 1 <= 52 - fl <= 105) by lia.
    destruct (Z.leb_spec 0 (fl - 52)) as [|_]; [lia|].
    replace (- (fl - 52)) with (52 - fl) by lia.
    set (s := 52 - fl) in *.
    assert (HP : 2 <= 2 ^ s).
    { change 2 with (2 ^ 1) at 1. apply Z.pow_le_mono_r; lia. }
    assert (Hsc : d * 2 ^ 52 <= n * 2 ^ s).
    { destruct (Z.le_gt_cases 0 fl).
      - rewrite (Z.max_l fl 0), (Z.max_r (- fl) 0) in Hfl by lia.
        rewrite Z.pow_0_r, Z.mul_1_r in Hfl.
        replace 52 with (fl + s) by lia. rewrite Z.pow_add_r by lia. nia.
      - rewrite (Z.max_r fl 0), (Z.max_l (- fl) 0) in Hfl by lia.
        rewrite Z.pow_0_r, Z.mul_1_r in Hfl.
        replace s with (- fl + 52) by lia. rewrite Z.pow_add_r by lia.
        assert (0 < 2 ^ 52) by reflexivity. nia. }
    set (P := 2 ^ s) in *.
    assert (H52 : 2 ^ 53 = 2 * 2 ^ 52) by reflexivity.
    assert (HdP : d < 2 * P) by nia.
    destruct (round_half_even_bounds (n * P) d ltac:(nia) ltac:(lia))
      as [[Hlo Hhi] Hup].
    set (m := Python.round_half_even (n * P) d) in *. clearbody m.
    assert (Hq : P * (n / d) <= n * P / d).
    { apply Z.div_le_lower_bound; [lia|]. nia. }
    assert (Hq' : n * P / d < P * (n / d) + P).
    { apply Z.div_lt_upper_bound; [lia|]. nia. }
    pose proof (Z.mod_pos_bound (n * P) d ltac:(lia)) as Hr.
    assert (Hm : P * (n / d) <= m < P * (n / d) + P).
    { split; [lia|].
      destruct (Z.eq_dec m (n * P / d + 1)) as [Em|]; [|lia].
      specialize (Hup Em).
      destruct (Z.eq_dec (n * P / d + 1) (P * (n / d) + P)) as [Eq|]; [|lia].
      exfalso. rewrite (Z.mod_eq (n * P) d) in Hup, Hr by lia.
      nia. }
    assert (Hdiv : m / P = n / d).
    { symmetry. apply (Z.div_unique m P (n / d) (m - P * (n / d))); lia. }
    assert (Hquot : Z.quot m P = n / d).
    { rewrite Z.quot_div_nonneg by nia. exact Hdiv. }
    destruct (Z.eqb_spec m (2 ^ 53)) as [E53|N53].
    + (* the Python.mantissa was rounded up to 2^53 *)
      change (2 ^ 52) with (Z.pos (2 ^ 52)%positive).
      assert (Hfin : (fl - 52 + 1 <=? 971) = true) by (apply Z.leb_le; lia).
      rewrite Hfin. eexists. split; [reflexivity|].
      cbn [Python.math_floor Python.to_int Python.mantissa].
      assert (Hv : (if 0 <=? fl - 52 + 1
                    then Z.pos (2 ^ 52) * 2 ^ (fl - 52 + 1)
                    else Z.pos (2 ^ 52) / 2 ^ (- (fl - 52 + 1))) = n / d).
      { rewrite <- Hdiv, E53. destruct (Z.leb_spec 0 (fl - 52 + 1)).
        - assert (s = 1) by lia. subst P.
          replace (fl - 52 + 1) with 0 by lia. replace s with 1 by lia.
          reflexivity.
        - subst P. replace (- (fl - 52 + 1)) with (s - 1) by lia.
          replace s with (1 + (s - 1)) at 2 by lia.
          rewrite Z.pow_add_r by lia.
          change (2 ^ 53) with (2 ^ 52 * 2 ^ 1).
          rewrite (Z.mul_comm (2 ^ 1)).
          rewrite Z.div_mul_cancel_r; [reflexivity| |discriminate].
          apply Z.pow_nonzero; lia. }
      split; [f_equal; exact Hv|].
      f_equal. rewrite <- Hv. destruct (0 <=? fl - 52 + 1); [reflexivity|].
      apply Z.quot_div_nonneg; [discriminate|].
      apply Z.pow_pos_nonneg; lia.
    + assert (H52' : 2 ^ 52 <= n * P / d).
      { apply Z.div_le_lower_bound; lia. }
      assert (0 < 2 ^ 52) by reflexivity.
      destruct m as [|p|p]; [lia| |lia].
      assert (Hfin : (fl - 52 <=? 971) = true) by (apply Z.leb_le; lia).
      rewrite Hfin. eexists. split; [reflexivity|].
      cbn [Python.math_floor Python.to_int Python.mantissa].
      destruct (Z.leb_spec 0 (fl - 52)) as [|_]; [lia|].
      replace (- (fl - 52)) with s by lia. fold P.
      split; f_equal; assumption.
Qed.

(** Whatever the size of the numerator, the double quotient is not below
    the integer quotient, up to 2^52. *)
Lemma truediv_lower (n d : Z) (q : spec_float) (k : Z) :
  1 <= d <= n -> Python.truediv n d = inr q -> Python.to_int q = inr k ->
  Z.min (n / d) (2 ^ 52) <= k.
Proof.
  intros Hd. unfold Python.truediv.
  destruct (Z.eqb_spec d 0) as [|_]; [lia|].
  destruct (Z.eqb_spec n 0) as [|_]; [lia|].
  destruct (Z.ltb_spec n 0) as [|_]; [lia|].
  destruct (Z.ltb_spec d 0) as [|_]; [lia|].
  rewrite (Z.abs_eq n), (Z.abs_eq d) by lia. cbn [xorb].
  unfold Python.nearest_double.
  destruct (floor_log2_lower n d ltac:(lia) ltac:(lia)) as [Hl Hfl].
  pose proof (floor_log2_nonneg n d ltac:(lia)) as Hl0.
  set (fl := Python.floor_log2 n d) in *. clearbody fl.
  rewrite (Z.max_l fl 0), (Z.max_r (- fl) 0) in Hfl by lia.
  rewrite Z.pow_0_r, Z.mul_1_r in Hfl.
  rewrite (Z.max_l (fl - 52) (- 1074)) by lia.
  assert (H52 : 0 < 2 ^ 52) by reflexivity.
  assert (Hkd : d * (n / d) <= n).
  { pose proof (Z.mod_pos_bound n d ltac:(lia)).
    rewrite (Z.mod_eq n d) in * by lia. lia. }
  destruct (Z.leb_spec 0 (fl - 52)) as [He|He].
  - (* the Python.mantissa is the quotient by a power of two *)
    set (e := fl - 52) in *.
    assert (HP : 0 < 2 ^ e) by (apply Z.pow_pos_nonneg; lia).
    assert (Hsc : d * 2 ^ e * 2 ^ 52 <= n).
    { rewrite <- Z.mul_assoc, <- Z.pow_add_r by lia.
      replace (e + 52) with fl by lia. exact Hfl. }
    destruct (round_half_even_bounds n (d * 2 ^ e) ltac:(lia) ltac:(nia))
      as [[Hlo _] _].
    assert (Hm : 2 ^ 52 <= n / (d * 2 ^ e)).
    { apply Z.div_le_lower_bound; nia. }
    set (m := Python.round_half_even n (d * 2 ^ e)) in *. clearbody m.
    destruct (Z.eqb_spec m (2 ^ 53)) as [E53|N53].
    + change (2 ^ 52) with (Z.pos (2 ^ 52)%positive) at 1.
      destruct (e + 1 <=? 971); [|discriminate].
      intros [= <-]. cbn [Python.to_int Python.mantissa].
      destruct (Z.leb_spec 0 (e + 1)) as [_|]; [|lia].
      intros [= <-].
      assert (0 < 2 ^ (e + 1)) by (apply Z.pow_pos_nonneg; lia).
      change (Z.pos (2 ^ 52)) with (2 ^ 52). nia.
    + destruct m as [|p|p]; [lia| |lia].
      destruct (e <=? 971); [|discriminate].
      intros [= <-]. cbn [Python.to_int Python.mantissa].
      destruct (Z.leb_spec 0 e) as [_|]; [|lia].
      intros [= <-]. nia.
  - (* the Python.mantissa is the quotient scaled up *)
    replace (- (fl - 52)) with (52 - fl) by lia.
    set (s := 52 - fl) in *.
    assert (HP : 2 <= 2 ^ s).
    { change 2 with (2 ^ 1) at 1. apply Z.pow_le_mono_r; lia. }
    set (P := 2 ^ s) in *.
    destruct (round_half_even_bounds (n * P) d ltac:(nia) ltac:(lia))
      as [[Hlo _] _].
    assert (Hq : P * (n / d) <= n * P / d).
    { apply Z.div_le_lower_bound; [lia|]. nia. }
    set (m := Python.round_half_even (n * P) d) in *. clearbody m.
    assert (Hdiv : n / d <= m / P).
    { apply Z.div_le_lower_bound; lia. }
    destruct (Z.eqb_spec m (2 ^ 53)) as [E53|N53].
    + change (2 ^ 52) with (Z.pos (2 ^ 52)%positive) at 1.
      destruct (fl - 52 + 1 <=? 971); [|discriminate].
      intros [= <-]. cbn [Python.to_int Python.mantissa].
      change (Z.pos (2 ^ 52)) with (2 ^ 52).
      destruct (Z.leb_spec 0 (fl - 52 + 1)).
      * intros [= <-].
        assert (0 < 2 ^ (fl - 52 + 1)) by (apply Z.pow_pos_nonneg; lia).
        nia.
      * intros [= <-].
        rewrite Z.quot_div_nonneg
          by (try apply Z.pow_pos_nonneg; lia).
        assert (E : 2 ^ 52 / 2 ^ (- (fl - 52 + 1)) = m / P).
        { rewrite E53. subst P. replace (- (fl - 52 + 1)) with (s - 1) by lia.
          replace s with (1 + (s - 1)) at 2 by lia.
          rewrite Z.pow_add_r by lia.
          change (2 ^ 53) with (2 ^ 52 * 2 ^ 1).
          rewrite (Z.mul_comm (2 ^ 1)).
          rewrite Z.div_mul_cancel_r; [reflexivity| |discriminate].
          apply Z.pow_nonzero; lia. }
        lia.
    + destruct m as [|p|p].
      * intros [= <-]. cbn [Python.to_int]. intros [= <-].
        change (0 / P) with (0 / P) in Hdiv. rewrite Z.div_0_l in Hdiv by lia.
        lia.
      * destruct (fl - 52 <=? 971); [|discriminate].
        intros [= <-]. cbn [Python.to_int Python.mantissa].
        destruct (Z.leb_spec 0 (fl - 52)) as [|_]; [lia|].
        replace (- (fl - 52)) with s by lia. fold P.
        intros [= <-]. rewrite Z.quot_div_nonneg by lia. lia.
      * assert (0 <= n * P / d) by (apply Z.div_pos; nia). lia.
Qed.

(** *** The loop and its overflow *)

Lemma bind_inr {A B : Type} (m : Python.res A) (k : A -> Python.res B)
    (b : B) :
  Python.bind m k = inr b -> exists a, m = inr a /\ k a = inr b.
Proof.
  destruct m as [e|a]; cbn; [discriminate|]. intros H. now exists a.
Qed.


Lemma for_each_raises {S : Type} (body : S -> Z -> Python.res S)
    (l : list Z) (i : Z) :
  In i l -> (forall s, exists e, body s i = inl e) ->
  forall s, exists e, Script.for_each body l s = inl e.
Proof.
  intros Hi Hbody. induction l as [|j l IH]; [destruct Hi|].
  intros s. cbn. destruct (body s j) as [e|s'] eqn:E.
  - exists e. reflexivity.
  - cbn. destruct Hi as [->|Hi].
    + destruct (Hbody s) as (e & He). congruence.
    + now apply IH.
Qed.

Lemma float_limit_above : (2 ^ 1023 < Python.float_limit)%Z.
Proof. reflexivity. Qed.

Lemma float_limit_below : (Python.float_limit < 2 ^ 1024)%Z.
Proof. reflexivity. Qed.

(** From window size 1024 on, [2**window_size] has no double: the first
    product of [Lookup_Cost] raises. *)
Lemma Lookup_Cost_overflow (n w : Z) :
  (1024 <= w)%Z -> Script.Lookup_Cost n w = inl Python.OverflowError.
Proof.
  intros Hw. unfold Script.Lookup_Cost, Python.pow2.
  destruct (Z.leb_spec 0 w) as [_|]; [|lia].
  cbn [Python.to_float]. unfold Python.float_of_int.
  assert (H : (2 ^ 1024 <= 2 ^ w)%Z) by (apply Z.pow_le_mono_r; lia).
  pose proof float_limit_below.
  destruct (Z.ltb_spec (Z.abs (2 ^ w)) Python.float_limit) as [L|_];
    [lia | reflexivity].
Qed.


Lemma half_from_2050 (n k : Z) :
  (2050 <= n)%Z -> Script.half n = inr k -> (1025 <= k)%Z.
Proof.
  intros Hn H. unfold Script.half in H.
  apply bind_inr in H as (q & Hq & Hk).
  pose proof (truediv_lower n 2 q k ltac:(lia) Hq Hk) as L.
  assert (1025 <= n / 2)%Z by (apply Z.div_le_lower_bound; lia).
  assert (1025 <= 2 ^ 52)%Z by (intros C; discriminate C).
  lia.
Qed.

(** The iteration at window size 1024 raises. *)
Lemma loop_body_overflow (blank : Script.Cost.t) (n : Z) (b : Script.Best) :
  exists e, Script.loop_body blank n b 1024 = inl e.
Proof.
  unfold Script.loop_body, Script.total_cost.
  destruct (Script.num_windows n 1024) as [e|nw]; cbn [Python.bind].
  - now exists e.
  - unfold Script.windowed_cost, Script.main_lookup_costs.
    rewrite Lookup_Cost_overflow by lia. cbn [Python.bind].
    now exists Python.OverflowError.
Qed.

(** From n = 2050 on the loop reaches window size 1024, so the call
    raises. *)
Lemma get_optimal_shor_overflow (addition_cost : Script.Cost.t) (n : Z) :
  (2050 <= n)%Z -> exists e, Script.get_optimal_shor addition_cost n = inl e.
Proof.
  intros Hn. unfold Script.get_optimal_shor.
  destruct (Script.blank_addition_cost addition_cost n) as [e|blank];
    cbn [Python.bind]; [now exists e|].
  destruct (Script.initial_best addition_cost n) as [e|best];
    cbn [Python.bind]; [now exists e|].
  destruct (Script.half n) as [e|k] eqn:Ek; cbn [Python.bind];
    [now exists e|].
  apply (for_each_raises _ _ 1024%Z).
  - apply in_range. pose proof (half_from_2050 n k Hn Ek). lia.
  - intros s. apply loop_body_overflow.
Qed.



(** *** The operations that return *)

Lemma float_of_int_returns (z : Z) :
  (Z.abs z < Python.float_limit)%Z -> exists f, Python.float_of_int z = inr f.
Proof.
  intros H. unfold Python.float_of_int.
  destruct (Z.ltb_spec (Z.abs z) Python.float_limit); [|lia].
  eexists. reflexivity.
Qed.
















Lemma float_limit_1024 : (1024 < Python.float_limit)%Z.
Proof. reflexivity. Qed.

(** Below window size 1024 every formula of [Lookup_Cost] is evaluated,
    and every attribute is a double. *)
Lemma Lookup_Cost_floats (n w : Z) :
  (0 <= w < 1024)%Z -> (Z.abs n < Python.float_limit)%Z ->
  exists c, Script.Lookup_Cost n w = inr c /\ vectors is_float c.
Proof.
  intros Hw Hn. unfold Script.Lookup_Cost, Python.pow2.
  destruct (Z.leb_spec 0 w) as [_|]; [|lia]. cbn [Python.to_float].
  assert (H2 : (Z.abs (2 ^ w) < Python.float_limit)%Z).
  { pose proof float_limit_above.
    assert (2 ^ w <= 2 ^ 1023)%Z by (apply Z.pow_le_mono_r; lia).
    assert (0 < 2 ^ w)%Z by (apply Z.pow_pos_nonneg; lia).
    lia. }
  destruct (float_of_int_returns _ H2) as (e & ->).
  destruct (float_of_int_returns w) as (fw & ->);
    [pose proof float_limit_1024; lia|].
  destruct (float_of_int_returns n Hn) as (fn & ->).
  cbn [Python.bind]. eexists. split; [reflexivity|].
  unfold vectors, attributes; cbn. tauto.
Qed.


(** Below 2^53 the number of windows is the integer quotient. *)
Lemma num_windows_below_2_53 (n i : Z) :
  (0 <= n < 2 ^ 53)%Z -> (0 <= i < 2 ^ 53 - 1)%Z ->
  Script.num_windows n i = inr (n / (i + 1))%Z.
Proof.
  intros Hn Hi. unfold Script.num_windows.
  destruct (Z.eq_dec n 0) as [->|N].
  - unfold Python.truediv.
    destruct (Z.eqb_spec (i + 1) 0) as [|_]; [lia|]. reflexivity.
  - destruct (truediv_floor n (i + 1) ltac:(lia) ltac:(lia))
      as (q & -> & Hq & _).
    exact Hq.
Qed.

Lemma remainder_is_mod (n i : Z) :
  (0 <= i)%Z ->
  Script.remainder_window n i (n / (i + 1)) = (n mod (i + 1))%Z.
Proof.
  intros Hi. unfold Script.remainder_window. pose proof (Z.mod_pos_bound n (i + 1) ltac:(lia)).
  rewrite (Z.mod_eq n (i + 1)) in * by lia.
  rewrite (Z.mul_comm (n / (i + 1)) (i + 1)). lia.
Qed.





End ScriptLemmas.

(** The rounding of [Python.truediv] is that of the division of
    primitive floats: on the numerators and denominators from -40 to 40,
    and on numerators next to 2^53 with denominators up to 4 * 10^6. *)
Lemma truediv_is_float_division :
  forallb (fun n => forallb (fun d => same_quotient (n - 40) (d - 40))
                            (range 81))
          (range 81) = true /\
  forallb (fun n =>
             forallb (fun d => same_quotient (2 ^ 53 - 1 - 7919 * n)
                                             (104729 * d + 1))
                     (range 40))
          (range 40) = true.
Proof. split; vm_compute; reflexivity. Qed.

(** *** The round trip, the remainder window and the window sizes *)

(** C7 as stated fails on doubles: for the low_depth vectors of
    [Lookup_Cost(10, 0)] and [Lookup_Cost(10, 8)], adding the second and
    subtracting it again changes the T-depth 23.50733 into
    23.507329999999996. *)
Lemma round_trip_changes_T_depth :
  exists (la lb : Script.Cost.t) (S R : Script.SingleCost.t),
    Script.Lookup_Cost 10 0 = inr la /\
    Script.Lookup_Cost 10 8 = inr lb /\
    Script.SingleCost.add (Script.Cost.low_depth la) (Script.Cost.low_depth lb)
      = inr S /\
    Script.SingleCost.subtract S (Script.Cost.low_depth lb) = inr R /\
    Script.SingleCost.T_depth (Script.Cost.low_depth la)
      = Python.Float 23.50733 /\
    Script.SingleCost.T_depth R = Python.Float 23.507329999999996 /\
    Python.eqb (Script.SingleCost.T_depth R)
               (Script.SingleCost.T_depth (Script.Cost.low_depth la)) = false.
Proof.
  do 4 eexists.
  split; [vm_compute; reflexivity|].
  split; [vm_compute; reflexivity|].
  split; [vm_compute; reflexivity|].
  split; [vm_compute; reflexivity|].
  split; [vm_compute; reflexivity|].
  split; vm_compute; reflexivity.
Qed.

(** The amended C7. When the attributes of A and B are integers,
    [subtract (add A B) B] returns, gives back T_depth, T_count,
    full_depth, measure, single_qubit and CNOT of A, and its width is
    [max(A.width, B.width)]. *)
Theorem subtract_add_round_trip_integers (A B : Script.SingleCost.t) :
  attributes is_int A -> attributes is_int B ->
  exists S R : Script.SingleCost.t,
    Script.SingleCost.add A B = inr S /\
    Script.SingleCost.subtract S B = inr R /\
    Script.SingleCost.T_depth R = Script.SingleCost.T_depth A /\
    Script.SingleCost.T_count R = Script.SingleCost.T_count A /\
    Script.SingleCost.full_depth R = Script.SingleCost.full_depth A /\
    Script.SingleCost.measure R = Script.SingleCost.measure A /\
    Script.SingleCost.single_qubit R = Script.SingleCost.single_qubit A /\
    Script.SingleCost.CNOT R = Script.SingleCost.CNOT A /\
    Script.SingleCost.width R
      = Python.max (Script.SingleCost.width A) (Script.SingleCost.width B).
Proof.
  destruct A as [aw a1 a2 a3 a4 a5 a6], B as [bw b1 b2 b3 b4 b5 b6].
  unfold attributes; cbn.
  intros (_ & A1 & A2 & A3 & A4 & A5 & A6) (_ & B1 & B2 & B3 & B4 & B5 & B6).
  destruct a1, a2, a3, a4, a5, a6; try contradiction.
  destruct b1, b2, b3, b4, b5, b6; try contradiction.
  do 2 eexists. split; [reflexivity|]. split; [reflexivity|]. cbn.
  repeat (split; [f_equal; lia|]). reflexivity.
Qed.

Lemma subtract_add_round_trip_integers_witness :
  let A :=
    Script.SingleCost.mk (Python.Int 1) (Python.Int 5) (Python.Int 6)
      (Python.Int 7) (Python.Int 8) (Python.Int 9) (Python.Int 10) in
  let B :=
    Script.SingleCost.mk (Python.Int 2) (Python.Int 3) (Python.Int 4)
      (Python.Int 5) (Python.Int 6) (Python.Int 7) (Python.Int 8) in
  exists S R : Script.SingleCost.t,
    Script.SingleCost.add A B = inr S /\
    Script.SingleCost.subtract S B = inr R /\
    Script.SingleCost.T_depth R = Script.SingleCost.T_depth A /\
    Script.SingleCost.T_count R = Script.SingleCost.T_count A /\
    Script.SingleCost.full_depth R = Script.SingleCost.full_depth A /\
    Script.SingleCost.measure R = Script.SingleCost.measure A /\
    Script.SingleCost.single_qubit R = Script.SingleCost.single_qubit A /\
    Script.SingleCost.CNOT R = Script.SingleCost.CNOT A /\
    Script.SingleCost.width R
      = Python.max (Script.SingleCost.width A) (Script.SingleCost.width B).
Proof.
  intros A B.
  apply (subtract_add_round_trip_integers A B);
    unfold attributes, is_int; cbn; tauto.
Defined.

(** C10 as stated fails from n = 2^53 + 1: the double nearest
    to (2^53 + 1)/1 is 2^53, so for the candidate 0 the number of windows
    is 2^53 and the remainder window is 1, which is neither
    (2^53 + 1) mod 1 = 0 nor smaller than the main window width 0 + 1. *)
Lemma remainder_window_not_mod :
  let n := (2 ^ 53 + 1)%Z in
  (1 <= n)%Z /\ (0 <= 0 < n / 2)%Z /\
  Script.num_windows n 0 = inr (2 ^ 53)%Z /\
  Script.remainder_window n 0 (2 ^ 53) = 1%Z /\
  (n mod (0 + 1) = 0)%Z /\
  ~ (Script.remainder_window n 0 (2 ^ 53) <= 0)%Z /\
  ~ (Script.remainder_window n 0 (2 ^ 53) < 0 + 1)%Z.
Proof.
  cbv zeta. vm_compute.
  repeat (split; try reflexivity; try discriminate); intros H; apply H;
    reflexivity.
Qed.

(** The amended C10. For a bit-width n with 1 <= n < 2^53 and a
    candidate i of the loop, that is 0 <= i < floor(n/2), the number of
    windows is the integer quotient of n by i+1 and the remainder window
    is [n mod (i+1)], hence at most i; the rest of the iteration runs with
    these two values, so when the branch of the remainder is taken the
    lookup of the remainder is made at a window size that is positive and
    smaller than i+1. *)
Theorem remainder_window_mod_below_2_53 (blank : Script.Cost.t) (n i : Z) :
  (1 <= n < 2 ^ 53)%Z -> (0 <= i < n / 2)%Z ->
  Script.num_windows n i = inr (n / (i + 1))%Z /\
  Script.remainder_window n i (n / (i + 1)) = (n mod (i + 1))%Z /\
  (n mod (i + 1) <= i)%Z /\
  Script.total_cost blank n i
    = Script.windowed_cost blank n i (n / (i + 1)) (n mod (i + 1)) /\
  ((0 <? n mod (i + 1))%Z = true -> (0 < n mod (i + 1) < i + 1)%Z).
Proof.
  intros Hn Hi.
  assert (Hi' : (i < 2 ^ 53 - 1)%Z).
  { assert (n / 2 <= n)%Z by (apply Z.div_le_upper_bound; lia). lia. }
  pose proof (Z.mod_pos_bound n (i + 1) ltac:(lia)) as Hm.
  pose proof (num_windows_below_2_53 n i ltac:(lia) ltac:(lia)) as Hw.
  pose proof (remainder_is_mod n i ltac:(lia)) as Hr.
  split; [exact Hw|]. split; [exact Hr|]. split; [lia|]. split.
  - unfold Script.total_cost. rewrite Hw. cbn [Python.bind].
    rewrite Hr. reflexivity.
  - intros Hpos. apply Z.ltb_lt in Hpos. lia.
Qed.

Lemma remainder_window_mod_below_2_53_witness :
  Script.num_windows 10 2 = inr (10 / (2 + 1))%Z /\
  Script.remainder_window 10 2 (10 / (2 + 1)) = (10 mod (2 + 1))%Z /\
  (10 mod (2 + 1) <= 2)%Z /\
  Script.total_cost all_1e20 10 2
    = Script.windowed_cost all_1e20 10 2 (10 / (2 + 1)) (10 mod (2 + 1)) /\
  ((0 <? 10 mod (2 + 1))%Z = true -> (0 < 10 mod (2 + 1) < 2 + 1)%Z).
Proof.
  apply (remainder_window_mod_below_2_53 all_1e20 10 2);
    vm_compute; split; first [discriminate | reflexivity].
Defined.




(** * Further properties *)

(** ** Laws of the cost algebra *)

Lemma pymax_ge_l (a b : Q) : a <= pymax a b.
Proof. rewrite pymax_Qmax. apply Q.le_max_l. Qed.

Lemma pymax_ge_r (a b : Q) : b <= pymax a b.
Proof. rewrite pymax_Qmax. apply Q.le_max_r. Qed.



(** ** More on the lookup and addition formulas *)

(** With the bit-width fixed (and non-negative), a larger window lowers
    no attribute of any of the three vectors of [Lookup_Cost]. *)
Theorem Lookup_Cost_monotone_window (n w1 w2 : Z) :
  (0 <= n)%Z -> (w1 <= w2)%Z ->
  at_most (Cost.low_T (Lookup_Cost n w1)) (Cost.low_T (Lookup_Cost n w2)) /\
  at_most (Cost.low_width (Lookup_Cost n w1))
          (Cost.low_width (Lookup_Cost n w2)) /\
  at_most (Cost.low_depth (Lookup_Cost n w1))
          (Cost.low_depth (Lookup_Cost n w2)).
Proof.
  intros Hn Hw. unfold at_most, Lookup_Cost. cbn -[Qpower].
  assert (He : Qpower 2 w1 <= Qpower 2 w2)
    by (apply Qpower_le_compat_l; [exact Hw | discriminate]).
  apply inject_Z_mono in Hn, Hw. change (inject_Z 0) with 0 in Hn.
  pose proof (two_pow_pos w1) as Hp.
  set (e1 := Qpower 2 w1) in *. set (e2 := Qpower 2 w2) in *.
  set (x := inject_Z n) in *.
  set (a := inject_Z w1) in *. set (b := inject_Z w2) in *.
  repeat split; try lra; nra.
Qed.

Lemma Lookup_Cost_monotone_window_witness :
  at_most (Cost.low_T (Lookup_Cost 10 3)) (Cost.low_T (Lookup_Cost 10 8)) /\
  at_most (Cost.low_width (Lookup_Cost 10 3))
          (Cost.low_width (Lookup_Cost 10 8)) /\
  at_most (Cost.low_depth (Lookup_Cost 10 3))
          (Cost.low_depth (Lookup_Cost 10 8)).
Proof.
  apply (Lookup_Cost_monotone_window 10 3 8); lia.
Defined.

Lemma Lookup_Cost_positive_cost (n w : Z) :
  (0 <= n)%Z -> (0 <= w)%Z -> positive_cost (Lookup_Cost n w).
Proof.
  intros Hn Hw. unfold positive_cost, positive, Lookup_Cost. cbn -[Qpower].
  apply inject_Z_mono in Hn, Hw. change (inject_Z 0) with 0 in Hn, Hw.
  pose proof (two_pow_pos w) as Hp.
  set (e := Qpower 2 w) in *. set (x := inject_Z n) in *.
  set (a := inject_Z w) in *.
  repeat split; try lra; nra.
Qed.

(** For a non-negative bit-width and a non-negative window size every
    attribute of every vector of [Lookup_Cost] is positive. *)
Theorem Lookup_Cost_positive (n w : Z) :
  (0 <= n)%Z -> (0 <= w)%Z ->
  positive (Cost.low_T (Lookup_Cost n w)) /\
  positive (Cost.low_width (Lookup_Cost n w)) /\
  positive (Cost.low_depth (Lookup_Cost n w)).
Proof.
  intros Hn Hw.
  destruct (Lookup_Cost_positive_cost n w Hn Hw) as (HD & HT & HW).
  split; [exact HT|]. split; [exact HW | exact HD].
Qed.

Lemma Lookup_Cost_positive_witness :
  positive (Cost.low_T (Lookup_Cost 10 3)) /\
  positive (Cost.low_width (Lookup_Cost 10 3)) /\
  positive (Cost.low_depth (Lookup_Cost 10 3)).
Proof.
  apply (Lookup_Cost_positive 10 3); lia.
Defined.

Lemma lg_floor_ge_3 (n : Z) : (8 <= n)%Z -> 3 <= lg_floor n.
Proof.
  intros Hn. unfold lg_floor. change 3 with (inject_Z 3).
  apply inject_Z_mono. change 3%Z with (Z.log2 8).
  now apply Z.log2_le_mono.
Qed.

Lemma Qfloor_ge_3 (x : Q) : 3 <= x -> 3 <= inject_Z (Qfloor x).
Proof.
  intros H. change 3 with (inject_Z 3) at 1. apply inject_Z_mono.
  change 3%Z with (Qfloor 3). now apply Qfloor_resp_le.
Qed.

(** The facts about n, n^2 and their products with the logarithm that
    the sign arguments below need. *)
Lemma generic_cost_facts (lg : Z -> Q) (n k : Z) :
  (8 <= k <= n)%Z -> lg_floor n <= lg n ->
  let x := inject_Z n in
  let xx := inject_Z (n * n) in
  let y := lg n in
  inject_Z k <= x /\ inject_Z (k * k) <= xx /\ 3 <= y /\
  3 <= inject_Z (Qfloor y) /\
  inject_Z k * 3 <= x * y /\ inject_Z (k * k) * 3 <= xx * y.
Proof.
  intros [Hk Hn] Hlg x xx y.
  assert (Hx : inject_Z k <= x) by now apply inject_Z_mono.
  assert (Hxx : inject_Z (k * k) <= xx) by (apply inject_Z_mono; nia).
  assert (Hy : 3 <= y).
  { apply Qle_trans with (lg_floor n); [apply lg_floor_ge_3; lia | exact Hlg]. }
  assert (H8 : 8 <= inject_Z k)
    by (change 8 with (inject_Z 8); now apply inject_Z_mono).
  assert (H64 : 64 <= inject_Z (k * k))
    by (change 64 with (inject_Z 64); apply inject_Z_mono; nia).
  repeat split; try assumption.
  - now apply Qfloor_ge_3.
  - nra.
  - nra.
Qed.

Lemma point_addition_positive_cost (lg : Z -> Q) (n : Z) :
  (9 <= n)%Z -> lg_floor n <= lg n ->
  positive_cost (point_addition_cost lg n).
Proof.
  intros Hn Hlg.
  destruct (generic_cost_facts lg n 9 ltac:(lia) Hlg)
    as (Hx & Hxx & Hy & Hf & Hxy & Hxxy).
  change (inject_Z 9) with 9 in *. change (inject_Z (9 * 9)) with 81 in *.
  unfold positive_cost, positive, point_addition_cost.
  cbn -[inject_Z Qfloor].
  set (x := inject_Z n) in *. set (xx := inject_Z (n * n)) in *.
  set (y := lg n) in *. set (f := inject_Z (Qfloor y)) in *.
  set (xy := x * y) in *. set (xxy := xx * y) in *.
  repeat split; lra.
Qed.

(** From bit-width 9 on, every attribute of every vector of the generic
    addition cost is positive, for any value of the logarithm that is at
    least its integer part; at bit-width 8 the measurement count of the
    low_depth vector is negative. *)
Theorem point_addition_cost_positive :
  (forall (lg : Z -> Q) (n : Z),
     (9 <= n)%Z -> lg_floor n <= lg n ->
     positive (Cost.low_T (point_addition_cost lg n)) /\
     positive (Cost.low_width (point_addition_cost lg n)) /\
     positive (Cost.low_depth (point_addition_cost lg n))) /\
  (forall lg : Z -> Q,
     SingleCost.measure (Cost.low_depth (point_addition_cost lg 8)) < 0).
Proof.
  split; [|intros lg; reflexivity].
  intros lg n Hn Hlg.
  destruct (point_addition_positive_cost lg n Hn Hlg) as (HD & HT & HW).
  split; [exact HT|]. split; [exact HW | exact HD].
Qed.

Lemma blank_positive_cost (lg : Z -> Q) (n : Z) :
  (10 <= n)%Z -> lg_floor n <= lg n ->
  positive_cost (blank_addition_cost (point_addition_cost lg n) n).
Proof.
  intros Hn Hlg.
  destruct (generic_cost_facts lg n 10 ltac:(lia) Hlg)
    as (Hx & Hxx & Hy & Hf & Hxy & Hxxy).
  change (inject_Z 10) with 10 in *. change (inject_Z (10 * 10)) with 100 in *.
  assert (Hsq : inject_Z (n * n) == inject_Z n * inject_Z n)
    by (rewrite inject_Z_mult; reflexivity).
  assert (Hxx' : 10 * inject_Z n <= inject_Z (n * n)) by nra.
  assert (Hxxy' : 30 * inject_Z n <= inject_Z (n * n) * lg n) by nra.
  clear Hsq.
  assert (E8 : Qpower 2 8 == 256) by reflexivity.
  unfold positive_cost, positive, blank_addition_cost, eight_lookup_cost,
    point_addition_cost, Lookup_Cost.
  cbn -[inject_Z Qfloor Qpower]. rewrite !E8.
  change (inject_Z 8) with 8.
  set (x := inject_Z n) in *. set (xx := inject_Z (n * n)) in *.
  set (y := lg n) in *. set (f := inject_Z (Qfloor y)) in *.
  set (xy := x * y) in *. set (xxy := xx * y) in *.
  repeat split; lra.
Qed.

(** From bit-width 10 on, where the sweep of the script starts, the
    generic addition cost minus its six window-8 lookups, the blank
    addition, is positive in every attribute of every vector; at
    bit-width 9 the measurement count of its low_depth vector is
    negative. *)
Theorem blank_addition_cost_positive :
  (forall (lg : Z -> Q) (n : Z),
     (10 <= n)%Z -> lg_floor n <= lg n ->
     let blank := blank_addition_cost (point_addition_cost lg n) n in
     positive (Cost.low_T blank) /\ positive (Cost.low_width blank) /\
     positive (Cost.low_depth blank)) /\
  (forall lg : Z -> Q,
     SingleCost.measure
       (Cost.low_depth (blank_addition_cost (point_addition_cost lg 9) 9))
     < 0).
Proof.
  split; [|intros lg; reflexivity].
  intros lg n Hn Hlg blank. subst blank.
  destruct (blank_positive_cost lg n Hn Hlg) as (HD & HT & HW).
  split; [exact HT|]. split; [exact HW | exact HD].
Qed.

Lemma point_addition_cost_positive_witness :
  positive (Cost.low_T (point_addition_cost (fun _ => 4) 16)) /\
  positive (Cost.low_width (point_addition_cost (fun _ => 4) 16)) /\
  positive (Cost.low_depth (point_addition_cost (fun _ => 4) 16)).
Proof.
  apply (proj1 point_addition_cost_positive (fun _ => 4) 16%Z);
    [lia | vm_compute; discriminate].
Defined.

Lemma blank_addition_cost_positive_witness :
  let blank := blank_addition_cost (point_addition_cost (fun _ => 4) 16) 16 in
  positive (Cost.low_T blank) /\ positive (Cost.low_width blank) /\
  positive (Cost.low_depth blank).
Proof.
  apply (proj1 blank_addition_cost_positive (fun _ => 4) 16%Z);
    [lia | vm_compute; discriminate].
Defined.

(** ** More on the window search *)

(** Below bit-width 2 the loop has no candidate, and the search returns
    the seed [addition_cost * 2n] with the nominal window size 8 for the
    three objectives. *)
Theorem no_candidate_below_2 (addition_cost : Cost.t) (n : Z) :
  (n <= 1)%Z ->
  get_optimal_shor addition_cost n = initial_best addition_cost n.
Proof.
  intros Hn. unfold get_optimal_shor, range.
  assert (H : (Z.quot n 2 <= 0)%Z).
  { change 0%Z with (Z.quot 1 2). apply Z.quot_le_mono; lia. }
  replace (Z.to_nat (Z.quot n 2)) with 0%nat by lia. reflexivity.
Qed.

Lemma no_candidate_below_2_witness :
  get_optimal_shor (Lookup_Cost 1 8) 1 = initial_best (Lookup_Cost 1 8) 1.
Proof.
  apply (no_candidate_below_2 (Lookup_Cost 1 8) 1). lia.
Defined.

Lemma remainder_window_bounds (n i : Z) :
  (0 <= i)%Z ->
  remainder_window n i = (n mod (i + 1))%Z /\
  (0 <= remainder_window n i <= i)%Z.
Proof.
  intros Hi.
  pose proof (Z.mod_pos_bound n (i + 1) ltac:(lia)) as Hm.
  assert (E : remainder_window n i = (n mod (i + 1))%Z).
  { unfold remainder_window, num_windows.
    rewrite (Z.mod_eq n (i + 1)) in * by lia.
    rewrite (Z.mul_comm (n / (i + 1)) (i + 1)). lia. }
  split; [exact E | lia].
Qed.

(** *** The costs returned for the generic curves are positive *)

Lemma positive_add (a b : SingleCost.t) :
  positive a -> positive b -> positive (SingleCost.add a b).
Proof.
  unfold positive. cbn.
  intros (Aw & A1 & A2 & A3 & A4 & A5 & A6)
         (Bw & B1 & B2 & B3 & B4 & B5 & B6).
  pose proof (pymax_ge_l (SingleCost.width a) (SingleCost.width b)) as Hm.
  repeat split; lra.
Qed.

Lemma positive_multiply (a : SingleCost.t) (k : Q) :
  positive a -> 0 < k -> positive (SingleCost.multiply a k).
Proof.
  unfold positive. cbn.
  intros (Aw & A1 & A2 & A3 & A4 & A5 & A6) Hk.
  repeat split; try exact Aw; nra.
Qed.

Lemma positive_wider (a : SingleCost.t) (v : Q) :
  positive a -> 0 <= v ->
  positive (SingleCost.set_width a (SingleCost.width a + v)).
Proof.
  unfold positive. cbn.
  intros (Aw & A1 & A2 & A3 & A4 & A5 & A6) Hv.
  repeat split; try assumption; lra.
Qed.

Lemma positive_cost_add (A B : Cost.t) :
  positive_cost A -> positive_cost B -> positive_cost (Cost.add A B).
Proof.
  intros (A1 & A2 & A3) (B1 & B2 & B3).
  split; [|split]; now apply positive_add.
Qed.

Lemma positive_cost_multiply (A : Cost.t) (k : Q) :
  positive_cost A -> 0 < k -> positive_cost (Cost.multiply A k).
Proof.
  intros (A1 & A2 & A3) Hk. split; [|split]; now apply positive_multiply.
Qed.

Lemma positive_cost_wider (A : Cost.t) (d t w : Q) :
  positive_cost A -> 0 <= d -> 0 <= t -> 0 <= w ->
  positive_cost (Cost.add_widths A d t w).
Proof.
  intros (A1 & A2 & A3) Hd Ht Hw.
  split; [|split]; now apply positive_wider.
Qed.

Lemma positive_width (C : Cost.t) :
  positive_cost C ->
  0 <= SingleCost.width (Cost.low_depth C) /\
  0 <= SingleCost.width (Cost.low_T C) /\
  0 <= SingleCost.width (Cost.low_width C).
Proof.
  intros ((H1 & _) & (H2 & _) & (H3 & _)).
  repeat split; now apply Qlt_le_weak.
Qed.

(** A candidate total is positive when the blank addition is. *)
Lemma total_cost_positive (blank : Cost.t) (n i : Z) :
  positive_cost blank -> (0 <= i < n / 2)%Z ->
  positive_cost (total_cost blank n i).
Proof.
  intros Hb Hi.
  assert (Hn : (0 <= n)%Z).
  { destruct (Z.le_gt_cases 0 n) as [H|H]; [exact H|].
    assert (n / 2 < 0)%Z by (apply Z.div_lt_upper_bound; lia). lia. }
  assert (Hnw : (1 <= num_windows n i)%Z).
  { unfold num_windows. apply Z.div_le_lower_bound; [lia|].
    assert (2 * (n / 2) <= n)%Z by (apply Z.mul_div_le; lia). lia. }
  assert (Hk : 0 < inject_Z (2 * num_windows n i)).
  { change 0 with (inject_Z 0). rewrite <- Zlt_Qlt. lia. }
  destruct (remainder_window_bounds n i ltac:(lia)) as [_ [Hr0 _]].
  pose proof (Lookup_Cost_positive_cost n i Hn ltac:(lia)) as Hmain.
  pose proof (Lookup_Cost_positive_cost n (remainder_window n i) Hn Hr0)
    as Hsec.
  apply (fun H => positive_cost_multiply _ 6 H eq_refl) in Hmain, Hsec.
  fold (main_lookup_costs n i) in Hmain.
  fold (second_lookup_costs n i) in Hsec.
  destruct (positive_width _ Hmain) as (M1 & M2 & M3).
  unfold total_cost. destruct (0 <? remainder_window n i)%Z.
  - apply positive_cost_wider.
    + apply positive_cost_add.
      * apply positive_cost_multiply; [|exact Hk].
        now apply positive_cost_add.
      * apply positive_cost_multiply; [|reflexivity].
        now apply positive_cost_add.
    + eapply Qle_trans; [exact M1 | apply pymax_ge_r].
    + eapply Qle_trans; [exact M2 | apply pymax_ge_r].
    + eapply Qle_trans; [exact M3 | apply pymax_ge_r].
  - apply positive_cost_wider; try assumption.
    apply positive_cost_multiply; [|exact Hk]. now apply positive_cost_add.
Qed.

(** What holds of the seed and of every candidate holds of the three
    bundles returned. *)
Lemma bests_satisfy (P : Cost.t -> Prop) (blank : Cost.t) (n : Z)
    (l : list Z) :
  (forall i, In i l -> P (total_cost blank n i)) ->
  forall b : Best,
    P (best_T b) /\ P (best_depth b) /\ P (best_width b) ->
    let r := fold_left (loop_body blank n) l b in
    P (best_T r) /\ P (best_depth r) /\ P (best_width r).
Proof.
  induction l as [|i l IH]; intros Hl b Hb; [exact Hb|].
  cbn [fold_left]. apply IH; [intros j Hj; apply Hl; now right|].
  assert (Hi : P (total_cost blank n i)) by (apply Hl; now left).
  destruct Hb as (HT & HD & HW).
  change (loop_body blank n b i) with (compare (total_cost blank n i) i b).
  revert Hi. generalize (total_cost blank n i). intros t Ht.
  destruct (compare_spec t i b) as (ET & EW & ED).
  set (b' := compare t i b) in *. clearbody b'.
  destruct (Qltb _ _) in ET; destruct (Qltb _ _) in EW;
    destruct (Qltb _ _) in ED;
    injection ET as -> _; injection EW as -> _; injection ED as -> _;
    repeat split; assumption.
Qed.

(** For the generic curves from bit-width 10 on, every attribute of every
    vector of the three bundles returned is positive. *)
Theorem generic_results_positive (lg : Z -> Q) (n : Z) :
  (10 <= n)%Z -> lg_floor n <= lg n ->
  let r := get_optimal_shor (point_addition_cost lg n) n in
  positive_cost (best_T r) /\ positive_cost (best_depth r) /\
  positive_cost (best_width r).
Proof.
  intros Hn Hlg r. subst r. unfold get_optimal_shor.
  assert (Hq : Z.quot n 2 = (n / 2)%Z) by (apply Z.quot_div_nonneg; lia).
  rewrite Hq. apply bests_satisfy.
  - intros i Hi. apply in_range in Hi.
    apply total_cost_positive; [|exact Hi].
    now apply blank_positive_cost.
  - assert (Hs : positive_cost
                   (Cost.multiply (point_addition_cost lg n)
                                  (inject_Z (2 * n)))).
    { apply positive_cost_multiply.
      - apply point_addition_positive_cost; [lia | exact Hlg].
      - change 0 with (inject_Z 0). rewrite <- Zlt_Qlt. lia. }
    unfold initial_best. cbn [best_T best_depth best_width].
    split; [exact Hs|]. split; exact Hs.
Qed.

Lemma generic_results_positive_witness :
  let r := get_optimal_shor (point_addition_cost (fun _ => 4) 16) 16 in
  positive_cost (best_T r) /\ positive_cost (best_depth r) /\
  positive_cost (best_width r).
Proof.
  apply (generic_results_positive (fun _ => 4) 16);
    [lia | vm_compute; discriminate].
Defined.

(** ** More on the loader of fixed-modulus tables *)

Lemma load_rows_skip (pre rest : list csv_row) (n : Z)
    (existing_costs : option SingleCost.t) (costs : SingleCost.t) :
  Forall (other_size n) pre ->
  load_rows (pre ++ rest) n existing_costs costs
  = load_rows rest n existing_costs costs.
Proof.
  induction 1 as [|row pre (v & Hv & Hne) _ IH]; [reflexivity|].
  cbn. unfold getitem. rewrite Hv. cbn.
  destruct (decide (v = Some (str n))); [contradiction | exact IH].
Qed.

Lemma load_rows_hit (row : csv_row) (rest : list csv_row) (n : Z)
    (existing_costs : option SingleCost.t) (costs : SingleCost.t) :
  this_size n row ->
  load_rows (row :: rest) n existing_costs costs
  = match existing_costs with
    | None =>
        assign_counts row costs >>= fun costs' => load_rows rest n None costs'
    | Some e =>
        int_of row "Full depth" >>= fun fd =>
        load_rows rest n (Some (SingleCost.set_full_depth e fd))
                  (SingleCost.set_full_depth e fd)
    end.
Proof.
  intros H. cbn. unfold getitem. rewrite H. cbn.
  destruct (decide (Some (str n) = Some (str n))); [reflexivity | congruence].
Qed.

Lemma assign_counts_full_depth (row : csv_row) (c c' : SingleCost.t) :
  assign_counts row c = inr c' ->
  assign_counts row zero_cost = inr (SingleCost.set_full_depth c' 0) /\
  SingleCost.full_depth c' = SingleCost.full_depth c.
Proof.
  unfold assign_counts.
  destruct (int_of row "CNOT count") as [e|x1]; [discriminate|].
  destruct (int_of row "1-qubit Clifford count") as [e|x2]; [discriminate|].
  destruct (int_of row "T count") as [e|x3]; [discriminate|].
  destruct (int_of row "M count") as [e|x4]; [discriminate|].
  destruct (int_of row "T depth") as [e|x5]; [discriminate|].
  destruct (int_of row "extra width") as [e|x6]; [discriminate|].
  cbn. intros [= <-]. split; reflexivity.
Qed.

Lemma assign_counts_any (row : csv_row) (c0 c : SingleCost.t) :
  assign_counts row zero_cost = inr c ->
  assign_counts row c0
  = inr (SingleCost.set_full_depth c (SingleCost.full_depth c0)).
Proof.
  unfold assign_counts.
  destruct (int_of row "CNOT count") as [e|x1]; [discriminate|].
  destruct (int_of row "1-qubit Clifford count") as [e|x2]; [discriminate|].
  destruct (int_of row "T count") as [e|x3]; [discriminate|].
  destruct (int_of row "M count") as [e|x4]; [discriminate|].
  destruct (int_of row "T depth") as [e|x5]; [discriminate|].
  destruct (int_of row "extra width") as [e|x6]; [discriminate|].
  cbn. intros [= <-]. reflexivity.
Qed.

(** In the first pass the rows read so far never touch the full depth. *)
Lemma load_rows_None_full_depth (rows : list csv_row) (n : Z) :
  forall c c' : SingleCost.t,
    load_rows rows n None c = inr c' ->
    SingleCost.full_depth c' = SingleCost.full_depth c.
Proof.
  induction rows as [|row rows IH]; intros c c'; cbn.
  - now intros [= <-].
  - destruct (getitem row "size") as [e|v]; [discriminate|]. cbn.
    destruct (decide (v = Some (str n))) as [Hv|Hv]; [|apply IH].
    destruct (assign_counts row c) as [e|c1] eqn:E; [discriminate|]. cbn.
    intros H. apply IH in H. rewrite H.
    now destruct (assign_counts_full_depth row c c1 E).
Qed.

Lemma load_rows_None_app (l1 l2 : list csv_row) (n : Z) :
  forall c : SingleCost.t,
    load_rows (l1 ++ l2) n None c
    = load_rows l1 n None c >>= fun c' => load_rows l2 n None c'.
Proof.
  induction l1 as [|row l1 IH]; intros c; cbn; [reflexivity|].
  destruct (getitem row "size") as [e|v]; [reflexivity|]. cbn.
  destruct (decide (v = Some (str n))) as [Hv|Hv]; [|apply IH].
  destruct (assign_counts row c) as [e|c1]; [reflexivity|]. cbn. apply IH.
Qed.

(** First pass of the loader ([existing_costs] is None): when several
    rows have the requested size the last one decides.  If the rows before
    it are read without an exception and no row after it has the size, the
    result holds the six counts of that row and the full depth 0. *)
Theorem load_from_csv_last_row_wins (fs : file_system) (name : string)
    (pre post : list csv_row) (row : csv_row) (n : Z) (c0 c : SingleCost.t) :
  fs name = Some (pre ++ row :: post) ->
  load_rows pre n None zero_cost = inr c0 ->
  this_size n row -> Forall (other_size n) post ->
  assign_counts row zero_cost = inr c ->
  load_from_csv fs name n None = inr c /\ SingleCost.full_depth c = 0.
Proof.
  intros Hfs Hpre Hrow Hpost Hc. unfold load_from_csv. rewrite Hfs.
  rewrite load_rows_None_app, Hpre. cbn [bind].
  rewrite (load_rows_hit row post n None c0 Hrow).
  rewrite (assign_counts_any row c0 c Hc). cbn [bind].
  rewrite (load_rows_None_full_depth pre n zero_cost c0 Hpre).
  destruct (assign_counts_full_depth row zero_cost c Hc) as [_ Hfd].
  replace (SingleCost.set_full_depth c (SingleCost.full_depth zero_cost))
    with c by (destruct c; cbn in *; now rewrite Hfd).
  split; [|exact Hfd].
  rewrite <- (app_nil_r post). now rewrite load_rows_skip.
Qed.

Lemma load_from_csv_last_row_wins_witness :
  load_from_csv (fun _ => Some [row_256; row_256]) "any.csv" 256 None
    = inr (SingleCost.mk 2589 28341737 0 5656061 77857742
                         178374765 178374765) /\
  SingleCost.full_depth
    (SingleCost.mk 2589 28341737 0 5656061 77857742 178374765 178374765) = 0.
Proof.
  apply (load_from_csv_last_row_wins (fun _ => Some [row_256; row_256])
           "any.csv" [row_256] [] row_256 256
           (SingleCost.mk 2589 28341737 0 5656061 77857742
                          178374765 178374765)).
  - reflexivity.
  - reflexivity.
  - reflexivity.
  - constructor.
  - reflexivity.
Defined.

Lemma load_rows_Some_last (pre post : list csv_row) (row : csv_row) (n : Z)
    (fd : Q) :
  this_size n row -> Forall (other_size n) post ->
  int_of row "Full depth" = inr fd ->
  forall e c c1 : SingleCost.t,
    load_rows pre n (Some e) c = inr c1 ->
    load_rows (pre ++ row :: post) n (Some e) c
    = inr (SingleCost.set_full_depth e fd).
Proof.
  intros Hrow Hpost Hfd. induction pre as [|row0 pre IH]; intros e c c1.
  - intros _. cbn [app]. rewrite (load_rows_hit row post n (Some e) c Hrow).
    rewrite Hfd. cbn [bind].
    rewrite <- (app_nil_r post). now rewrite load_rows_skip.
  - cbn. destruct (getitem row0 "size") as [x|v]; [discriminate|]. cbn.
    destruct (decide (v = Some (str n))) as [Hv|Hv]; [|apply IH].
    destruct (int_of row0 "Full depth") as [x|fd0]; [discriminate|]. cbn.
    intros H. rewrite (IH _ _ _ H). reflexivity.
Qed.

(** Second pass of the loader ([existing_costs] is given): the result is
    the existing cost with only its full depth replaced, by that of the
    last row of the requested size, if the rows before it are read without
    an exception and no row after it has the size. *)
Theorem load_from_csv_sets_full_depth (fs : file_system) (name : string)
    (pre post : list csv_row) (row : csv_row) (n : Z)
    (e c1 : SingleCost.t) (fd : Q) :
  fs name = Some (pre ++ row :: post) ->
  load_rows pre n (Some e) zero_cost = inr c1 ->
  this_size n row -> Forall (other_size n) post ->
  int_of row "Full depth" = inr fd ->
  load_from_csv fs name n (Some e) = inr (SingleCost.set_full_depth e fd).
Proof.
  intros Hfs Hpre Hrow Hpost Hfd. unfold load_from_csv. rewrite Hfs.
  exact (load_rows_Some_last pre post row n fd Hrow Hpost Hfd e _ c1 Hpre).
Qed.

Lemma load_from_csv_sets_full_depth_witness :
  load_from_csv only_256 "any.csv" 256 (Some zero_cost)
  = inr (SingleCost.set_full_depth zero_cost 102860240).
Proof.
  apply (load_from_csv_sets_full_depth only_256 "any.csv" [] [] row_256 256
           zero_cost zero_cost 102860240).
  - reflexivity.
  - reflexivity.
  - reflexivity.
  - constructor.
  - reflexivity.
Defined.

Lemma only_row_first_pass (fs : file_system) (name : string)
    (rows : list csv_row) (row : csv_row) (n : Z) (c : SingleCost.t) :
  fs name = Some rows -> only_row rows n row ->
  assign_counts row zero_cost = inr c ->
  load_from_csv fs name n None = inr c.
Proof.
  intros Hfs (pre & post & -> & Hpre & Hpost & Hrow) Hc.
  unfold load_from_csv. rewrite Hfs, load_rows_skip by exact Hpre.
  rewrite (load_rows_hit row post n None zero_cost Hrow), Hc. cbn [bind].
  rewrite <- (app_nil_r post). now rewrite load_rows_skip.
Qed.

Lemma only_row_second_pass (fs : file_system) (name : string)
    (rows : list csv_row) (row : csv_row) (n : Z) (e : SingleCost.t) (fd : Q) :
  fs name = Some rows -> only_row rows n row ->
  int_of row "Full depth" = inr fd ->
  load_from_csv fs name n (Some e) = inr (SingleCost.set_full_depth e fd).
Proof.
  intros Hfs (pre & post & -> & Hpre & Hpost & Hrow) Hfd.
  unfold load_from_csv. rewrite Hfs, load_rows_skip by exact Hpre.
  rewrite (load_rows_hit row post n (Some e) zero_cost Hrow), Hfd. cbn [bind].
  rewrite <- (app_nil_r post). now rewrite load_rows_skip.
Qed.

(** When each of the six files holds exactly one row of the requested
    size and its cells are integers, the bundle returned holds, for each
    objective, the six counts of the first file of the objective and the
    full depth of its second file. *)
Theorem fixed_modulus_reads_tables (fs : file_system) (n : Z)
    (cT cW cD : SingleCost.t) (fT fW fD : Q) :
  objective_tables fs "EllipticCurveEstimates/LowT/Fixed-modulus-signed.csv"
    "EllipticCurveEstimates/LowT/Fixed-modulus-signed-all-gates.csv"
    n cT fT ->
  objective_tables fs
    "EllipticCurveEstimates/LowWidth/Fixed-modulus-signed.csv"
    "EllipticCurveEstimates/LowWidth/Fixed-modulus-signed-all-gates.csv"
    n cW fW ->
  objective_tables fs
    "EllipticCurveEstimates/LowDepth/Fixed-modulus-signed.csv"
    "EllipticCurveEstimates/LowDepth/Fixed-modulus-signed-all-gates.csv"
    n cD fD ->
  fixed_modulus_point_addition_cost fs n
  = inr {| Cost.low_depth := SingleCost.set_full_depth cD fD;
           Cost.low_T := SingleCost.set_full_depth cT fT;
           Cost.low_width := SingleCost.set_full_depth cW fW |}.
Proof.
  intros (r1 & w1 & r2 & w2 & H1 & O1 & C1 & H2 & O2 & F2)
         (r3 & w3 & r4 & w4 & H3 & O3 & C3 & H4 & O4 & F4)
         (r5 & w5 & r6 & w6 & H5 & O5 & C5 & H6 & O6 & F6).
  unfold fixed_modulus_point_addition_cost.
  rewrite (only_row_first_pass fs _ r1 w1 n cT H1 O1 C1). cbn [bind].
  rewrite (only_row_second_pass fs _ r2 w2 n cT fT H2 O2 F2). cbn [bind].
  rewrite (only_row_first_pass fs _ r3 w3 n cW H3 O3 C3). cbn [bind].
  rewrite (only_row_second_pass fs _ r4 w4 n cW fW H4 O4 F4). cbn [bind].
  rewrite (only_row_first_pass fs _ r5 w5 n cD H5 O5 C5). cbn [bind].
  rewrite (only_row_second_pass fs _ r6 w6 n cD fD H6 O6 F6). cbn [bind].
  reflexivity.
Qed.

Lemma only_256_tables (counts all_gates : string) :
  objective_tables only_256 counts all_gates 256
    (SingleCost.mk 2589 28341737 0 5656061 77857742 178374765 178374765)
    102860240.
Proof.
  exists [row_256], row_256, [row_256], row_256.
  assert (O : only_row [row_256] 256 row_256).
  { exists [], []. repeat split; try constructor. }
  repeat split; try exact O; reflexivity.
Qed.

Lemma fixed_modulus_reads_tables_witness :
  fixed_modulus_point_addition_cost only_256 256
  = inr (let c := SingleCost.mk 2589 28341737 102860240 5656061 77857742
                                178374765 178374765 in
         Cost.mk c c c).
Proof.
  exact (fixed_modulus_reads_tables only_256 256
           (SingleCost.mk 2589 28341737 0 5656061 77857742 178374765 178374765)
           (SingleCost.mk 2589 28341737 0 5656061 77857742 178374765 178374765)
           (SingleCost.mk 2589 28341737 0 5656061 77857742 178374765 178374765)
           102860240 102860240 102860240
           (only_256_tables _ _) (only_256_tables _ _) (only_256_tables _ _)).
Defined.

(** When the first file of an objective has a row of the requested size
    and its second file has none, the counts read from the first file are
    dropped: the vector of that objective is all zero, while the other two
    objectives are read as usual.  (Stated for the T objective.) *)
Theorem fixed_modulus_drops_counts (fs : file_system) (n : Z)
    (cT cW cD : SingleCost.t) (fW fD : Q) :
  objective_half_tables fs
    "EllipticCurveEstimates/LowT/Fixed-modulus-signed.csv"
    "EllipticCurveEstimates/LowT/Fixed-modulus-signed-all-gates.csv" n cT ->
  objective_tables fs
    "EllipticCurveEstimates/LowWidth/Fixed-modulus-signed.csv"
    "EllipticCurveEstimates/LowWidth/Fixed-modulus-signed-all-gates.csv"
    n cW fW ->
  objective_tables fs
    "EllipticCurveEstimates/LowDepth/Fixed-modulus-signed.csv"
    "EllipticCurveEstimates/LowDepth/Fixed-modulus-signed-all-gates.csv"
    n cD fD ->
  fixed_modulus_point_addition_cost fs n
  = inr {| Cost.low_depth := SingleCost.set_full_depth cD fD;
           Cost.low_T := zero_cost;
           Cost.low_width := SingleCost.set_full_depth cW fW |}.
Proof.
  intros (r1 & w1 & r2 & H1 & O1 & C1 & H2 & M2)
         (r3 & w3 & r4 & w4 & H3 & O3 & C3 & H4 & O4 & F4)
         (r5 & w5 & r6 & w6 & H5 & O5 & C5 & H6 & O6 & F6).
  unfold fixed_modulus_point_addition_cost.
  rewrite (only_row_first_pass fs _ r1 w1 n cT H1 O1 C1). cbn [bind].
  rewrite (load_from_csv_miss fs _ r2 n (Some cT) H2 M2). cbn [bind].
  rewrite (only_row_first_pass fs _ r3 w3 n cW H3 O3 C3). cbn [bind].
  rewrite (only_row_second_pass fs _ r4 w4 n cW fW H4 O4 F4). cbn [bind].
  rewrite (only_row_first_pass fs _ r5 w5 n cD H5 O5 C5). cbn [bind].
  rewrite (only_row_second_pass fs _ r6 w6 n cD fD H6 O6 F6). cbn [bind].
  reflexivity.
Qed.

Lemma fixed_modulus_drops_counts_witness :
  fixed_modulus_point_addition_cost tables_without_T_depth 256
  = inr (let c := SingleCost.mk 2589 28341737 102860240 5656061 77857742
                                178374765 178374765 in
         Cost.mk c zero_cost c).
Proof.
  assert (O : only_row [row_256] 256 row_256).
  { exists [], []. repeat split; try constructor. }
  assert (T : forall counts all_gates,
             tables_without_T_depth counts = Some [row_256] ->
             tables_without_T_depth all_gates = Some [row_256] ->
             objective_tables tables_without_T_depth counts all_gates 256
               (SingleCost.mk 2589 28341737 0 5656061 77857742
                              178374765 178374765) 102860240).
  { intros counts all_gates H1 H2.
    exists [row_256], row_256, [row_256], row_256.
    repeat split; try exact O; try assumption; reflexivity. }
  assert (Hhalf : objective_half_tables tables_without_T_depth
            "EllipticCurveEstimates/LowT/Fixed-modulus-signed.csv"
            "EllipticCurveEstimates/LowT/Fixed-modulus-signed-all-gates.csv"
            256
            (SingleCost.mk 2589 28341737 0 5656061 77857742
                           178374765 178374765)).
  { exists [row_256], row_256, [].
    repeat split; try exact O; try constructor. }
  exact (fixed_modulus_drops_counts tables_without_T_depth 256
           (SingleCost.mk 2589 28341737 0 5656061 77857742 178374765 178374765)
           (SingleCost.mk 2589 28341737 0 5656061 77857742 178374765 178374765)
           (SingleCost.mk 2589 28341737 0 5656061 77857742 178374765 178374765)
           102860240 102860240
           Hhalf
           (T "EllipticCurveEstimates/LowWidth/Fixed-modulus-signed.csv"
              "EllipticCurveEstimates/LowWidth/Fixed-modulus-signed-all-gates.csv"
              eq_refl eq_refl)
           (T "EllipticCurveEstimates/LowDepth/Fixed-modulus-signed.csv"
              "EllipticCurveEstimates/LowDepth/Fixed-modulus-signed-all-gates.csv"
              eq_refl eq_refl)).
Defined.

(** An exception raised while the counts of a row of the requested size
    are read (a missing column, a cell that is empty or is not an integer)
    ends the load with that exception; the rows after it are not
    consulted. *)
Theorem load_from_csv_raises (fs : file_system) (name : string)
    (pre post : list csv_row) (row : csv_row) (n : Z) (e : exn) :
  fs name = Some (pre ++ row :: post) ->
  Forall (other_size n) pre -> this_size n row ->
  assign_counts row zero_cost = inl e ->
  load_from_csv fs name n None = inl e.
Proof.
  intros Hfs Hpre Hrow He. unfold load_from_csv.
  rewrite Hfs, load_rows_skip by exact Hpre.
  rewrite (load_rows_hit row post n None zero_cost Hrow), He. reflexivity.
Qed.

Lemma load_from_csv_raises_witness :
  load_from_csv (fun _ => Some [row_bad_cell; row_256]) "any.csv" 256 None
  = inl (ValueError "12a").
Proof.
  apply (load_from_csv_raises (fun _ => Some [row_bad_cell; row_256])
           "any.csv" [] [row_256] row_bad_cell 256 (ValueError "12a")).
  - reflexivity.
  - constructor.
  - reflexivity.
  - reflexivity.
Defined.

(** A row without the column of sizes raises KeyError('size') as soon as
    it is reached, in either pass and whatever size is requested. *)
Theorem load_from_csv_needs_size_column (fs : file_system) (name : string)
    (pre post : list csv_row) (row : csv_row) (n : Z)
    (existing_costs : option SingleCost.t) :
  fs name = Some (pre ++ row :: post) ->
  Forall (other_size n) pre -> row !! "size"%string = None ->
  load_from_csv fs name n existing_costs = inl (KeyError "size").
Proof.
  intros Hfs Hpre Hrow. unfold load_from_csv.
  rewrite Hfs, load_rows_skip by exact Hpre.
  cbn. unfold getitem. rewrite Hrow. reflexivity.
Qed.

Lemma load_from_csv_needs_size_column_witness :
  load_from_csv (fun _ => Some [row_no_size; row_256]) "any.csv" 256 None
  = inl (KeyError "size").
Proof.
  apply (load_from_csv_needs_size_column
           (fun _ => Some [row_no_size; row_256])
           "any.csv" [] [row_256] row_no_size 256 None).
  - reflexivity.
  - constructor.
  - reflexivity.
Defined.

(** ** More on the search on the store *)

Lemma ok_eq {A : Type} (m : Heap.M A) (h h1 : Heap.heap) (a : A) :
  ok m h (fun r h' => r = a /\ h' = h1) -> m h = Some (a, h1).
Proof.
  unfold ok. destruct (m h) as [[r h']|]; [|contradiction].
  now intros [-> ->].
Qed.

Lemma cost_block_app (h : Heap.heap) (a b c : SingleCost.t) (d t w : Heap.loc) :
  (((h ++ [Heap.OSingle a]) ++ [Heap.OSingle b]) ++ [Heap.OSingle c])
    ++ [Heap.OCost d t w]
  = h ++ [Heap.OSingle a; Heap.OSingle b; Heap.OSingle c; Heap.OCost d t w].
Proof. now rewrite <- !app_assoc. Qed.

Ltac block_result :=
  split;
  [ rewrite !length_app; cbn [length]; lia
  | rewrite cost_block_app; unfold cost_block;
    rewrite ?length_app; cbn [length];
    match goal with
    | |- context [(?k + 1 + 1)%nat] =>
        replace (k + 1 + 1)%nat with (k + 2)%nat by lia
    end;
    reflexivity ].

Lemma read_cost_block (h : Heap.heap) (C : Cost.t) :
  Heap.read_cost (h ++ cost_block (length h) C) (length h + 3)%nat = Some C.
Proof.
  apply live_read_cost. exists (length h), (length h + 1)%nat, (length h + 2)%nat.
  unfold cost_at, cost_block.
  repeat split; rewrite lookup_app_r by lia.
  - now replace (length h + 3 - length h)%nat with 3%nat by lia.
  - now replace (length h - length h)%nat with 0%nat by lia.
  - now replace (length h + 1 - length h)%nat with 1%nat by lia.
  - now replace (length h + 2 - length h)%nat with 2%nat by lia.
Qed.

Lemma Cost_add_exact (h : Heap.heap) (c1 c2 : Heap.loc) (C1 C2 : Cost.t) :
  live h c1 C1 -> live h c2 C2 ->
  ok (Heap.Cost_add c1 c2) h
     (fun r h' => r = (length h + 3)%nat /\
                  h' = h ++ cost_block (length h) (Cost.add C1 C2)).
Proof.
  intros (d1 & t1 & w1 & Hc1 & Hd1 & Ht1 & Hw1)
         (d2 & t2 & w2 & Hc2 & Hd2 & Ht2 & Hw2).
  unfold Heap.Cost_add. repeat heap_step. block_result.
Qed.

Lemma Cost_subtract_exact (h : Heap.heap) (c1 c2 : Heap.loc) (C1 C2 : Cost.t) :
  live h c1 C1 -> live h c2 C2 ->
  ok (Heap.Cost_subtract c1 c2) h
     (fun r h' => r = (length h + 3)%nat /\
                  h' = h ++ cost_block (length h) (Cost.subtract C1 C2)).
Proof.
  intros (d1 & t1 & w1 & Hc1 & Hd1 & Ht1 & Hw1)
         (d2 & t2 & w2 & Hc2 & Hd2 & Ht2 & Hw2).
  unfold Heap.Cost_subtract. repeat heap_step. block_result.
Qed.

Lemma Cost_multiply_exact (h : Heap.heap) (c : Heap.loc) (C : Cost.t) (k : Q) :
  live h c C ->
  ok (Heap.Cost_multiply c k) h
     (fun r h' => r = (length h + 3)%nat /\
                  h' = h ++ cost_block (length h) (Cost.multiply C k)).
Proof.
  intros (d1 & t1 & w1 & Hc1 & Hd1 & Ht1 & Hw1).
  unfold Heap.Cost_multiply. repeat heap_step. block_result.
Qed.

Lemma deepcopy_exact (base h : Heap.heap) (c : Heap.loc) (C : Cost.t) :
  owned base h c C ->
  ok (Heap.deepcopy c) h
     (fun r h' => r = (length h + 3)%nat /\
                  h' = h ++ cost_block (length h) C).
Proof.
  intros (d & t & w & (Hc & Hd & Ht & Hw) & _ & _ & _ & Hdt & Hdw & Htw).
  unfold Heap.deepcopy, Heap.get_cost.
  apply ok_bind. unfold ok at 1. rewrite Hc.
  destruct (decide (t = d)) as [E|_]; [congruence|].
  destruct (decide (w = d)) as [E|_]; [congruence|].
  destruct (decide (w = t)) as [E|_]; [congruence|].
  repeat heap_step. block_result.
Qed.

(** The methods [add], [subtract] and [multiply] of [Cost] assign to
    nothing: they leave every object of the store as it is and construct
    four objects after it, three single costs and the bundle of them,
    which denotes the sum, the difference or the product of the values of
    the operands. *)
Theorem Cost_methods_construct (h : Heap.heap) (c1 c2 : Heap.loc)
    (C1 C2 : Cost.t) (k : Q) :
  Heap.read_cost h c1 = Some C1 -> Heap.read_cost h c2 = Some C2 ->
  Heap.Cost_add c1 c2 h
    = Some ((length h + 3)%nat, h ++ cost_block (length h) (Cost.add C1 C2)) /\
  Heap.Cost_subtract c1 c2 h
    = Some ((length h + 3)%nat,
            h ++ cost_block (length h) (Cost.subtract C1 C2)) /\
  Heap.Cost_multiply c1 k h
    = Some ((length h + 3)%nat,
            h ++ cost_block (length h) (Cost.multiply C1 k)) /\
  forall C : Cost.t,
    Heap.read_cost (h ++ cost_block (length h) C) (length h + 3)%nat = Some C.
Proof.
  intros H1 H2. apply live_read_cost in H1, H2.
  split; [|split; [|split]].
  - apply ok_eq. now apply Cost_add_exact.
  - apply ok_eq. now apply Cost_subtract_exact.
  - apply ok_eq. now apply Cost_multiply_exact.
  - intros C. apply read_cost_block.
Qed.

Lemma Cost_methods_construct_witness :
  Heap.Cost_add 3%nat 3%nat sample_store
    = Some ((length sample_store + 3)%nat,
            sample_store
            ++ cost_block (length sample_store)
                 (Cost.add (Lookup_Cost 10 8) (Lookup_Cost 10 8))) /\
  Heap.Cost_subtract 3%nat 3%nat sample_store
    = Some ((length sample_store + 3)%nat,
            sample_store
            ++ cost_block (length sample_store)
                 (Cost.subtract (Lookup_Cost 10 8) (Lookup_Cost 10 8))) /\
  Heap.Cost_multiply 3%nat 2 sample_store
    = Some ((length sample_store + 3)%nat,
            sample_store
            ++ cost_block (length sample_store)
                 (Cost.multiply (Lookup_Cost 10 8) 2)) /\
  forall C : Cost.t,
    Heap.read_cost (sample_store ++ cost_block (length sample_store) C)
                   (length sample_store + 3)%nat = Some C.
Proof.
  apply (Cost_methods_construct sample_store 3%nat 3%nat
           (Lookup_Cost 10 8) (Lookup_Cost 10 8) 2); reflexivity.
Defined.

Lemma block_owned (h : Heap.heap) (C : Cost.t) :
  owned h (h ++ cost_block (length h) C) (length h + 3)%nat C.
Proof.
  exists (length h), (length h + 1)%nat, (length h + 2)%nat.
  split; [|lia]. unfold cost_at, cost_block.
  repeat split; rewrite lookup_app_r by lia.
  - now replace (length h + 3 - length h)%nat with 3%nat by lia.
  - now replace (length h - length h)%nat with 0%nat by lia.
  - now replace (length h + 1 - length h)%nat with 1%nat by lia.
  - now replace (length h + 2 - length h)%nat with 2%nat by lia.
Qed.

Lemma block_placed (h : Heap.heap) (C : Cost.t) :
  placed (h ++ cost_block (length h) C) (length h + 3)%nat (length h).
Proof.
  split; [|reflexivity]. rewrite lookup_app_r by lia.
  now replace (length h + 3 - length h)%nat with 3%nat by lia.
Qed.

Lemma block_length (h : Heap.heap) (k : Heap.loc) (C : Cost.t) :
  length (h ++ cost_block k C) = (length h + 4)%nat.
Proof. now rewrite length_app. Qed.

Lemma placed_prefix (h h' : Heap.heap) (c k : Heap.loc) :
  h `prefix_of` h' -> placed h c k -> placed h' c k.
Proof.
  intros Hp [Hc Hk]. split; [|exact Hk].
  exact (prefix_lookup_Some _ _ _ _ Hc Hp).
Qed.

Lemma separate_prefix (base h h' : Heap.heap) (b : Heap.Best) :
  h `prefix_of` h' -> separate base h b -> separate base h' b.
Proof.
  intros Hp (kT & kD & kW & PT & PD & PW & BT & BD & BW & Hd).
  pose proof (prefix_length _ _ Hp) as Hl.
  exists kT, kD, kW.
  repeat split; try (eapply placed_prefix; eassumption); try lia; apply Hd.
Qed.

(** The three comparisons keep the bests in separate blocks: a best that
    is replaced receives a deep copy, constructed at the end of the
    store. *)
Lemma update_T_separate (base0 base h : Heap.heap) (total : Heap.loc)
    (Tot : Cost.t) (i : Z) (b : Heap.Best) (B : Best) :
  owned base h total Tot -> best_live h b B -> separate base0 h b ->
  ok (Heap.update_T total i b) h
     (fun b' h' => h `prefix_of` h' /\ best_live h' b' (update_T Tot i B) /\
                   separate base0 h' b').
Proof.
  intros Ho HB HS. pose proof Ho as (d & t & w & (Hc & Hd & Ht & Hw) & _).
  pose proof HB as ((d' & t' & w' & Hc' & Hd' & Ht' & Hw') & HD & HW & Hs).
  unfold Heap.update_T, update_T.
  apply ok_bind. eapply ok_low_T; [exact Hc|].
  apply ok_bind. eapply ok_get_T_count; [exact Ht|].
  apply ok_bind. eapply ok_low_T; [exact Hc'|].
  apply ok_bind. eapply ok_get_T_count; [exact Ht'|].
  destruct (Qltb _ _).
  - eapply ok_bind_spec; [eapply deepcopy_exact; exact Ho|].
    intros r h' (-> & ->). apply ok_ret.
    assert (Hp : h `prefix_of` h ++ cost_block (length h) Tot)
      by now apply prefix_app_r.
    split; [exact Hp|]. split.
    + repeat split; cbn; try apply Hs.
      * eapply owned_live. apply block_owned.
      * eapply live_prefix; eassumption.
      * eapply live_prefix; eassumption.
    + destruct HS as (kT & kD & kW & PT & PD & PW & BT & BD & BW & H1 & H2 & H3).
      exists (length h), kD, kW. cbn. rewrite block_length.
      repeat split; try apply block_placed;
        try (eapply placed_prefix; eassumption); lia.
  - apply ok_ret. split; [reflexivity|]. split; [exact HB | exact HS].
Qed.

Lemma update_width_separate (base0 base h : Heap.heap) (total : Heap.loc)
    (Tot : Cost.t) (i : Z) (b : Heap.Best) (B : Best) :
  owned base h total Tot -> best_live h b B -> separate base0 h b ->
  ok (Heap.update_width total i b) h
     (fun b' h' => h `prefix_of` h' /\
                   best_live h' b' (update_width Tot i B) /\
                   separate base0 h' b').
Proof.
  intros Ho HB HS. pose proof Ho as (d & t & w & (Hc & Hd & Ht & Hw) & _).
  pose proof HB as (HT & HD & (d' & t' & w' & Hc' & Hd' & Ht' & Hw') & Hs).
  unfold Heap.update_width, update_width.
  apply ok_bind. eapply ok_low_width; [exact Hc|].
  apply ok_bind. eapply ok_get_T_count; [exact Hw|].
  apply ok_bind. eapply ok_low_width; [exact Hc'|].
  apply ok_bind. eapply ok_get_T_count; [exact Hw'|].
  destruct (Qltb _ _).
  - eapply ok_bind_spec; [eapply deepcopy_exact; exact Ho|].
    intros r h' (-> & ->). apply ok_ret.
    assert (Hp : h `prefix_of` h ++ cost_block (length h) Tot)
      by now apply prefix_app_r.
    split; [exact Hp|]. split.
    + repeat split; cbn; try apply Hs.
      * eapply live_prefix; eassumption.
      * eapply live_prefix; eassumption.
      * eapply owned_live. apply block_owned.
    + destruct HS as (kT & kD & kW & PT & PD & PW & BT & BD & BW & H1 & H2 & H3).
      exists kT, kD, (length h). cbn. rewrite block_length.
      repeat split; try apply block_placed;
        try (eapply placed_prefix; eassumption); lia.
  - apply ok_ret. split; [reflexivity|]. split; [exact HB | exact HS].
Qed.

Lemma update_depth_separate (base0 base h : Heap.heap) (total : Heap.loc)
    (Tot : Cost.t) (i : Z) (b : Heap.Best) (B : Best) :
  owned base h total Tot -> best_live h b B -> separate base0 h b ->
  ok (Heap.update_depth total i b) h
     (fun b' h' => h `prefix_of` h' /\
                   best_live h' b' (update_depth Tot i B) /\
                   separate base0 h' b').
Proof.
  intros Ho HB HS. pose proof Ho as (d & t & w & (Hc & Hd & Ht & Hw) & _).
  pose proof HB as (HT & (d' & t' & w' & Hc' & Hd' & Ht' & Hw') & HW & Hs).
  unfold Heap.update_depth, update_depth.
  apply ok_bind. eapply ok_low_depth; [exact Hc|].
  apply ok_bind. eapply ok_get_T_depth; [exact Hd|].
  apply ok_bind. eapply ok_low_depth; [exact Hc'|].
  apply ok_bind. eapply ok_get_T_depth; [exact Hd'|].
  destruct (Qltb _ _).
  - eapply ok_bind_spec; [eapply deepcopy_exact; exact Ho|].
    intros r h' (-> & ->). apply ok_ret.
    assert (Hp : h `prefix_of` h ++ cost_block (length h) Tot)
      by now apply prefix_app_r.
    split; [exact Hp|]. split.
    + repeat split; cbn; try apply Hs.
      * eapply live_prefix; eassumption.
      * eapply owned_live. apply block_owned.
      * eapply live_prefix; eassumption.
    + destruct HS as (kT & kD & kW & PT & PD & PW & BT & BD & BW & H1 & H2 & H3).
      exists kT, (length h), kW. cbn. rewrite block_length.
      repeat split; try apply block_placed;
        try (eapply placed_prefix; eassumption); lia.
  - apply ok_ret. split; [reflexivity|]. split; [exact HB | exact HS].
Qed.

(** The statements of an iteration before the comparisons leave a bundle
    that denotes [total_cost], constructed during the iteration. *)
Lemma loop_body_total (h : Heap.heap) (blank : Heap.loc) (BL : Cost.t)
    (n i : Z) (b : Heap.Best) (Q : Heap.Best -> Heap.heap -> Prop) :
  live h blank BL ->
  (forall (total : Heap.loc) (h' base : Heap.heap),
     h `prefix_of` h' -> owned base h' total (total_cost BL n i) ->
     ok (Heap.mbind (Heap.update_T total i b) (fun b1 =>
         Heap.mbind (Heap.update_width total i b1) (fun b2 =>
         Heap.update_depth total i b2))) h' Q) ->
  ok (Heap.loop_body blank n b i) h Q.
Proof.
  intros Hbl HQ. assert (H0 : h `prefix_of` h) by reflexivity.
  unfold Heap.loop_body. cbv zeta.
  eapply ok_bind_spec; [apply Lookup_Cost_spec|].
  intros l h1 (Hp1 & Hl). advance Hp1. apply owned_live in Hl.
  eapply ok_bind_spec; [eapply Cost_multiply_spec; exact Hl|].
  intros main h2 (Hp2 & Hmain). advance Hp2. apply owned_live in Hmain.
  eapply ok_bind_spec; [eapply Cost_add_spec; [exact Hbl | exact Hmain]|].
  intros ma h3 (Hp3 & Hma). advance Hp3. apply owned_live in Hma.
  eapply ok_bind_spec; [eapply Cost_multiply_spec; exact Hma|].
  intros total h4 (Hp4 & Htot).
  eapply ok_bind_spec
    with (P := fun total' h' =>
                 h3 `prefix_of` h' /\
                 exists base, owned base h' total' (total_cost BL n i)).
  - unfold total_cost. fold (main_lookup_costs n i).
    destruct (0 <? remainder_window n i)%Z.
    + advance Hp4. apply owned_live in Htot.
      eapply ok_bind_spec; [apply Lookup_Cost_spec|].
      intros l' h5 (Hp5 & Hl'). advance Hp5. apply owned_live in Hl'.
      eapply ok_bind_spec; [eapply Cost_multiply_spec; exact Hl'|].
      intros second h6 (Hp6 & Hsec). advance Hp6. apply owned_live in Hsec.
      eapply ok_bind_spec; [eapply Cost_add_spec; [exact Hbl | exact Hsec]|].
      intros sa h7 (Hp7 & Hsa). advance Hp7. apply owned_live in Hsa.
      eapply ok_bind_spec; [eapply Cost_multiply_spec; exact Hsa|].
      intros twice h8 (Hp8 & Htw). advance Hp8. apply owned_live in Htw.
      eapply ok_bind_spec; [eapply Cost_add_spec; [exact Htot | exact Htw]|].
      intros total' h9 (Hp9 & Htot').
      eapply add_max_widths_spec;
        [exact Hp9 | exact Htot' | exact Hsec | exact Hmain |].
      intros h' Hp' Ho'. apply ok_ret. split.
      * etransitivity; [exact Hp4 | exact Hp'].
      * exists h8. exact Ho'.
    + eapply add_widths_spec; [exact Hp4 | exact Htot | exact Hmain |].
      intros h' Hp' Ho'. apply ok_ret. split; [exact Hp'|].
      exists h3. exact Ho'.
  - intros total' h' (Hp' & base & Htot').
    apply (HQ total' h' base); [|exact Htot'].
    etransitivity; [exact H0 | exact Hp'].
Qed.

Lemma loop_body_separate (base0 h : Heap.heap) (blank : Heap.loc)
    (BL : Cost.t) (n i : Z) (b : Heap.Best) (B : Best) :
  live h blank BL -> best_live h b B -> separate base0 h b ->
  ok (Heap.loop_body blank n b i) h
     (fun b' h' => h `prefix_of` h' /\ live h' blank BL /\
                   best_live h' b' (loop_body BL n B i) /\
                   separate base0 h' b').
Proof.
  intros Hbl HB HS. apply (loop_body_total h blank BL n i b _ Hbl).
  intros total h1 base Hp1 Htot.
  apply (best_live_prefix _ _ _ _ Hp1) in HB.
  apply (separate_prefix _ _ _ _ Hp1) in HS.
  eapply ok_bind_spec; [eapply update_T_separate; eassumption|].
  clear HB HS. intros b1 h2 (Hp2 & HB & HS).
  apply (owned_prefix _ _ _ _ _ Hp2) in Htot.
  eapply ok_bind_spec; [eapply update_width_separate; eassumption|].
  clear HB HS. intros b2 h3 (Hp3 & HB & HS).
  apply (owned_prefix _ _ _ _ _ Hp3) in Htot.
  eapply ok_mono; [eapply update_depth_separate; eassumption|].
  clear HB HS. intros b3 h4 (Hp4 & HB & HS).
  assert (Hp : h `prefix_of` h4).
  { etransitivity; [exact Hp1|]. etransitivity; [exact Hp2|].
    etransitivity; [exact Hp3 | exact Hp4]. }
  split; [exact Hp|]. split; [exact (live_prefix _ _ _ _ Hp Hbl)|].
  split; [exact HB | exact HS].
Qed.

Lemma for_each_separate (base0 : Heap.heap) (blank : Heap.loc) (BL : Cost.t)
    (n : Z) (l : list Z) :
  forall (h : Heap.heap) (b : Heap.Best) (B : Best),
    live h blank BL -> best_live h b B -> separate base0 h b ->
    ok (Heap.for_each l (Heap.loop_body blank n) b) h
       (fun r h' => h `prefix_of` h' /\
                    best_live h' r (fold_left (loop_body BL n) l B) /\
                    separate base0 h' r).
Proof.
  induction l as [|i l IH]; intros h b B Hbl HB HS.
  - apply ok_ret. split; [reflexivity|]. split; [exact HB | exact HS].
  - cbn [Heap.for_each fold_left].
    eapply ok_bind_spec; [apply loop_body_separate; eassumption|].
    intros b' h' (Hp & Hbl' & HB' & HS').
    eapply ok_mono; [apply IH; eassumption|].
    intros r h'' (Hp' & Hr). split; [|exact Hr].
    etransitivity; eassumption.
Qed.

Lemma get_optimal_shor_separate (h : Heap.heap) (addition_cost : Heap.loc)
    (A : Cost.t) (n : Z) :
  live h addition_cost A ->
  ok (Heap.get_optimal_shor addition_cost n) h
     (fun r h' => h `prefix_of` h' /\
                  best_live h' r (get_optimal_shor A n) /\
                  separate h h' r).
Proof.
  intros HA. assert (H0 : h `prefix_of` h) by reflexivity.
  unfold Heap.get_optimal_shor.
  eapply ok_bind_spec; [apply Lookup_Cost_spec|].
  intros l h1 (Hp1 & Hl). advance Hp1. apply owned_live in Hl.
  eapply ok_bind_spec; [eapply Cost_multiply_spec; exact Hl|].
  intros eight h2 (Hp2 & He). advance Hp2. apply owned_live in He.
  eapply ok_bind_spec; [eapply Cost_subtract_spec; [exact HA | exact He]|].
  intros blank h3 (Hp3 & Hbl).
  eapply sub_widths_spec; [exact Hp3 | exact Hbl | exact He |].
  intros h4 Hp4 Hbl4. advance Hp4. apply owned_live in Hbl4.
  fold (eight_lookup_cost n) in Hbl4.
  change (live h4 blank (blank_addition_cost A n)) in Hbl4.
  pose proof (prefix_length _ _ H0) as L0.
  eapply ok_bind_spec; [eapply Cost_multiply_exact; exact HA|].
  intros bT h5 (-> & ->).
  set (s := Cost.multiply A (inject_Z (2 * n))) in *.
  set (h5 := h4 ++ cost_block (length h4) s).
  assert (Hp5 : h4 `prefix_of` h5) by now apply prefix_app_r.
  assert (HbT : live h5 (length h4 + 3)%nat s)
    by (eapply owned_live; apply block_owned).
  assert (PT : placed h5 (length h4 + 3)%nat (length h4)) by apply block_placed.
  assert (L5 : length h5 = (length h4 + 4)%nat) by apply block_length.
  apply (live_prefix _ _ _ _ Hp5) in HA, Hbl4.
  eapply ok_bind_spec; [eapply Cost_multiply_exact; exact HA|].
  intros bD h6 (-> & ->). fold s.
  set (h6 := h5 ++ cost_block (length h5) s).
  assert (Hp6 : h5 `prefix_of` h6) by now apply prefix_app_r.
  assert (HbD : live h6 (length h5 + 3)%nat s)
    by (eapply owned_live; apply block_owned).
  assert (PD : placed h6 (length h5 + 3)%nat (length h5)) by apply block_placed.
  assert (L6 : length h6 = (length h5 + 4)%nat) by apply block_length.
  apply (live_prefix _ _ _ _ Hp6) in HA, Hbl4, HbT.
  apply (placed_prefix _ _ _ _ Hp6) in PT.
  eapply ok_bind_spec; [eapply Cost_multiply_exact; exact HA|].
  intros bW h7 (-> & ->). fold s.
  set (h7 := h6 ++ cost_block (length h6) s).
  assert (Hp7 : h6 `prefix_of` h7) by now apply prefix_app_r.
  assert (HbW : live h7 (length h6 + 3)%nat s)
    by (eapply owned_live; apply block_owned).
  assert (PW : placed h7 (length h6 + 3)%nat (length h6)) by apply block_placed.
  assert (L7 : length h7 = (length h6 + 4)%nat) by apply block_length.
  apply (live_prefix _ _ _ _ Hp7) in HA, Hbl4, HbT, HbD.
  apply (placed_prefix _ _ _ _ Hp7) in PT, PD.
  pose proof (prefix_length _ _ Hp4) as L4.
  eapply ok_mono.
  - apply (for_each_separate h blank (blank_addition_cost A n) n _ h7 _
             (initial_best A n)); [exact Hbl4 | |].
    + repeat split; assumption.
    + exists (length h4), (length h5), (length h6).
      cbn [Heap.best_T Heap.best_depth Heap.best_width].
      split; [exact PT|]. split; [exact PD|]. split; [exact PW|]. lia.
  - intros r h' (Hp' & Hr). split; [|exact Hr].
    etransitivity; [exact H0|]. etransitivity; [exact Hp5|].
    etransitivity; [exact Hp6|]. etransitivity; [exact Hp7 | exact Hp'].
Qed.

(** The three bundles [get_optimal_shor] returns share no object with one
    another or with the store of the caller: the three bundles and their
    nine single costs are twelve distinct objects, all constructed by the
    call.  (Each best is a fresh product at first and a deep copy
    afterwards.) *)
Theorem results_share_no_object (h : Heap.heap) (addition_cost : Heap.loc)
    (A : Cost.t) (n : Z) :
  Heap.read_cost h addition_cost = Some A ->
  exists (r : Heap.Best) (h' : Heap.heap) (fT fD fW : list Heap.loc),
    Heap.get_optimal_shor addition_cost n h = Some (r, h') /\
    footprint h' (Heap.best_T r) fT /\
    footprint h' (Heap.best_depth r) fD /\
    footprint h' (Heap.best_width r) fW /\
    NoDup (fT ++ fD ++ fW) /\
    Forall (fun l : Heap.loc => (length h <= l)%nat) (fT ++ fD ++ fW).
Proof.
  intros HA. apply live_read_cost in HA.
  pose proof (get_optimal_shor_separate h addition_cost A n HA) as H.
  unfold ok in H.
  destruct (Heap.get_optimal_shor addition_cost n h) as [[r h']|];
    [|contradiction].
  destruct H as (_ & _ & kT & kD & kW & [PT ET] & [PD ED] & [PW EW]
                 & BT & BD & BW & H1 & H2 & H3).
  exists r, h', [Heap.best_T r; kT; (kT + 1)%nat; (kT + 2)%nat],
    [Heap.best_depth r; kD; (kD + 1)%nat; (kD + 2)%nat],
    [Heap.best_width r; kW; (kW + 1)%nat; (kW + 2)%nat].
  split; [reflexivity|].
  split; [now exists kT, (kT + 1)%nat, (kT + 2)%nat|].
  split; [now exists kD, (kD + 1)%nat, (kD + 2)%nat|].
  split; [now exists kW, (kW + 1)%nat, (kW + 2)%nat|].
  rewrite ET, ED, EW. cbn [app]. split.
  - repeat (apply NoDup_cons; split;
            [rewrite ?not_elem_of_cons; repeat split;
             try lia; apply not_elem_of_nil|]).
    apply NoDup_nil. exact I.
  - repeat (apply Forall_cons; split; [lia|]). apply Forall_nil. exact I.
Qed.

Lemma results_share_no_object_witness :
  exists (r : Heap.Best) (h' : Heap.heap) (fT fD fW : list Heap.loc),
    Heap.get_optimal_shor 3%nat 10 sample_store = Some (r, h') /\
    footprint h' (Heap.best_T r) fT /\
    footprint h' (Heap.best_depth r) fD /\
    footprint h' (Heap.best_width r) fW /\
    NoDup (fT ++ fD ++ fW) /\
    Forall (fun l : Heap.loc => (length sample_store <= l)%nat)
           (fT ++ fD ++ fW).
Proof.
  apply (results_share_no_object sample_store 3%nat (Lookup_Cost 10 8) 10).
  reflexivity.
Defined.

(** ** More on the script on Python's numbers *)

(** *** The cost returned is the cost of the window returned *)




Section Selection.

Variable metric : Script.Cost.t -> Python.num.
Variable best : Script.Best -> Script.Cost.t.
Variable size : Script.Best -> Z.
Variable blank seed : Script.Cost.t.
Variable n : Z.

(** The comparison of this objective. *)
Hypothesis step :
  forall (total : Script.Cost.t) (i : Z) (b : Script.Best),
    (best (Script.compare total i b), size (Script.compare total i b))
    = (if Python.ltb (metric total) (metric (best b))
       then (total, i) else (best b, size b)).



End Selection.








(** For a bit-width below 2^53 the windows of a candidate cover the
    bit-width exactly: the number of windows is the integer quotient, the
    full windows and the remainder window add up to n bits, and the number
    of full windows is not negative. *)
Theorem windows_cover_bit_width_below_2_53 (n i : Z) :
  (0 <= n < 2 ^ 53)%Z -> (0 <= i < 2 ^ 53 - 1)%Z ->
  Script.num_windows n i = inr (num_windows n i) /\
  (num_windows n i * (i + 1)
     + Script.remainder_window n i (num_windows n i) = n)%Z /\
  (0 <= num_windows n i)%Z.
Proof.
  intros Hn Hi. unfold num_windows.
  split; [now apply num_windows_below_2_53|].
  rewrite remainder_is_mod by lia. split.
  - rewrite (Z.mod_eq n (i + 1)) by lia. lia.
  - apply Z.div_pos; lia.
Qed.

Lemma windows_cover_bit_width_below_2_53_witness :
  Script.num_windows 10 2 = inr (num_windows 10 2) /\
  (num_windows 10 2 * (2 + 1)
     + Script.remainder_window 10 2 (num_windows 10 2) = 10)%Z /\
  (0 <= num_windows 10 2)%Z.
Proof.
  apply (windows_cover_bit_width_below_2_53 10 2);
    vm_compute; split; first [discriminate | reflexivity].
Defined.

(** [Lookup_Cost] returns for the window sizes from 0 to 1023, with
    a double in every attribute, and raises OverflowError from window
    size 1024 on, where [2**window_size] has no double. *)
Theorem Lookup_Cost_returns_below_1024 (n w : Z) :
  (0 <= w)%Z -> (Z.abs n < Python.float_limit)%Z ->
  ((w < 1024)%Z ->
   exists c, Script.Lookup_Cost n w = inr c /\ vectors is_float c) /\
  ((1024 <= w)%Z -> Script.Lookup_Cost n w = inl Python.OverflowError).
Proof.
  intros Hw Hn. split.
  - intros H. apply Lookup_Cost_floats; [lia | exact Hn].
  - apply Lookup_Cost_overflow.
Qed.

Lemma Lookup_Cost_returns_below_1024_witness :
  ((1023 < 1024)%Z ->
   exists c, Script.Lookup_Cost 2049 1023 = inr c /\ vectors is_float c) /\
  ((1024 <= 1023)%Z ->
   Script.Lookup_Cost 2049 1023 = inl Python.OverflowError).
Proof.
  apply (Lookup_Cost_returns_below_1024 2049 1023); [lia | reflexivity].
Defined.

(** From the bit-width 2050 on, [get_optimal_shor] raises: the loop
    reaches window size 1024. *)
Theorem get_optimal_shor_raises_from_2050
    (addition_cost : Script.Cost.t) (n : Z) :
  (2050 <= n)%Z ->
  exists e : Python.error, Script.get_optimal_shor addition_cost n = inl e.
Proof. apply get_optimal_shor_overflow. Qed.

Lemma get_optimal_shor_raises_from_2050_witness :
  exists e : Python.error, Script.get_optimal_shor all_1e20 2050 = inl e.
Proof.
  apply (get_optimal_shor_raises_from_2050 all_1e20 2050). lia.
Defined.

